(** * paybot-sdk: payment execution and the x402 auto-pay interceptor

    A shallow embedding of [PayBotClient] (pay, buildPaymentPayload,
    usdToBaseUnits), of the network registry's signing domains and of
    [createX402Handler] / [parse402Response], together with the
    properties of the specification that concern them.

    JavaScript values that reach the code from the network are modelled
    dynamically ([JsValue]); awaited calls are written in a state and
    exception monad over an explicit world (the transport, the clock and
    the random source). The language and the Fetch API are followed
    where the code leans on them: a read of a registry walks the
    prototype chain of the object literal, the conversions to strings
    and numbers throw on values without a primitive form, and [Headers]
    normalises and checks what it stores. *)

From Stdlib Require Import ZArith NArith String Ascii List Floats Lia.
From Stdlib Require Import DecimalString DecimalN DecimalPos DecimalFacts.
From stdpp Require Import base option list strings gmap.

Local Open Scope string_scope.
Set Warnings "-register-all".

(** ** JavaScript strings

    A string is a sequence of code units; the operations below are the
    ones [usdToBaseUnits] calls, with the argument shapes it uses (a
    one-character separator, a one-character filler, a slice with two
    non-negative bounds, the anchored pattern [/^0+/]). *)

Module JsString.

(** [s.split(c)]: the pieces between the occurrences of [c]; never
    empty, and [[""]] for the empty string. *)
Fixpoint split (sep : ascii) (s : string) : list string :=
  match s with
  | EmptyString => [EmptyString]
  | String a rest =>
      if Ascii.eqb a sep then EmptyString :: split sep rest
      else match split sep rest with
           | piece :: pieces => String a piece :: pieces
           | [] => [String a EmptyString]
           end
  end.

Fixpoint repeat_char (c : ascii) (n : nat) : string :=
  match n with
  | O => EmptyString
  | S k => String c (repeat_char c k)
  end.

(** [s.padEnd(n, c)]. *)
Definition padEnd (n : nat) (c : ascii) (s : string) : string :=
  s +:+ repeat_char c (n - String.length s).

(** [s.slice(b, e)] for [0 <= b <= e]. *)
Definition slice (b e : nat) (s : string) : string :=
  String.substring b (e - b) s.

(** [s.replace(/^0+/, '')]. *)
Fixpoint strip_leading_zeros (s : string) : string :=
  match s with
  | String "0" rest => strip_leading_zeros rest
  | _ => s
  end.

(** [s || d]: the empty string is the only falsy string. *)
Definition or_else (s d : string) : string :=
  match s with
  | EmptyString => d
  | _ => s
  end.

End JsString.

(** ** Amount conversion (client, [usdToBaseUnits]) *)

Definition usdToBaseUnits (usdAmount : string) : string :=
  let parts := JsString.split "." usdAmount in
  let whole := default "0" (parts !! 0%nat) in
  let fraction :=
    JsString.slice 0 6 (JsString.padEnd 6 "0" (default "" (parts !! 1%nat))) in
  JsString.or_else (JsString.strip_leading_zeros (whole +:+ fraction)) "0".

(** *** Decimal reading of digit strings, used to state the conversion *)

Definition is_digit (c : ascii) : bool :=
  (48 <=? N_of_ascii c)%N && (N_of_ascii c <=? 57)%N.

Fixpoint all_digits (s : string) : bool :=
  match s with
  | EmptyString => true
  | String c rest => is_digit c && all_digits rest
  end.

Definition digit_value (c : ascii) : N := (N_of_ascii c - 48)%N.

(** Value of a digit string read left to right from an accumulator. *)
Fixpoint digits_value_from (acc : N) (s : string) : N :=
  match s with
  | EmptyString => acc
  | String c rest => digits_value_from (acc * 10 + digit_value c)%N rest
  end.

Definition digits_value (s : string) : N := digits_value_from 0 s.

(** The decimal numeral of a natural number: no leading zero, ["0"] for
    zero (the Standard Library's printer). *)
Definition decimal_of_N (n : N) : string :=
  NilZero.string_of_uint (N.to_uint n).

(** The amount a decimal string [whole.frac] denotes, in millionths. *)
Definition scaled_amount (whole frac : string) : N :=
  (digits_value whole * 10 ^ 6
   + digits_value frac * 10 ^ N.of_nat (6 - String.length frac))%N.

(** ** JavaScript values and completions

    Response bodies are decoded JSON and the code reads them through
    unchecked casts, so they are kept dynamically typed. Numbers are
    IEEE 754 binary64, as in the language. *)

Inductive JsValue : Type :=
  | JUndefined
  | JNull
  | JBool (b : bool)
  | JNum (x : float)
  | JStr (s : string)
  | JArr (items : list JsValue)
  | JObj (props : list (string * JsValue)).

(** What a [throw] carries: an [Error] instance (with its message) or
    any other value. *)
Inductive Thrown : Type :=
  | ErrorObject (message : string)
  | ThrownValue (v : JsValue).

(** The outcome of evaluating an expression or awaiting a promise. *)
Inductive Completion (A : Type) : Type :=
  | Normal (a : A)
  | Throw (e : Thrown).
Arguments Normal {A} a.
Arguments Throw {A} e.

Definition cbind {A B} (c : Completion A) (k : A -> Completion B) : Completion B :=
  match c with
  | Normal a => k a
  | Throw e => Throw e
  end.

Notation "x <~ c ;; k" := (cbind c (fun x => k))
  (at level 100, c at next level, k at level 200, right associativity).

Module Js.

(** [v === undefined || v === null]. *)
Definition nullish (v : JsValue) : bool :=
  match v with
  | JUndefined | JNull => true
  | _ => false
  end.

(** [v ?? d]. *)
Definition coalesce (v d : JsValue) : JsValue :=
  if nullish v then d else v.

(** ToBoolean: [undefined], [null], [false], [0], [-0], [NaN] and [""]
    are falsy. *)
Definition truthy (v : JsValue) : bool :=
  match v with
  | JUndefined | JNull => false
  | JBool b => b
  | JNum x => PrimFloat.ltb x 0 || PrimFloat.ltb 0 x
  | JStr s => negb (String.eqb s "")
  | JArr _ | JObj _ => true
  end.

(** Own property of an object built by the JSON decoder. *)
Fixpoint lookup_prop (name : string) (props : list (string * JsValue)) : JsValue :=
  match props with
  | [] => JUndefined
  | (k, v) :: rest => if String.eqb k name then v else lookup_prop name rest
  end.

(** Whether a decoded object has an own member of that name. *)
Definition has_own (name : string) (props : list (string * JsValue)) : bool :=
  List.existsb (fun kv => String.eqb (fst kv) name) props.

Fixpoint join_with (sep : string) (pieces : list string) : string :=
  match pieces with
  | [] => ""
  | [p] => p
  | p :: rest => p +:+ sep +:+ join_with sep rest
  end.

End Js.

(** ** Objects written as literals

    The registries of the code are object literals read with
    [table[key]]. Such a read finds the own member of that name and,
    failing that, walks the prototype chain: for a name that
    [Object.prototype] defines it gives the inherited member (an
    accessor's value for [__proto__], a function for the others), which
    is never [undefined] and is truthy. *)

Module JsObject.

Definition prototype_members : list string :=
  [ "constructor"; "__defineGetter__"; "__defineSetter__"; "hasOwnProperty";
    "__lookupGetter__"; "__lookupSetter__"; "isPrototypeOf";
    "propertyIsEnumerable"; "toString"; "valueOf"; "__proto__";
    "toLocaleString" ].

Definition inherits (key : string) : bool :=
  List.existsb (String.eqb key) prototype_members.

(** What [table[key]] gives when it is not [undefined]: the own entry,
    or the member of [Object.prototype] of that name. *)
Inductive Member (A : Type) : Type :=
  | Own (entry : A)
  | Inherited (name : string).
Arguments Own {A} entry.
Arguments Inherited {A} name.

(** [table[key]], from the own entry of that key if there is one. *)
Definition index {A} (own : option A) (key : string) : option (Member A) :=
  match own with
  | Some entry => Some (Own entry)
  | None => if inherits key then Some (Inherited key) else None
  end.

End JsObject.

(** [BigInt.prototype.toString] and the printing of integral numbers
    such as an HTTP status. *)
Definition Z_toString (z : Z) : string :=
  NilZero.string_of_int (Z.to_int z).

(** ** Headers, requests and responses of the Fetch API

    A [Headers] object is its list of entries. The strings of this
    development hold code units below 256, which are the byte strings
    of the Fetch standard, so the conversion of a name or a value to a
    byte string is the identity here. *)

Definition Headers : Type := list (string * string).

Module HeadersApi.

Definition lower_ascii (c : ascii) : ascii :=
  let n := N_of_ascii c in
  if ((65 <=? n) && (n <=? 90))%N then ascii_of_N (n + 32) else c.

Fixpoint lower (s : string) : string :=
  match s with
  | EmptyString => EmptyString
  | String c rest => String (lower_ascii c) (lower rest)
  end.

(** Header names are compared without regard to case. *)
Definition same_name (a b : string) : bool :=
  String.eqb (lower a) (lower b).

(** [h.get(name)]: [null] when absent, the values joined by ", "
    otherwise. *)
Definition get (name : string) (h : Headers) : option string :=
  match List.filter (fun kv => same_name (fst kv) name) h with
  | [] => None
  | found => Some (Js.join_with ", " (List.map snd found))
  end.

(** HTTP whitespace: tab, line feed, carriage return and space. *)
Definition is_whitespace (c : ascii) : bool :=
  let n := N_of_ascii c in
  ((n =? 9) || (n =? 10) || (n =? 13) || (n =? 32))%N.

Fixpoint strip_leading (s : string) : string :=
  match s with
  | EmptyString => EmptyString
  | String c rest => if is_whitespace c then strip_leading rest else s
  end.

Fixpoint strip_trailing (s : string) : string :=
  match s with
  | EmptyString => EmptyString
  | String c rest =>
      match strip_trailing rest with
      | EmptyString => if is_whitespace c then EmptyString else String c EmptyString
      | kept => String c kept
      end
  end.

(** A value is normalised before it is stored: the whitespace at its
    two ends is removed. *)
Definition normalize (value : string) : string :=
  strip_trailing (strip_leading value).

(** A header value holds no NUL, no line feed and no carriage return. *)
Fixpoint is_value (value : string) : bool :=
  match value with
  | EmptyString => true
  | String c rest =>
      let n := N_of_ascii c in
      negb ((n =? 0) || (n =? 10) || (n =? 13))%N && is_value rest
  end.

(** The characters of a token: letters, digits and
    [! # $ % & ' * + - . ^ _ ` | ~]. *)
Definition is_token_char (c : ascii) : bool :=
  let n := N_of_ascii c in
  (((48 <=? n) && (n <=? 57)) || ((65 <=? n) && (n <=? 90))
   || ((97 <=? n) && (n <=? 122))
   || List.existsb (N.eqb n) [33; 35; 36; 37; 38; 39; 42; 43; 45; 46; 94; 95; 96; 124; 126])%N.

Fixpoint all_token_chars (s : string) : bool :=
  match s with
  | EmptyString => true
  | String c rest => is_token_char c && all_token_chars rest
  end.

(** A header name is a token that is not empty. *)
Definition is_name (name : string) : bool :=
  negb (String.eqb name "") && all_token_chars name.

Fixpoint replace_first (name value : string) (h : Headers) : Headers :=
  match h with
  | [] => []
  | (k, v) :: rest =>
      if same_name k name
      then (k, value) :: List.filter (fun kv => negb (same_name (fst kv) name)) rest
      else (k, v) :: replace_first name value rest
  end.

(** The entries after [name] was set to a value that passed the
    checks: the first entry of that name takes the value and the others
    go; a new name is appended. *)
Definition put (name value : string) (h : Headers) : Headers :=
  if List.existsb (fun kv => same_name (fst kv) name) h
  then replace_first name value h
  else (h ++ [(name, value)])%list.

(** [h.set(name, value)]: the value is normalised, then the name and
    the value are checked; [None] stands for the TypeError of a name
    that is no token or a value with a forbidden character. *)
Definition set (name value : string) (h : Headers) : option Headers :=
  let value := normalize value in
  if is_name name && is_value value then Some (put name value h) else None.

(** [h.append(name, value)], with the same normalisation and checks. *)
Definition append (name value : string) (h : Headers) : option Headers :=
  let value := normalize value in
  if is_name name && is_value value then Some (h ++ [(name, value)])%list else None.

End HeadersApi.

(** [RequestInit]: the headers (the pairs a [HeadersInit] holds, or a
    [Headers] object), and every other option as given. *)
Record RequestInit : Type := {
  init_headers : option (list (string * string));
  init_rest : list (string * JsValue);
}.

Record Response : Type := {
  status : Z;
  headers : Headers;
  json : Completion JsValue;   (* what awaiting [response.json()] gives *)
}.

(** [response.ok]: the status is in the range 200-299. *)
Definition ok (r : Response) : bool :=
  (200 <=? status r)%Z && (status r <=? 299)%Z.

(** ** Registry of signing domains (networks, [EIP712_DOMAINS]) *)

Record EIP712Domain : Type := {
  domain_name : string;
  domain_version : string;
  domain_chainId : Z;
  verifyingContract : string;
}.

Definition EIP712_DOMAINS : gmap string EIP712Domain :=
  <[ "eip155:84532" :=
       {| domain_name := "USDC"; domain_version := "2"; domain_chainId := 84532;
          verifyingContract := "0x036CbD53842c5426634e7929541eC2318f3dCF7e" |} ]>
  (<[ "eip155:8453" :=
       {| domain_name := "USDC"; domain_version := "2"; domain_chainId := 8453;
          verifyingContract := "0x833589fCD6eDb6E08f4c7C32D4f71b54bdA02913" |} ]>
   ∅).

Definition EIP3009_TYPES : list (string * list (string * string)) :=
  [ ("TransferWithAuthorization",
     [ ("from", "address"); ("to", "address"); ("value", "uint256");
       ("validAfter", "uint256"); ("validBefore", "uint256");
       ("nonce", "bytes32") ]) ].

(** The message of an EIP-3009 authorization; its integers are bigints. *)
Record TransferWithAuthorization : Type := {
  auth_from : string;
  auth_to : string;
  auth_value : Z;
  validAfter : Z;
  validBefore : Z;
  auth_nonce : string;
}.

(** [EIP712_DOMAINS[network]]. *)
Definition signing_domain (network : string) : option (JsObject.Member EIP712Domain) :=
  JsObject.index (EIP712_DOMAINS !! network) network.

(** The typed data handed to the signer; its domain is whatever the
    registry lookup gave. *)
Record TypedData : Type := {
  td_domain : JsObject.Member EIP712Domain;
  td_types : list (string * list (string * string));
  td_primaryType : string;
  td_message : TransferWithAuthorization;
}.

(** A viem account: its address and its typed-data signer. *)
Record Account : Type := {
  address : string;
  signTypedData : TypedData -> Completion string;
}.

(** ** The platform

    What the code calls but does not define: the transport behind
    [fetch], the clock, the random source, the viem key functions and
    the language's conversions between numbers, bigints, JSON and
    strings. Every property below holds for any platform. *)

Class Platform : Type := {
  World : Type;
  (** [fetch(url, init)]: a response or a rejection, and the next world. *)
  transport : string -> option RequestInit -> World -> Completion Response * World;
  (** [Date.now()], in milliseconds. *)
  Date_now : World -> Z;
  (** [randomBytes(n)]. *)
  randomBytes : nat -> World -> list Byte.byte * World;
  privateKeyToAccount : string -> Completion Account;
  (** [BigInt(s)], which throws on a string that is no integer. *)
  BigInt : string -> Completion Z;
  JSON_stringify : JsValue -> string;
  (** [Number(s)], [String(x)] and [x.toFixed(d)] on numbers. *)
  Number_of_string : string -> float;
  Number_toString : float -> string;
  Number_toFixed : float -> nat -> string;
  (** The message of the TypeError for reading a property of
      [undefined] or [null]. *)
  cannot_read : JsValue -> string -> string;
  (** The message of the TypeError for a value that has no primitive
      value. *)
  cannot_convert : JsValue -> string;
  (** The message of the TypeError of [Headers] for a name and a value
      that do not pass its checks. *)
  invalid_header : string -> string -> string;
}.

Section Conversions.
Context `{Platform}.

(** [String(v)], which is also the conversion of a template literal
    and of the [Error] constructor. A decoded object is printed by
    [Object.prototype.toString] unless it has an own member named
    [toString]: that member is no function, [valueOf] gives no
    primitive either, and the conversion throws a TypeError. An array
    is printed by joining its elements, [undefined] and [null] as the
    empty string, the others converted in turn. *)
Fixpoint JS_String (v : JsValue) : Completion string :=
  match v with
  | JUndefined => Normal "undefined"
  | JNull => Normal "null"
  | JBool true => Normal "true"
  | JBool false => Normal "false"
  | JNum x => Normal (Number_toString x)
  | JStr s => Normal s
  | JArr items =>
      (fix join (l : list JsValue) : Completion string :=
         match l with
         | [] => Normal ""
         | i :: rest =>
             s <~ (if Js.nullish i then Normal "" else JS_String i) ;;
             match rest with
             | [] => Normal s
             | _ => r <~ join rest ;; Normal (s +:+ "," +:+ r)
             end
         end) items
  | JObj props =>
      if Js.has_own "toString" props
      then Throw (ErrorObject (cannot_convert v))
      else Normal "[object Object]"
  end.

(** [Number(v)]: an object or an array is converted to a string first
    ([valueOf] gives the object itself). *)
Definition JS_Number (v : JsValue) : Completion float :=
  match v with
  | JUndefined => Normal nan
  | JNull => Normal 0%float
  | JBool true => Normal 1%float
  | JBool false => Normal 0%float
  | JNum x => Normal x
  | JStr s => Normal (Number_of_string s)
  | JArr _ | JObj _ => s <~ JS_String v ;; Normal (Number_of_string s)
  end.

(** [v.name]: a TypeError on [undefined] and [null], the own property
    of an object, [undefined] on the other values (none of the names
    the code reads is a member of a primitive's or an array's
    prototype). *)
Definition get_prop (v : JsValue) (name : string) : Completion JsValue :=
  match v with
  | JUndefined | JNull => Throw (ErrorObject (cannot_read v name))
  | JObj props => Normal (Js.lookup_prop name props)
  | _ => Normal JUndefined
  end.

(** [v?.name]. *)
Definition get_prop_opt (v : JsValue) (name : string) : Completion JsValue :=
  if Js.nullish v then Normal JUndefined else get_prop v name.

End Conversions.

(** errors.ts, [getErrorMessage]. *)
Definition getErrorMessage (error : Thrown) : string :=
  match error with
  | ErrorObject message => message
  | ThrownValue (JStr s) => s
  | ThrownValue _ => "Unknown error"
  end.

(** crypto.ts: the lower-case hexadecimal print of a byte string. *)
Definition hex_digit (n : N) : ascii :=
  match n with
  | 0 => "0" | 1 => "1" | 2 => "2" | 3 => "3" | 4 => "4" | 5 => "5"
  | 6 => "6" | 7 => "7" | 8 => "8" | 9 => "9" | 10 => "a" | 11 => "b"
  | 12 => "c" | 13 => "d" | 14 => "e" | _ => "f"
  end%N%char.

Fixpoint toHex (bytes : list Byte.byte) : string :=
  match bytes with
  | [] => ""
  | b :: rest =>
      let n := Byte.to_N b in
      String (hex_digit (n / 16)) (String (hex_digit (n mod 16)) (toHex rest))
  end.


(** ** Data of the SDK (types.ts) *)

Record PayBotConfig : Type := {
  cfg_apiKey : string;
  cfg_facilitatorUrl : option string;
  cfg_botId : string;
  cfg_operatorId : option string;
  cfg_walletPrivateKey : option string;
}.

Record PaymentRequest : Type := {
  resource : string;
  amount : string;
  payTo : string;
  tokenContract : option string;
  network : option string;
}.

(** The optional members hold [JUndefined] when the object literal
    leaves them out; the four amount members are in every literal. *)
Record PaymentResult : Type := {
  success : bool;
  txHash : JsValue;
  grossAmount : string;
  netAmount : string;
  commissionAmount : string;
  commissionRate : float;
  res_network : JsValue;
  error : JsValue;
  errorCode : JsValue;
  errorDetails : JsValue;
}.

(** ** Effects

    The state threaded through awaited calls is the world and a record
    of what was observed: every request handed to [fetch], and every
    call of [PayBotClient.pay] (the spy a test would install). *)

Inductive Event : Type :=
  | Fetched (url : string) (init : option RequestInit)
  | PayCalled (request : PaymentRequest).

Section Effects.
Context `{Platform}.

Record State : Type := {
  world : World;
  log : list Event;
}.

Definition M (A : Type) : Type := State -> Completion A * State.

Definition ret {A} (a : A) : M A := fun st => (Normal a, st).

Definition throw {A} (e : Thrown) : M A := fun st => (Throw e, st).

Definition bind {A B} (m : M A) (k : A -> M B) : M B :=
  fun st =>
    match m st with
    | (Normal a, st') => k a st'
    | (Throw e, st') => (Throw e, st')
    end.

(** [try { m } catch (e) { handler e }]. *)
Definition try_catch {A} (m : M A) (handler : Thrown -> M A) : M A :=
  fun st =>
    match m st with
    | (Normal a, st') => (Normal a, st')
    | (Throw e, st') => handler e st'
    end.

Definition lift {A} (c : Completion A) : M A := fun st => (c, st).

Definition record (e : Event) : M unit :=
  fun st => (Normal tt, {| world := world st; log := (log st ++ [e])%list |}).

(** [await fetch(url, init)]. *)
Definition fetch (url : string) (init : option RequestInit) : M Response :=
  fun st =>
    let (outcome, w) := transport url init (world st) in
    (outcome, {| world := w; log := (log st ++ [Fetched url init])%list |}).

(** [BigInt(Math.floor(Date.now() / 1000))]: the whole seconds of the
    clock (the quotient is exact for every time a clock gives). *)
Definition nowSeconds : M Z :=
  fun st => (Normal (Date_now (world st) / 1000)%Z, st).

(** crypto.ts, [generateEIP3009Nonce]. *)
Definition generateEIP3009Nonce : M string :=
  fun st =>
    let (bytes, w) := randomBytes 32 (world st) in
    (Normal ("0x" +:+ toHex bytes), {| world := w; log := log st |}).

End Effects.

Notation "x <- m ;; k" := (bind m (fun x => k))
  (at level 100, m at next level, k at level 200, right associativity).

(** ** PayBotClient (client) *)

Section Client.
Context `{Platform}.

(** [this.config], as the constructor fills it. *)
Record ClientConfig : Type := {
  apiKey : string;
  facilitatorUrl : string;
  botId : string;
  operatorId : string;
  walletPrivateKey : option string;
}.

Definition PayBotClient (config : PayBotConfig) : ClientConfig :=
  {| apiKey := cfg_apiKey config;
     facilitatorUrl := default "http://localhost:3000" (cfg_facilitatorUrl config);
     botId := cfg_botId config;
     operatorId := default "default-operator" (cfg_operatorId config);
     walletPrivateKey := cfg_walletPrivateKey config |}.

(** The object [buildPaymentPayload] serialises: every integer is
    printed in decimal. *)
Definition proof_object (m : TransferWithAuthorization) (signature : string) : JsValue :=
  JObj [ ("from", JStr (auth_from m));
         ("to", JStr (auth_to m));
         ("value", JStr (Z_toString (auth_value m)));
         ("validAfter", JStr (Z_toString (validAfter m)));
         ("validBefore", JStr (Z_toString (validBefore m)));
         ("nonce", JStr (auth_nonce m));
         ("signature", JStr signature) ].

Definition buildPaymentPayload (this : ClientConfig)
    (payTo amountBaseUnits network : string) : M string :=
  match walletPrivateKey this with
  | None | Some "" => ret ("payer:" +:+ botId this)
  | Some key =>
      match signing_domain network with
      | None => throw (ErrorObject ("No EIP-712 domain for network: " +:+ network))
      | Some domain =>
          account <- lift (privateKeyToAccount key) ;;
          nonce <- generateEIP3009Nonce ;;
          now <- nowSeconds ;;
          let validAfter := 0%Z in
          let validBefore := (now + 3600)%Z in
          value <- lift (BigInt amountBaseUnits) ;;
          let message :=
            {| auth_from := address account; auth_to := payTo;
               auth_value := value; validAfter := validAfter;
               validBefore := validBefore; auth_nonce := nonce |} in
          signature <- lift (signTypedData account
                               {| td_domain := domain;
                                  td_types := EIP3009_TYPES;
                                  td_primaryType := "TransferWithAuthorization";
                                  td_message := message |}) ;;
          ret (JSON_stringify (proof_object message signature))
      end
  end.

(** The failure literal of [pay]: zeroed amounts, no transaction. *)
Definition failed (error errorCode errorDetails : JsValue) : PaymentResult :=
  {| success := false; txHash := JUndefined;
     grossAmount := "0"; netAmount := "0"; commissionAmount := "0";
     commissionRate := 0;
     res_network := JUndefined;
     error := error; errorCode := errorCode; errorDetails := errorDetails |}.

(** The literal returned on a response that is not [ok], from the
    decoded error body. *)
Definition rejected (errorData : JsValue) (fallback : string) : Completion PaymentResult :=
  e <~ get_prop errorData "error" ;;
  c <~ get_prop errorData "code" ;;
  d <~ get_prop errorData "details" ;;
  Normal (failed (Js.coalesce e (JStr fallback)) (Js.coalesce c JUndefined) d).

(** [await response.json().catch(() => ({}))]. *)
Definition json_or_empty (response : Response) : JsValue :=
  match json response with
  | Normal v => v
  | Throw _ => JObj []
  end.

Definition post (this : ClientConfig) (body : JsValue) : option RequestInit :=
  Some {| init_headers := Some [ ("Content-Type", "application/json");
                                 ("X-API-Key", apiKey this) ];
          init_rest := [ ("method", JStr "POST");
                         ("body", JStr (JSON_stringify body)) ] |}.

Definition payload_wrapper (request : PaymentRequest) (payloadString : string) : JsValue :=
  JObj [ ("x402Version", JNum 1);
         ("resource", JStr (resource request));
         ("accepted", JBool true);
         ("payload", JStr payloadString) ].

Definition requirements_block (request : PaymentRequest)
    (network tokenContract amountBaseUnits : string) : JsValue :=
  JObj [ ("scheme", JStr "exact");
         ("network", JStr network);
         ("asset", JStr (network +:+ "/erc20:" +:+ tokenContract));
         ("amount", JStr amountBaseUnits);
         ("payTo", JStr (payTo request));
         ("maxTimeoutSeconds", JNum 300) ].

Definition verify_body (this : ClientConfig) (request : PaymentRequest)
    (payloadString network tokenContract amountBaseUnits : string) : JsValue :=
  JObj [ ("botId", JStr (botId this));
         ("payload", payload_wrapper request payloadString);
         ("requirements",
          requirements_block request network tokenContract amountBaseUnits) ].

Definition settle_body (this : ClientConfig) (request : PaymentRequest)
    (payloadString network tokenContract amountBaseUnits : string)
    (settlementToken modifiedRequirements commission : JsValue) : JsValue :=
  JObj [ ("botId", JStr (botId this));
         ("settlementToken", settlementToken);
         ("payload", payload_wrapper request payloadString);
         ("requirements",
          Js.coalesce modifiedRequirements
            (requirements_block request network tokenContract amountBaseUnits));
         ("commission", commission) ].

(** The object literal of a settled payment, its members evaluated in
    the order they are written. *)
Definition settled (settleData commissionData : JsValue) : Completion PaymentResult :=
  transaction <~ get_prop settleData "transaction" ;;
  gross <~ get_prop_opt commissionData "grossAmount" ;;
  grossAmount <~ JS_String (Js.coalesce gross (JStr "0")) ;;
  net <~ get_prop_opt commissionData "netAmount" ;;
  netAmount <~ JS_String (Js.coalesce net (JStr "0")) ;;
  fee <~ get_prop_opt commissionData "commissionAmount" ;;
  commissionAmount <~ JS_String (Js.coalesce fee (JStr "0")) ;;
  rate <~ get_prop_opt commissionData "commissionRate" ;;
  commissionRate <~ JS_Number (Js.coalesce rate (JNum 0)) ;;
  settledOn <~ get_prop settleData "network" ;;
  Normal {| success := true;
            txHash := transaction;
            grossAmount := grossAmount;
            netAmount := netAmount;
            commissionAmount := commissionAmount;
            commissionRate := commissionRate;
            res_network := settledOn;
            error := JUndefined; errorCode := JUndefined;
            errorDetails := JUndefined |}.

(** The body of the [try] block of [pay]. *)
Definition pay_attempt (this : ClientConfig) (request : PaymentRequest) : M PaymentResult :=
  let network := default "eip155:84532" (network request) in
  let tokenContract :=
    default "0x036CbD53842c5426634e7929541eC2318f3dCF7e" (tokenContract request) in
  let amountBaseUnits := usdToBaseUnits (amount request) in
  payloadString <- buildPaymentPayload this (payTo request) amountBaseUnits network ;;
  response <- fetch (facilitatorUrl this +:+ "/verify")
                (post this (verify_body this request payloadString
                              network tokenContract amountBaseUnits)) ;;
  if negb (ok response) then
    lift (rejected (json_or_empty response)
            ("HTTP " +:+ Z_toString (status response)))
  else
    verifyData <- lift (json response) ;;
    settlementToken <- lift (get_prop verifyData "settlementToken") ;;
    if negb (Js.truthy settlementToken) then
      ret (failed (JStr "Verify response missing settlement token")
             JUndefined JUndefined)
    else
      modifiedRequirements <- lift (get_prop verifyData "modifiedRequirements") ;;
      commission <- lift (get_prop verifyData "commission") ;;
      settleResponse <- fetch (facilitatorUrl this +:+ "/settle")
                          (post this (settle_body this request payloadString
                                        network tokenContract amountBaseUnits
                                        settlementToken modifiedRequirements
                                        commission)) ;;
      if negb (ok settleResponse) then
        lift (rejected (json_or_empty settleResponse)
                ("Settlement HTTP " +:+ Z_toString (status settleResponse)))
      else
        settleData <- lift (json settleResponse) ;;
        commissionData <- lift (get_prop verifyData "commission") ;;
        lift (settled settleData commissionData).

(** [PayBotClient.pay]. *)
Definition pay (this : ClientConfig) (request : PaymentRequest) : M PaymentResult :=
  _ <- record (PayCalled request) ;;
  try_catch (pay_attempt this request)
    (fun error => ret (failed (JStr (getErrorMessage error)) JUndefined JUndefined)).

End Client.


(** ** The auto-pay interceptor (x402-handler) *)

Record X402HandlerConfig : Type := {
  base : PayBotConfig;            (* the members of PayBotConfig it extends *)
  cfg_maxAutoPay : option string;
  cfg_network : option string;
}.

(** The payment terms [parse402Response] extracts. *)
Record PaymentTerms : Type := {
  terms_amount : string;
  terms_payTo : string;
}.

Section Interceptor.
Context `{Platform}.

Definition parse402Response (response : Response) (_url : string)
    : option PaymentTerms :=
  let attempt : Completion (option PaymentTerms) :=
    body <~ json response ;;
    paymentRequirements <~ get_prop body "paymentRequirements" ;;
    if Js.truthy paymentRequirements then
      let req := paymentRequirements in
      a <~ get_prop req "amount" ;;
      amount <~ JS_String (Js.coalesce a (JStr "0")) ;;
      p <~ get_prop req "payTo" ;;
      payTo <~ JS_String (Js.coalesce p (JStr "")) ;;
      Normal (Some {| terms_amount := amount; terms_payTo := payTo |})
    else
      a <~ get_prop body "amount" ;;
      both <~ (if Js.truthy a then get_prop body "payTo" else Normal a) ;;
      if Js.truthy both then
        a' <~ get_prop body "amount" ;;
        amount <~ JS_String a' ;;
        p' <~ get_prop body "payTo" ;;
        payTo <~ JS_String p' ;;
        Normal (Some {| terms_amount := amount; terms_payTo := payTo |})
      else
        let headerAmount := HeadersApi.get "X-Payment-Amount" (headers response) in
        let headerPayTo := HeadersApi.get "X-Payment-Address" (headers response) in
        match headerAmount, headerPayTo with
        | Some a, Some p =>
            if negb (String.eqb a "") && negb (String.eqb p "")
            then Normal (Some {| terms_amount := a; terms_payTo := p |})
            else Normal None
        | _, _ => Normal None
        end
  in
  match attempt with
  | Normal terms => terms
  | Throw _ => None
  end.

(** The object [createX402Handler] returns. *)
Record X402Handler : Type := {
  handler_fetch : string -> option RequestInit -> M Response;
  client : ClientConfig;
}.

(** [new Headers(init)]: every pair of [init] is appended in turn; the
    first one that does not pass the checks gives the TypeError. *)
Fixpoint Headers_fill (init : list (string * string)) (h : Headers) : Completion Headers :=
  match init with
  | [] => Normal h
  | (name, value) :: rest =>
      match HeadersApi.append name value h with
      | Some h' => Headers_fill rest h'
      | None => Throw (ErrorObject (invalid_header name value))
      end
  end.

Definition Headers_new (init : list (string * string)) : Completion Headers :=
  Headers_fill init [].

(** [h.set(name, value)], with its TypeError. *)
Definition Headers_set (name value : string) (h : Headers) : Completion Headers :=
  match HeadersApi.set name value h with
  | Some h' => Normal h'
  | None => Throw (ErrorObject (invalid_header name value))
  end.

(** The headers of the retried request: the transaction reference is
    converted to a string when it is handed to [set]. *)
Definition retryHeaders (init : option RequestInit) (result : PaymentResult)
    : Completion Headers :=
  h0 <~ Headers_new (default [] (init ≫= init_headers)) ;;
  proof <~ JS_String (Js.coalesce (txHash result) (JStr "")) ;;
  h1 <~ Headers_set "X-Payment-Proof" proof h0 ;;
  Headers_set "X-Payment-Facilitator" "paybot" h1.

(** [{ ...init, headers: retryHeaders }]. *)
Definition retry_init (init : option RequestInit) (retryHeaders : Headers)
    : option RequestInit :=
  Some {| init_headers := Some retryHeaders;
          init_rest := default [] (init_rest <$> init) |}.

Definition createX402Handler (config : X402HandlerConfig) : X402Handler :=
  let client := PayBotClient (base config) in
  let maxAutoPay := default "1.00" (cfg_maxAutoPay config) in
  {| handler_fetch := fun url init =>
       response <- fetch url init ;;
       if negb (status response =? 402)%Z then ret response
       else
         match parse402Response response url with
         | None => ret response
         | Some requirements =>
             let amountUsd :=
               PrimFloat.div (Number_of_string (terms_amount requirements)) 1e6 in
             if PrimFloat.ltb (Number_of_string maxAutoPay) amountUsd then
               throw (ErrorObject
                        ("x402: Payment of $" +:+ Number_toFixed amountUsd 2
                         +:+ " exceeds auto-pay limit of $" +:+ maxAutoPay))
             else
               result <- pay client
                           {| resource := url;
                              amount := Number_toFixed amountUsd 6;
                              payTo := terms_payTo requirements;
                              tokenContract := None;
                              network := cfg_network config |} ;;
               if negb (success result) then
                 reason <- lift (JS_String (error result)) ;;
                 throw (ErrorObject ("x402: Payment failed: " +:+ reason))
               else
                 retryHeaders <- lift (retryHeaders init result) ;;
                 fetch url (retry_init init retryHeaders)
         end;
     client := client |}.

End Interceptor.

(** ** A scripted platform

    The platform of a test: the transport answers from a script, the
    clock stands still, the random source gives zero bytes, the signer
    is a stub, and numbers are read and printed for plain decimals
    only. It runs the model on concrete inputs. *)

Module Scripted.

Definition float_of_Z (z : Z) : float :=
  PrimFloat.of_uint63 (Uint63.of_Z z).

Definition floor_Z (x : float) : Z :=
  match Prim2SF x with
  | SpecFloat.S754_finite false m e => Z.shiftl (Z.pos m) e
  | _ => 0
  end.

(** Plain decimals [digits] and [digits.digits]; anything else is NaN. *)
Definition number_of_string (s : string) : float :=
  match JsString.split "." s with
  | [w] =>
      if all_digits w && negb (String.eqb w "")
      then float_of_Z (Z.of_N (digits_value w)) else nan
  | [w; f] =>
      if all_digits w && all_digits f && negb (String.eqb (w +:+ f) "")
      then PrimFloat.div (float_of_Z (Z.of_N (digits_value (w +:+ f))))
             (float_of_Z (10 ^ Z.of_nat (String.length f)))
      else nan
  | _ => nan
  end.

(** Non-negative numbers, rounded half up. *)
Definition toFixed (x : float) (d : nat) : string :=
  let scaled :=
    floor_Z (PrimFloat.add (PrimFloat.mul x (float_of_Z (10 ^ Z.of_nat d))) 0.5) in
  let digits := Z_toString scaled in
  let padded :=
    JsString.repeat_char "0" (S d - String.length digits) +:+ digits in
  let cut := (String.length padded - d)%nat in
  match d with
  | O => padded
  | _ => String.substring 0 cut padded +:+ "." +:+ String.substring cut d padded
  end.

Definition quoted (s : string) : string :=
  let q := String (ascii_of_nat 34) EmptyString in q +:+ s +:+ q.

(** A printer without escapes, enough for the bodies of a test. *)
Fixpoint stringify (v : JsValue) : string :=
  match v with
  | JUndefined | JNull => "null"
  | JBool true => "true"
  | JBool false => "false"
  | JNum x => toFixed x 0
  | JStr s => quoted s
  | JArr items => "[" +:+ Js.join_with "," (List.map stringify items) +:+ "]"
  | JObj props =>
      "{" +:+ Js.join_with ","
                (List.map (fun kv => quoted (fst kv) +:+ ":" +:+ stringify (snd kv))
                   props) +:+ "}"
  end.

Definition bigint (s : string) : Completion Z :=
  if all_digits s && negb (String.eqb s "")
  then Normal (Z.of_N (digits_value s))
  else Throw (ErrorObject ("Cannot convert " +:+ s +:+ " to a BigInt")).

Definition account : Account :=
  {| address := "0x00000000000000000000000000000000000A11CE";
     signTypedData := fun _ => Normal "0x5160" |}.

#[local] Instance platform : Platform :=
  {| World := list (Completion Response);
     transport := fun _ _ script =>
       match script with
       | answer :: rest => (answer, rest)
       | [] => (Throw (ErrorObject "fetch failed"), [])
       end;
     Date_now := fun _ => 1700000000000%Z;
     randomBytes := fun n script => (List.repeat Byte.x00 n, script);
     privateKeyToAccount := fun _ => Normal account;
     BigInt := bigint;
     JSON_stringify := stringify;
     Number_of_string := number_of_string;
     Number_toString := fun x => toFixed x 0;
     Number_toFixed := toFixed;
     cannot_read := fun _ name =>
       "Cannot read properties of null (reading '" +:+ name +:+ "')";
     cannot_convert := fun _ => "Cannot convert object to primitive value";
     invalid_header := fun name _ => "Invalid value for header " +:+ name |}.

Definition state (script : list (Completion Response)) (events : list Event) : State :=
  {| world := script; log := events |}.

Definition start (script : list (Completion Response)) : State :=
  state script [].

End Scripted.

(** ** Vocabulary of the properties *)

Section Vocabulary.
Context `{Platform}.

(** Every normal result of [m] satisfies [Q]. *)
Definition ensures {A} (m : M A) (Q : A -> Prop) : Prop :=
  forall st a st', m st = (Normal a, st') -> Q a.

(** [m] leaves the log as it found it. *)
Definition silent {A} (m : M A) : Prop :=
  forall st outcome st', m st = (outcome, st') -> log st' = log st.

(** A result is reported well when it is a success, or the failure
    literal with a message that is neither [undefined] nor [null]. *)
Definition reported (result : PaymentResult) : Prop :=
  success result = true
  \/ exists e c d, result = failed e c d /\ Js.nullish e = false.

(** The state in which the [try] block of [pay] starts. *)
Definition entered (st : State) (request : PaymentRequest) : State :=
  {| world := world st; log := (log st ++ [PayCalled request])%list |}.

(** The state after a request was handed to the transport. *)
Definition sent (st : State) (w : World) (url : string) (init : option RequestInit) : State :=
  {| world := w; log := (log st ++ [Fetched url init])%list |}.

Definition network_of (request : PaymentRequest) : string :=
  default "eip155:84532" (network request).

(** The proof [pay] asks for. *)
Definition payload_of (this : ClientConfig) (request : PaymentRequest) : M string :=
  buildPaymentPayload this (payTo request) (usdToBaseUnits (amount request))
    (network_of request).

Definition verify_url (this : ClientConfig) : string :=
  facilitatorUrl this +:+ "/verify".

Definition settle_url (this : ClientConfig) : string :=
  facilitatorUrl this +:+ "/settle".

(** The verify request of [pay] for a given proof. *)
Definition verify_init (this : ClientConfig) (request : PaymentRequest)
    (payloadString : string) : option RequestInit :=
  post this
    (verify_body this request payloadString (network_of request)
       (default "0x036CbD53842c5426634e7929541eC2318f3dCF7e" (tokenContract request))
       (usdToBaseUnits (amount request))).

(** The settle request of [pay] after a verify response with the
    members [verified]. *)
Definition settle_init (this : ClientConfig) (request : PaymentRequest)
    (payloadString : string) (verified : list (string * JsValue)) : option RequestInit :=
  post this
    (settle_body this request payloadString (network_of request)
       (default "0x036CbD53842c5426634e7929541eC2318f3dCF7e" (tokenContract request))
       (usdToBaseUnits (amount request))
       (Js.lookup_prop "settlementToken" verified)
       (Js.lookup_prop "modifiedRequirements" verified)
       (Js.lookup_prop "commission" verified)).

(** The amount the interceptor compares and pays, in dollars. *)
Definition amountUsd_of (terms : PaymentTerms) : float :=
  PrimFloat.div (Number_of_string (terms_amount terms)) 1e6.

Definition ceiling_of (config : X402HandlerConfig) : string :=
  default "1.00" (cfg_maxAutoPay config).

(** [amountUsd > Number(maxAutoPay)]. *)
Definition exceeds (config : X402HandlerConfig) (terms : PaymentTerms) : bool :=
  PrimFloat.ltb (Number_of_string (ceiling_of config)) (amountUsd_of terms).

(** The payment the interceptor requests for extracted terms. *)
Definition payment_for (config : X402HandlerConfig) (url : string)
    (terms : PaymentTerms) : PaymentRequest :=
  {| resource := url;
     amount := Number_toFixed (amountUsd_of terms) 6;
     payTo := terms_payTo terms;
     tokenContract := None;
     network := cfg_network config |}.

End Vocabulary.

(** [v.name] where it cannot throw: [undefined] unless [v] is an object. *)
Definition member (v : JsValue) (name : string) : JsValue :=
  match v with
  | JObj props => Js.lookup_prop name props
  | _ => JUndefined
  end.

(** ** The phases of a payment attempt and its failure modes *)

Section Phases.
Context `{Platform}.

(** The proof was built and the verify request was answered by
    [response], which leaves the state [st2]. *)
Definition verify_phase (this : ClientConfig) (request : PaymentRequest)
    (st : State) (payloadString : string) (response : Response) (st2 : State) : Prop :=
  exists st1 w2,
    payload_of this request (entered st request) = (Normal payloadString, st1)
    /\ transport (verify_url this) (verify_init this request payloadString) (world st1)
       = (Normal response, w2)
    /\ st2 = sent st1 w2 (verify_url this) (verify_init this request payloadString).

(** Verification succeeded with the members [verified], among them a
    settlement token; the state is [st2] and [pay] goes on to settle. *)
Definition verified_phase (this : ClientConfig) (request : PaymentRequest)
    (st : State) (payloadString : string) (verified : list (string * JsValue))
    (st2 : State) : Prop :=
  exists response,
    verify_phase this request st payloadString response st2
    /\ ok response = true
    /\ json response = Normal (JObj verified)
    /\ Js.truthy (Js.lookup_prop "settlementToken" verified) = true.

(** The message the specification asks for a caught error: the message
    of an [Error], the string that was thrown, and "Unknown error" for
    anything else. *)
Inductive describes : Thrown -> string -> Prop :=
  | describes_error message : describes (ErrorObject message) message
  | describes_string s : describes (ThrownValue (JStr s)) s
  | describes_other v :
      (forall s, v <> JStr s) -> describes (ThrownValue v) "Unknown error".

(** A failure as the caller sees it, member by member: no success, no
    transaction and no network, zeroed amounts, and the given message,
    code and details. *)
Definition is_failure (result : PaymentResult) (message code details : JsValue) : Prop :=
  success result = false
  /\ txHash result = JUndefined
  /\ grossAmount result = "0"
  /\ netAmount result = "0"
  /\ commissionAmount result = "0"
  /\ commissionRate result = 0%float
  /\ res_network result = JUndefined
  /\ error result = message
  /\ errorCode result = code
  /\ errorDetails result = details.

(** What a response that is not ok has to say, with the message that
    stands in when it names none: the members of its decoded body; the
    TypeError of reading a member of [null] when the body is [null];
    the stand-in alone when the body cannot be decoded. *)
Inductive server_report (response : Response) (fallback : string)
    : JsValue -> JsValue -> JsValue -> Prop :=
  | report_of_body body :
      json response = Normal body ->
      Js.nullish body = false ->
      server_report response fallback
        (Js.coalesce (member body "error") (JStr fallback))
        (Js.coalesce (member body "code") JUndefined)
        (member body "details")
  | report_of_null body :
      json response = Normal body ->
      Js.nullish body = true ->
      server_report response fallback
        (JStr (cannot_read body "error")) JUndefined JUndefined
  | report_without_body e :
      json response = Throw e ->
      server_report response fallback (JStr fallback) JUndefined JUndefined.

(** The failure modes of the exchange with the facilitator, each with
    the state it ends in and the message, code and details it is
    reported with. *)
Inductive failure_mode (this : ClientConfig) (request : PaymentRequest) (st : State)
    : State -> JsValue -> JsValue -> JsValue -> Prop :=
  | verify_network_error payloadString st1 e w2 message :
      payload_of this request (entered st request) = (Normal payloadString, st1) ->
      transport (verify_url this) (verify_init this request payloadString) (world st1)
        = (Throw e, w2) ->
      describes e message ->
      failure_mode this request st
        (sent st1 w2 (verify_url this) (verify_init this request payloadString))
        (JStr message) JUndefined JUndefined
  | verify_not_ok payloadString response st2 message code details :
      verify_phase this request st payloadString response st2 ->
      ok response = false ->
      server_report response ("HTTP " +:+ Z_toString (status response))
        message code details ->
      failure_mode this request st st2 message code details
  | verify_undecodable payloadString response st2 e message :
      verify_phase this request st payloadString response st2 ->
      ok response = true ->
      json response = Throw e ->
      describes e message ->
      failure_mode this request st st2 (JStr message) JUndefined JUndefined
  | verify_without_token payloadString response st2 verifyData :
      verify_phase this request st payloadString response st2 ->
      ok response = true ->
      json response = Normal verifyData ->
      Js.nullish verifyData = false ->
      Js.truthy (member verifyData "settlementToken") = false ->
      failure_mode this request st st2
        (JStr "Verify response missing settlement token") JUndefined JUndefined
  | verify_null payloadString response st2 verifyData :
      verify_phase this request st payloadString response st2 ->
      ok response = true ->
      json response = Normal verifyData ->
      Js.nullish verifyData = true ->
      failure_mode this request st st2
        (JStr (cannot_read verifyData "settlementToken")) JUndefined JUndefined
  | settle_network_error payloadString verified st2 e w3 message :
      verified_phase this request st payloadString verified st2 ->
      transport (settle_url this) (settle_init this request payloadString verified)
        (world st2) = (Throw e, w3) ->
      describes e message ->
      failure_mode this request st
        (sent st2 w3 (settle_url this) (settle_init this request payloadString verified))
        (JStr message) JUndefined JUndefined
  | settle_not_ok payloadString verified st2 settleResponse w3 message code details :
      verified_phase this request st payloadString verified st2 ->
      transport (settle_url this) (settle_init this request payloadString verified)
        (world st2) = (Normal settleResponse, w3) ->
      ok settleResponse = false ->
      server_report settleResponse
        ("Settlement HTTP " +:+ Z_toString (status settleResponse))
        message code details ->
      failure_mode this request st
        (sent st2 w3 (settle_url this) (settle_init this request payloadString verified))
        message code details
  | settle_undecodable payloadString verified st2 settleResponse w3 e message :
      verified_phase this request st payloadString verified st2 ->
      transport (settle_url this) (settle_init this request payloadString verified)
        (world st2) = (Normal settleResponse, w3) ->
      ok settleResponse = true ->
      json settleResponse = Throw e ->
      describes e message ->
      failure_mode this request st
        (sent st2 w3 (settle_url this) (settle_init this request payloadString verified))
        (JStr message) JUndefined JUndefined.

(** A failure with a message: [success] is false and [error] is there. *)
Definition failure_with_message (result : PaymentResult) : Prop :=
  success result = false /\ Js.nullish (error result) = false.

End Phases.

(** ** What the interceptor reads and what it leaves behind *)

Section Traces.
Context `{Platform}.

(** [m] only adds to the log. *)
Definition grows {A} (m : M A) : Prop :=
  forall st outcome st', m st = (outcome, st') ->
    exists rest, log st' = (log st ++ rest)%list.

(** The error of the ceiling check. *)
Definition over_limit (config : X402HandlerConfig) (terms : PaymentTerms) : Thrown :=
  ErrorObject ("x402: Payment of $" +:+ Number_toFixed (amountUsd_of terms) 2
               +:+ " exceeds auto-pay limit of $" +:+ ceiling_of config).

(** The terms read from a [paymentRequirements] member [req], when
    its amount and payee have a string form. *)
Definition nested_terms (req : JsValue) : Completion PaymentTerms :=
  amount <~ JS_String (Js.coalesce (member req "amount") (JStr "0")) ;;
  payTo <~ JS_String (Js.coalesce (member req "payTo") (JStr "")) ;;
  Normal {| terms_amount := amount; terms_payTo := payTo |}.

End Traces.

(** ** Inputs of the examples *)

Module Sample.
Import Scripted.

Definition bot : PayBotConfig :=
  {| cfg_apiKey := "pb_test_key"; cfg_facilitatorUrl := None; cfg_botId := "my-bot";
     cfg_operatorId := None; cfg_walletPrivateKey := None |}.

(** A well-formed private key (32 bytes). *)
Definition wallet_key : string :=
  "0x0000000000000000000000000000000000000000000000000000000000000001".

Definition signing_bot : PayBotConfig :=
  {| cfg_apiKey := "pb_test_key"; cfg_facilitatorUrl := None; cfg_botId := "my-bot";
     cfg_operatorId := None; cfg_walletPrivateKey := Some wallet_key |}.

Definition handler_config : X402HandlerConfig :=
  {| base := bot; cfg_maxAutoPay := None; cfg_network := None |}.

Definition url : string := "https://api.example.com/paid-endpoint".

Definition payee : string := "0x1111111111111111111111111111111111111111".

Definition five_cents : PaymentRequest :=
  {| resource := url; amount := "0.05"; payTo := payee;
     tokenContract := None; network := None |}.

Definition on_unknown_chain : PaymentRequest :=
  {| resource := url; amount := "0.05"; payTo := payee;
     tokenContract := None; network := Some "eip155:1" |}.

(** A chain identifier that is the name of a member of
    [Object.prototype]. *)
Definition on_inherited_name : PaymentRequest :=
  {| resource := url; amount := "0.05"; payTo := payee;
     tokenContract := None; network := Some "constructor" |}.

Definition answer (code : Z) (hs : Headers) (body : Completion JsValue)
    : Completion Response :=
  Normal {| status := code; headers := hs; json := body |}.

Definition trust_violation : list (string * JsValue) :=
  [ ("error", JStr "Trust level too low");
    ("code", JStr "TRUST_VIOLATION");
    ("details", JObj [("required", JNum 3)]) ].

Definition verified : list (string * JsValue) :=
  [ ("settlementToken", JStr "st_1");
    ("commission", JObj [ ("grossAmount", JStr "50000"); ("netAmount", JStr "49500");
                          ("commissionAmount", JStr "500");
                          ("commissionRate", JNum 0.5) ]) ].

(** A transaction reference of two lines. *)
Definition two_line_reference : string :=
  "0xab" +:+ String (ascii_of_nat 10) "cd".

Definition payment_headers : Headers :=
  [ ("X-Payment-Amount", "50000"); ("X-Payment-Address", payee) ].

End Sample.

(** ** The network registry (networks) *)

Record NetworkConfig : Type := {
  net_name : string;
  net_chainId : Z;
  caip2 : string;
  rpcUrl : string;
  usdcAddress : string;
  explorerUrl : string;
  isTestnet : bool;
}.

(** The table in the order it is written: [Object.keys] lists the keys
    in that order. *)
Definition NETWORKS : list (string * NetworkConfig) :=
  [ ("eip155:8453",
     {| net_name := "Base Mainnet"; net_chainId := 8453; caip2 := "eip155:8453";
        rpcUrl := "https://mainnet.base.org";
        usdcAddress := "0x833589fCD6eDb6E08f4c7C32D4f71b54bdA02913";
        explorerUrl := "https://basescan.org"; isTestnet := false |});
    ("eip155:84532",
     {| net_name := "Base Sepolia"; net_chainId := 84532; caip2 := "eip155:84532";
        rpcUrl := "https://sepolia.base.org";
        usdcAddress := "0x036CbD53842c5426634e7929541eC2318f3dCF7e";
        explorerUrl := "https://sepolia.basescan.org"; isTestnet := true |}) ].

Fixpoint registry_lookup (key : string) (table : list (string * NetworkConfig))
    : option NetworkConfig :=
  match table with
  | [] => None
  | (k, v) :: rest => if String.eqb k key then Some v else registry_lookup key rest
  end.

(** [getNetwork]: [NETWORKS[caip2]], a read of an object literal. *)
Definition getNetwork (caip2 : string) : option (JsObject.Member NetworkConfig) :=
  JsObject.index (registry_lookup caip2 NETWORKS) caip2.

Definition getSupportedNetworks : list string :=
  List.map fst NETWORKS.

(** ** The request helper and the account operations (client) *)

(** errors.ts, [PayBotApiError]: the [Error] constructor turns its
    message into a string; the other members are kept as given. *)
Record PayBotApiError : Type := {
  api_message : string;
  api_code : JsValue;
  api_statusCode : Z;
  api_details : JsValue;
}.

(** What [_request] and its callers throw: a [PayBotApiError], or
    whatever else was thrown on the way. *)
Inductive Raised : Type :=
  | ApiError (e : PayBotApiError)
  | OtherThrown (e : Thrown).

Inductive Outcome (A : Type) : Type :=
  | Returned (a : A)
  | Raise (r : Raised).
Arguments Returned {A} a.
Arguments Raise {A} r.

(** The URL class of the platform, as [_request] uses it. *)
Class UrlApi : Type := {
  Url : Type;
  (** [new URL(path, base)], which throws on an invalid URL. *)
  URL_new : string -> string -> Completion Url;
  (** [url.searchParams.set(key, value)]. *)
  searchParams_set : string -> string -> Url -> Url;
  URL_toString : Url -> string;
}.

(** The options of [_request]; a body that is absent is [undefined]. *)
Record RequestOptions : Type := {
  opt_method : option string;
  opt_body : option JsValue;
  opt_query : option (list (string * string));
}.

Definition no_options : RequestOptions :=
  {| opt_method := None; opt_body := None; opt_query := None |}.

Record LimitsConfig : Type := {
  maxTransactionUsd : option float;
  maxDailySpendUsd : option float;
  maxTransactionsPerHour : option float;
  allowedRecipients : option (list string);
}.

Section Account.
Context `{Platform} `{UrlApi}.

(** The error thrown for a response that is not [ok], from its decoded
    body. *)
Definition api_error_of (errorData : JsValue) (response : Response)
    : Completion PayBotApiError :=
  e <~ get_prop errorData "error" ;;
  c <~ get_prop errorData "code" ;;
  d <~ get_prop errorData "details" ;;
  message <~ JS_String (Js.coalesce e
                          (JStr ("HTTP " +:+ Z_toString (status response)))) ;;
  Normal {| api_message := message;
            api_code := Js.coalesce c (JStr "HTTP_ERROR");
            api_statusCode := status response;
            api_details := d |}.

Definition request_headers (this : ClientConfig) (options : RequestOptions) : Headers :=
  (("X-API-Key", apiKey this)
   :: match opt_body options with
      | Some _ => [("Content-Type", "application/json")]
      | None => []
      end)%list.

Definition request_init (this : ClientConfig) (options : RequestOptions)
    : option RequestInit :=
  Some {| init_headers := Some (request_headers this options);
          init_rest :=
            [ ("method", JStr (default "GET" (opt_method options)));
              ("body", match opt_body options with
                       | Some body => JStr (JSON_stringify body)
                       | None => JUndefined
                       end) ] |}.

(** [PayBotClient._request]. *)
Definition _request (this : ClientConfig) (path : string) (options : RequestOptions)
    : State -> Outcome JsValue * State :=
  fun st =>
    match URL_new path (facilitatorUrl this) with
    | Throw e => (Raise (OtherThrown e), st)
    | Normal url0 =>
        let url :=
          List.fold_left (fun u kv => searchParams_set (fst kv) (snd kv) u)
            (default [] (opt_query options)) url0 in
        match fetch (URL_toString url) (request_init this options) st with
        | (Throw error, st1) =>
            (Raise (ApiError
                      {| api_message := "Network error: " +:+ getErrorMessage error;
                         api_code := JStr "NETWORK_ERROR";
                         api_statusCode := 0;
                         api_details := JUndefined |}), st1)
        | (Normal response, st1) =>
            if negb (ok response) then
              match api_error_of (json_or_empty response) response with
              | Normal err => (Raise (ApiError err), st1)
              | Throw e => (Raise (OtherThrown e), st1)
              end
            else
              match json response with
              | Normal data => (Returned data, st1)
              | Throw e => (Raise (OtherThrown e), st1)
              end
        end
    end.

Definition balance (this : ClientConfig) : State -> Outcome JsValue * State :=
  _request this "/balance"
    {| opt_method := None; opt_body := None;
       opt_query := Some [("botId", botId this)] |}.

(** [history(limit = 50)]. *)
Definition history (this : ClientConfig) (limit : option float)
    : State -> Outcome JsValue * State :=
  _request this "/history"
    {| opt_method := None; opt_body := None;
       opt_query := Some [ ("botId", botId this);
                           ("limit", Number_toString (default 50%float limit)) ] |}.

(** The own members of a [LimitsConfig], in the order of the interface. *)
Definition limits_members (limits : LimitsConfig) : list (string * JsValue) :=
  (match maxTransactionUsd limits with
   | Some x => [("maxTransactionUsd", JNum x)] | None => [] end
   ++ match maxDailySpendUsd limits with
      | Some x => [("maxDailySpendUsd", JNum x)] | None => [] end
   ++ match maxTransactionsPerHour limits with
      | Some x => [("maxTransactionsPerHour", JNum x)] | None => [] end
   ++ match allowedRecipients limits with
      | Some l => [("allowedRecipients", JArr (List.map JStr l))] | None => [] end)%list.

(** [setLimits]: the awaited value is dropped. *)
Definition setLimits (this : ClientConfig) (limits : LimitsConfig)
    : State -> Outcome unit * State :=
  fun st =>
    match _request this "/limits"
            {| opt_method := Some "PUT";
               opt_body := Some (JObj (("botId", JStr (botId this))
                                       :: limits_members limits));
               opt_query := None |} st with
    | (Returned _, st') => (Returned tt, st')
    | (Raise r, st') => (Raise r, st')
    end.

(** [register(trustLevel?)]. *)
Definition register (this : ClientConfig) (trustLevel : option float)
    : State -> Outcome JsValue * State :=
  _request this "/bots"
    {| opt_method := Some "POST";
       opt_body := Some (JObj [ ("botId", JStr (botId this));
                                ("trustLevel", JNum (default 1%float trustLevel)) ]);
       opt_query := None |}.

Definition health (this : ClientConfig) : State -> Outcome JsValue * State :=
  _request this "/health" no_options.

End Account.

(** ** The bearer-token client (src/client.ts): its constructor *)

Module BearerClient.

(** [s.replace(/\/+$/, '')]: the string without its trailing slashes. *)
Fixpoint strip_trailing_slashes (s : string) : string :=
  match s with
  | EmptyString => EmptyString
  | String c rest =>
      match strip_trailing_slashes rest with
      | EmptyString => if Ascii.eqb c "/" then EmptyString else String c EmptyString
      | kept => String c kept
      end
  end.

Record Config : Type := {
  cfg_baseUrl : string;
  cfg_key : string;
  cfg_timeout : option Z;
}.

Record Client : Type := {
  baseUrl : string;
  key : string;
  timeout : Z;
}.

(** The constructor. *)
Definition PayBotClient (config : Config) : Client :=
  {| baseUrl := strip_trailing_slashes (cfg_baseUrl config);
     key := cfg_key config;
     timeout := default 30000%Z (cfg_timeout config) |}.

(** The URL [request] fetches for a path. *)
Definition request_url (this : Client) (path : string) : string :=
  baseUrl this +:+ path.

End BearerClient.

(** A URL class for the examples: the base and path joined, the query
    kept as a list. *)
Module ScriptedUrl.

#[local] Instance api : UrlApi :=
  {| Url := string * list (string * string);
     URL_new := fun path base =>
       if String.eqb base "" then Throw (ErrorObject "Invalid URL")
       else Normal (base +:+ path, []);
     searchParams_set := fun k v u =>
       (fst u, (List.filter (fun kv => negb (String.eqb (fst kv) k)) (snd u)
                ++ [(k, v)])%list);
     URL_toString := fun u =>
       match snd u with
       | [] => fst u
       | q => fst u +:+ "?"
              +:+ Js.join_with "&" (List.map (fun kv => fst kv +:+ "=" +:+ snd kv) q)
       end |}.

End ScriptedUrl.

(** ** Vocabulary of the further properties *)

(** No radix point in the string. *)
Fixpoint no_point (s : string) : bool :=
  match s with
  | EmptyString => true
  | String c rest => negb (Ascii.eqb c ".") && no_point rest
  end.

(** The last character of a string, if it has one. *)
Fixpoint last_char (s : string) : option ascii :=
  match s with
  | EmptyString => None
  | String c EmptyString => Some c
  | String _ rest => last_char rest
  end.

(** Lower-case hexadecimal digits and their values. *)
Definition hex_value (c : ascii) : option N :=
  let n := N_of_ascii c in
  if ((48 <=? n) && (n <=? 57))%N then Some (n - 48)%N
  else if ((97 <=? n) && (n <=? 102))%N then Some (n - 87)%N
  else None.

Fixpoint all_hex (s : string) : bool :=
  match s with
  | EmptyString => true
  | String c rest => bool_decide (is_Some (hex_value c)) && all_hex rest
  end.

(** The bytes a hexadecimal string spells, two digits a byte. *)
Fixpoint fromHex (s : string) : option (list Byte.byte) :=
  match s with
  | EmptyString => Some []
  | String hi (String lo rest) =>
      match hex_value hi, hex_value lo, fromHex rest with
      | Some h, Some l, Some bytes =>
          match Byte.of_N (h * 16 + l) with
          | Some b => Some (b :: bytes)
          | None => None
          end
      | _, _, _ => None
      end
  | String _ EmptyString => None
  end.

(** A value that is neither an array nor an object. *)
Definition primitive (v : JsValue) : bool :=
  match v with
  | JArr _ | JObj _ => false
  | _ => true
  end.

(** How many calls of [pay] and how many requests a log holds. *)
Definition pay_calls (events : list Event) : nat :=
  List.length (List.filter (fun e => match e with PayCalled _ => true | _ => false end)
                 events).

Definition requests (events : list Event) : nat :=
  List.length (List.filter (fun e => match e with Fetched _ _ => true | _ => false end)
                 events).

Section SettledVocabulary.
Context `{Platform}.

(** The successful result of [pay], from the members of the verify
    response and the decoded settle response. *)
Definition settled_result (verified : list (string * JsValue)) (settleData : JsValue)
    : Completion PaymentResult :=
  let commission := Js.lookup_prop "commission" verified in
  gross <~ JS_String (Js.coalesce (member commission "grossAmount") (JStr "0")) ;;
  net <~ JS_String (Js.coalesce (member commission "netAmount") (JStr "0")) ;;
  fee <~ JS_String (Js.coalesce (member commission "commissionAmount") (JStr "0")) ;;
  rate <~ JS_Number (Js.coalesce (member commission "commissionRate") (JNum 0)) ;;
  Normal {| success := true;
            txHash := member settleData "transaction";
            grossAmount := gross;
            netAmount := net;
            commissionAmount := fee;
            commissionRate := rate;
            res_network := member settleData "network";
            error := JUndefined; errorCode := JUndefined;
            errorDetails := JUndefined |}.

(** The three shapes of what a call of [pay] adds to the log. *)
Definition pay_trace (this : ClientConfig) (request : PaymentRequest)
    (added : list Event) : Prop :=
  added = [PayCalled request]
  \/ (exists payloadString,
        added = [ PayCalled request;
                  Fetched (verify_url this) (verify_init this request payloadString) ])
  \/ (exists payloadString verified,
        added = [ PayCalled request;
                  Fetched (verify_url this) (verify_init this request payloadString);
                  Fetched (settle_url this)
                    (settle_init this request payloadString verified) ]).

End SettledVocabulary.

Section RequestVocabulary.
Context `{Platform} `{UrlApi}.

(** The address [_request] fetches: the URL with the query set. *)
Definition request_address (url0 : Url) (options : RequestOptions) : string :=
  URL_toString
    (List.fold_left (fun u kv => searchParams_set (fst kv) (snd kv) u)
       (default [] (opt_query options)) url0).

(** The error [_request] throws when the transport rejects. *)
Definition network_error (e : Thrown) : PayBotApiError :=
  {| api_message := "Network error: " +:+ getErrorMessage e;
     api_code := JStr "NETWORK_ERROR";
     api_statusCode := 0;
     api_details := JUndefined |}.

(** The request of [setLimits]. *)
Definition limits_options (this : ClientConfig) (limits : LimitsConfig) : RequestOptions :=
  {| opt_method := Some "PUT";
     opt_body := Some (JObj (("botId", JStr (botId this)) :: limits_members limits));
     opt_query := None |}.

End RequestVocabulary.

(** ** Challenges of the examples *)

Module Case.

Definition challenge (hs : Headers) (body : JsValue) : Response :=
  {| status := 402; headers := hs; json := Normal body |}.

(** One dollar exactly, in the simplified format. *)
Definition one_dollar : JsValue :=
  JObj [("amount", JStr "1000000"); ("payTo", JStr Sample.payee)].

(** An amount that is no number. *)
Definition not_a_number : JsValue :=
  JObj [("amount", JStr "abc"); ("payTo", JStr Sample.payee)].

(** A numeric amount. *)
Definition numeric : JsValue :=
  JObj [("amount", JNum 50000); ("payTo", JStr Sample.payee)].

Definition refusal : Completion Response :=
  Sample.answer 403 [] (Normal (JObj Sample.trust_violation)).

(** A decoded object with a member named [toString]: it has no string
    form. *)
Definition unprintable : JsValue :=
  JObj [("toString", JStr "text")].

End Case.

(** * Properties *)

Section UsdToBaseUnits.

Lemma split_no_sep (s : string) :
  all_digits s = true -> JsString.split "." s = [s].
Proof.
  induction s as [|c s IH]; simpl; [reflexivity|].
  intros H. apply andb_prop in H as [Hc Hs].
  destruct (Ascii.eqb_spec c ".") as [->|_]; [discriminate Hc|].
  now rewrite (IH Hs).
Qed.

Lemma split_one_sep (w f : string) :
  all_digits w = true -> all_digits f = true ->
  JsString.split "." (w +:+ String "." f) = [w; f].
Proof.
  intros Hw Hf. induction w as [|c w IH]; simpl.
  - now rewrite (split_no_sep f Hf).
  - simpl in Hw. apply andb_prop in Hw as [Hc Hw].
    destruct (Ascii.eqb_spec c ".") as [->|_]; [discriminate Hc|].
    now rewrite (IH Hw).
Qed.

Lemma substring_all (s : string) :
  String.substring 0 (String.length s) s = s.
Proof. induction s; simpl; [reflexivity|now f_equal]. Qed.

Lemma length_append (s t : string) :
  String.length (s +:+ t) = (String.length s + String.length t)%nat.
Proof. induction s; simpl; [reflexivity|now f_equal]. Qed.

Lemma length_repeat_char (c : ascii) (n : nat) :
  String.length (JsString.repeat_char c n) = n.
Proof. induction n; simpl; [reflexivity|now f_equal]. Qed.

(** With at most six fractional digits nothing is truncated. *)
Lemma pad_then_slice (f : string) :
  (String.length f <= 6)%nat ->
  JsString.slice 0 6 (JsString.padEnd 6 "0" f)
  = f +:+ JsString.repeat_char "0" (6 - String.length f).
Proof.
  intros Hlen. unfold JsString.slice, JsString.padEnd.
  set (p := f +:+ JsString.repeat_char "0" (6 - String.length f)).
  assert (Hp : String.length p = 6%nat).
  { unfold p. rewrite length_append, length_repeat_char. lia. }
  change (6 - 0)%nat with 6%nat. rewrite <- Hp. apply substring_all.
Qed.

Lemma digits_value_from_app (acc : N) (s t : string) :
  digits_value_from acc (s +:+ t)
  = digits_value_from (digits_value_from acc s) t.
Proof. revert acc. induction s; intros acc; simpl; [reflexivity|apply IHs]. Qed.

Lemma digits_value_from_acc (acc : N) (s : string) :
  digits_value_from acc s
  = (acc * 10 ^ N.of_nat (String.length s) + digits_value s)%N.
Proof.
  unfold digits_value. revert acc.
  induction s as [|c s IH]; intros acc.
  - simpl. lia.
  - cbn [digits_value_from String.length].
    rewrite IH, (IH (0 * 10 + digit_value c)%N).
    rewrite Nat2N.inj_succ, N.pow_succ_r'. lia.
Qed.

Lemma digits_value_zeros (n : nat) :
  digits_value (JsString.repeat_char "0" n) = 0%N.
Proof.
  unfold digits_value. induction n; simpl; [reflexivity|exact IHn].
Qed.

Lemma all_digits_app (s t : string) :
  all_digits s = true -> all_digits t = true -> all_digits (s +:+ t) = true.
Proof.
  intros Hs Ht. induction s as [|c s IH]; simpl in *; [exact Ht|].
  apply andb_prop in Hs as [Hc Hs]. now rewrite Hc, (IH Hs).
Qed.

Lemma all_digits_zeros (n : nat) :
  all_digits (JsString.repeat_char "0" n) = true.
Proof. induction n; simpl; [reflexivity|exact IHn]. Qed.

(** Every digit string is the print-out of a [Decimal.uint]. *)
Lemma digits_are_uint (s : string) :
  all_digits s = true -> exists d, s = NilEmpty.string_of_uint d.
Proof.
  induction s as [|c s IH]; intros H.
  - now exists Decimal.Nil.
  - simpl in H. apply andb_prop in H as [Hc Hs].
    destruct (IH Hs) as [d ->].
    destruct c as [[] [] [] [] [] [] [] []]; try discriminate Hc;
      first [ now exists (Decimal.D0 d) | now exists (Decimal.D1 d)
            | now exists (Decimal.D2 d) | now exists (Decimal.D3 d)
            | now exists (Decimal.D4 d) | now exists (Decimal.D5 d)
            | now exists (Decimal.D6 d) | now exists (Decimal.D7 d)
            | now exists (Decimal.D8 d) | now exists (Decimal.D9 d) ].
Qed.

Lemma of_uint_acc_value (d : Decimal.uint) (acc : positive) :
  N.pos (Pos.of_uint_acc d acc)
  = digits_value_from (N.pos acc) (NilEmpty.string_of_uint d).
Proof.
  revert acc. induction d; intros acc; simpl; try reflexivity;
    rewrite IHd; f_equal; unfold digit_value; simpl; lia.
Qed.

Lemma of_uint_value (d : Decimal.uint) :
  N.of_uint d = digits_value (NilEmpty.string_of_uint d).
Proof.
  unfold N.of_uint, digits_value.
  induction d; simpl; try reflexivity; try exact IHd;
    rewrite of_uint_acc_value; reflexivity.
Qed.

Lemma strip_is_nzhead (d : Decimal.uint) :
  JsString.strip_leading_zeros (NilEmpty.string_of_uint d)
  = NilEmpty.string_of_uint (Decimal.nzhead d).
Proof. induction d; simpl; try reflexivity; exact IHd. Qed.

(** Stripping the leading zeros of a digit string, with ["0"] for an
    empty remainder, prints its value. *)
Lemma strip_prints_value (s : string) :
  all_digits s = true ->
  JsString.or_else (JsString.strip_leading_zeros s) "0"
  = decimal_of_N (digits_value s).
Proof.
  intros H. destruct (digits_are_uint s H) as [d ->].
  unfold decimal_of_N.
  rewrite <- of_uint_value, DecimalN.Unsigned.to_of, strip_is_nzhead.
  unfold Decimal.unorm.
  destruct (Decimal.nzhead d) eqn:E; reflexivity.
Qed.

End UsdToBaseUnits.

(** C2. For a decimal string with at most six fractional digits,
    [usdToBaseUnits] is the decimal numeral, without leading zeros and
    ["0"] for zero, of the amount scaled by 10^6; the same holds for a
    string without radix point. *)
Theorem usdToBaseUnits_scales (whole frac : string) :
  all_digits whole = true ->
  all_digits frac = true ->
  (String.length frac <= 6)%nat ->
  usdToBaseUnits (whole +:+ "." +:+ frac)
    = decimal_of_N (scaled_amount whole frac)
  /\ usdToBaseUnits whole = decimal_of_N (digits_value whole * 10 ^ 6).
Proof.
  intros Hw Hf Hlen. unfold usdToBaseUnits, scaled_amount. split.
  - change ("." +:+ frac) with (String "." frac).
    rewrite (split_one_sep whole frac Hw Hf).
    change (default "" ([whole; frac] !! 1%nat)) with frac.
    change (default "0" ([whole; frac] !! 0%nat)) with whole.
    rewrite (pad_then_slice frac Hlen).
    rewrite strip_prints_value.
    + f_equal. unfold digits_value at 1.
      rewrite !digits_value_from_app.
      rewrite (digits_value_from_acc _ (JsString.repeat_char _ _)).
      rewrite (digits_value_from_acc _ frac).
      rewrite digits_value_zeros, length_repeat_char.
      fold (digits_value whole). 
      assert (E : (10 ^ 6 = 10 ^ N.of_nat (String.length frac)
                          * 10 ^ N.of_nat (6 - String.length frac))%N).
      { rewrite <- N.pow_add_r. f_equal. lia. }
      rewrite E. lia.
    + auto using all_digits_app, all_digits_zeros.
  - rewrite (split_no_sep whole Hw).
    change (default "" ([whole] !! 1%nat)) with "".
    change (default "0" ([whole] !! 0%nat)) with whole.
    rewrite strip_prints_value.
    + f_equal. unfold digits_value at 1.
      rewrite digits_value_from_app.
      change (JsString.slice 0 6 (JsString.padEnd 6 "0" ""))
        with (JsString.repeat_char "0" 6).
      rewrite (digits_value_from_acc _ (JsString.repeat_char _ _)).
      rewrite digits_value_zeros, length_repeat_char.
      fold (digits_value whole). change (N.of_nat 6) with 6%N. lia.
    + apply all_digits_app; [exact Hw|reflexivity].
Qed.

Lemma usdToBaseUnits_scales_witness :
  usdToBaseUnits "10.00" = "10000000" /\ usdToBaseUnits "10" = "10000000".
Proof.
  exact (usdToBaseUnits_scales "10" "00" eq_refl eq_refl
           (le_S _ _ (le_S _ _ (le_S _ _ (le_S _ _ (le_n 2)))))).
Defined.

Example usdToBaseUnits_ten : usdToBaseUnits "10.00" = "10000000".
Proof. reflexivity. Qed.
Example usdToBaseUnits_cent : usdToBaseUnits "0.01" = "10000".
Proof. reflexivity. Qed.
Example usdToBaseUnits_micro : usdToBaseUnits "0.000001" = "1".
Proof. reflexivity. Qed.
Example usdToBaseUnits_zero : usdToBaseUnits "0" = "0".
Proof. reflexivity. Qed.

(** ** The monad of awaited calls *)

Section Monad.
Context `{Platform}.

Lemma bind_normal {A B} (m : M A) (k : A -> M B) st a st' :
  m st = (Normal a, st') -> bind m k st = k a st'.
Proof. intros E. unfold bind. now rewrite E. Qed.

Lemma bind_throw {A B} (m : M A) (k : A -> M B) st e st' :
  m st = (Throw e, st') -> bind m k st = (Throw e, st').
Proof. intros E. unfold bind. now rewrite E. Qed.

Lemma ensures_ret {A} (a : A) (Q : A -> Prop) : Q a -> ensures (ret a) Q.
Proof. intros HQ st b st' E. inversion E. now subst. Qed.

Lemma ensures_lift {A} (c : Completion A) (Q : A -> Prop) :
  (forall a, c = Normal a -> Q a) -> ensures (lift c) Q.
Proof. intros HQ st b st' E. inversion E. now apply HQ. Qed.

Lemma ensures_bind {A B} (m : M A) (k : A -> M B) (Q : B -> Prop) :
  (forall a, ensures (k a) Q) -> ensures (bind m k) Q.
Proof.
  intros Hk st b st' E. unfold bind in E.
  destruct (m st) as [[a|e] st1]; [|discriminate E].
  exact (Hk a st1 b st' E).
Qed.

Lemma silent_ret {A} (a : A) : silent (ret a).
Proof. intros st o st' E. now inversion E. Qed.

Lemma silent_throw {A} (e : Thrown) : silent (throw (A:=A) e).
Proof. intros st o st' E. now inversion E. Qed.

Lemma silent_lift {A} (c : Completion A) : silent (lift c).
Proof. intros st o st' E. now inversion E. Qed.

Lemma silent_bind {A B} (m : M A) (k : A -> M B) :
  silent m -> (forall a, silent (k a)) -> silent (bind m k).
Proof.
  intros Hm Hk st o st' E. unfold bind in E.
  destruct (m st) as [[a|e] st1] eqn:Em.
  - rewrite (Hk a _ _ _ E). exact (Hm _ _ _ Em).
  - inversion E; subst. exact (Hm _ _ _ Em).
Qed.

Lemma silent_nowSeconds : silent nowSeconds.
Proof. intros st o st' E. now inversion E. Qed.

Lemma silent_generateEIP3009Nonce : silent generateEIP3009Nonce.
Proof.
  intros st o st' E. unfold generateEIP3009Nonce in E.
  destruct (randomBytes 32 (world st)). now inversion E.
Qed.

Lemma buildPaymentPayload_silent this payTo amountBaseUnits network :
  silent (buildPaymentPayload this payTo amountBaseUnits network).
Proof.
  unfold buildPaymentPayload.
  destruct (walletPrivateKey this) as [[|c key]|]; try apply silent_ret.
  destruct (signing_domain network); [|apply silent_throw].
  repeat first [ apply silent_ret | apply silent_lift | apply silent_nowSeconds
               | apply silent_generateEIP3009Nonce
               | apply silent_bind; [|intros ?] ].
Qed.

End Monad.

(** ** Outcomes of [pay] *)

Section PayOutcomes.
Context `{Platform}.
Implicit Types (this : ClientConfig) (request : PaymentRequest) (st : State).

Lemma coalesce_not_nullish v d :
  Js.nullish d = false -> Js.nullish (Js.coalesce v d) = false.
Proof. intros Hd. unfold Js.coalesce. now destruct (Js.nullish v) eqn:E. Qed.

Lemma rejected_reported errorData fallback result :
  rejected errorData fallback = Normal result -> reported result.
Proof.
  unfold rejected, cbind. intros E.
  destruct (get_prop errorData "error") as [e|]; [|discriminate E].
  destruct (get_prop errorData "code") as [c|]; [|discriminate E].
  destruct (get_prop errorData "details") as [d|]; [|discriminate E].
  inversion E; subst. right. do 3 eexists. split; [reflexivity|].
  now apply coalesce_not_nullish.
Qed.

Lemma failed_reported (message : string) : reported (failed (JStr message) JUndefined JUndefined).
Proof. right. now do 3 eexists. Qed.

Lemma settled_success settleData commissionData result :
  settled settleData commissionData = Normal result -> success result = true.
Proof.
  unfold settled, cbind. intros E.
  repeat match type of E with
         | match ?c with _ => _ end = _ => destruct c; [|discriminate E]
         end.
  now inversion E.
Qed.

Ltac ensures_reported :=
  repeat first
    [ apply ensures_ret
    | apply ensures_bind; intros ?
    | apply ensures_lift; intros ? ?
    | match goal with |- ensures (if ?b then _ else _) _ => destruct b end ].

Lemma pay_attempt_reported this request :
  ensures (pay_attempt this request) reported.
Proof.
  unfold pay_attempt. ensures_reported;
    first [ now left | apply failed_reported | eapply rejected_reported; eassumption
          | left; eapply settled_success; eassumption ].
Qed.

(** [pay] is its [try] block with every throw turned into a failure. *)
Lemma pay_unfold this request st :
  pay this request st
  = match pay_attempt this request (entered st request) with
    | (Normal result, st') => (Normal result, st')
    | (Throw e, st') =>
        (Normal (failed (JStr (getErrorMessage e)) JUndefined JUndefined), st')
    end.
Proof. reflexivity. Qed.

Lemma pay_returns_reported this request st :
  exists result st', pay this request st = (Normal result, st') /\ reported result.
Proof.
  rewrite pay_unfold.
  destruct (pay_attempt this request (entered st request)) as [[r|e] st'] eqn:E.
  - exists r, st'. split; [reflexivity|]. exact (pay_attempt_reported _ _ _ _ _ E).
  - eexists _, st'. split; [reflexivity|]. apply failed_reported.
Qed.

End PayOutcomes.

(** ** The paths of [pay] *)

Section PayPaths.
Context `{Platform}.
Implicit Types (this : ClientConfig) (request : PaymentRequest) (st : State).

Lemma fetch_sent url init st outcome w :
  transport url init (world st) = (outcome, w) ->
  fetch url init st = (outcome, sent st w url init).
Proof. intros E. unfold fetch. now rewrite E. Qed.

Lemma lift_bind {A B} (c : Completion A) (k : A -> M B) st :
  bind (lift c) k st
  = match c with Normal a => k a st | Throw e => (Throw e, st) end.
Proof. unfold bind, lift. now destruct c. Qed.

Lemma payload_keeps_log this request st outcome st1 :
  payload_of this request st = (outcome, st1) -> log st1 = log st.
Proof. apply buildPaymentPayload_silent. Qed.

Lemma failed_has_message (message : string) :
  failure_with_message (failed (JStr message) JUndefined JUndefined).
Proof. now split. Qed.

Lemma rejected_has_message errorData fallback :
  failure_with_message
    match rejected errorData fallback with
    | Normal result => result
    | Throw e => failed (JStr (getErrorMessage e)) JUndefined JUndefined
    end.
Proof.
  destruct (rejected errorData fallback) as [result|e] eqn:E;
    [|apply failed_has_message].
  destruct (rejected_reported _ _ _ E) as [Hs|(e & c & d & -> & He)].
  - unfold rejected, cbind in E.
    destruct (get_prop errorData "error"); [|discriminate E].
    destruct (get_prop errorData "code"); [|discriminate E].
    destruct (get_prop errorData "details"); [|discriminate E].
    inversion E; subst. discriminate Hs.
  - now split.
Qed.

(** The proof cannot be built: no request is made. *)
Lemma pay_without_proof this request st e st1 :
  payload_of this request (entered st request) = (Throw e, st1) ->
  pay this request st
  = (Normal (failed (JStr (getErrorMessage e)) JUndefined JUndefined), st1).
Proof.
  intros Hbuild. rewrite pay_unfold. unfold pay_attempt.
  unfold payload_of, network_of in Hbuild.
  now rewrite (bind_throw _ _ _ _ _ Hbuild).
Qed.

(** The verify request is rejected by the transport. *)
Lemma pay_verify_unreachable this request st payloadString st1 e w2 :
  payload_of this request (entered st request) = (Normal payloadString, st1) ->
  transport (verify_url this) (verify_init this request payloadString) (world st1)
    = (Throw e, w2) ->
  pay this request st
  = (Normal (failed (JStr (getErrorMessage e)) JUndefined JUndefined),
     sent st1 w2 (verify_url this) (verify_init this request payloadString)).
Proof.
  intros Hbuild Hverify. rewrite pay_unfold. unfold pay_attempt.
  unfold payload_of, network_of in Hbuild.
  rewrite (bind_normal _ _ _ _ _ Hbuild).
  now rewrite (bind_throw _ _ _ _ _ (fetch_sent _ _ _ _ _ Hverify)).
Qed.

(** After the verify response, [pay] is what the rest of its [try]
    block makes of that response. *)
Lemma pay_after_verify this request st payloadString response st2 :
  verify_phase this request st payloadString response st2 ->
  pay this request st
  = match
      (if negb (ok response) then
         lift (rejected (json_or_empty response)
                 ("HTTP " +:+ Z_toString (status response)))
       else
         verifyData <- lift (json response) ;;
         settlementToken <- lift (get_prop verifyData "settlementToken") ;;
         if negb (Js.truthy settlementToken) then
           ret (failed (JStr "Verify response missing settlement token")
                  JUndefined JUndefined)
         else
           modifiedRequirements <- lift (get_prop verifyData "modifiedRequirements") ;;
           commission <- lift (get_prop verifyData "commission") ;;
           settleResponse <- fetch (settle_url this)
                               (post this
                                  (settle_body this request payloadString
                                     (network_of request)
                                     (default "0x036CbD53842c5426634e7929541eC2318f3dCF7e"
                                        (tokenContract request))
                                     (usdToBaseUnits (amount request))
                                     settlementToken modifiedRequirements commission)) ;;
           if negb (ok settleResponse) then
             lift (rejected (json_or_empty settleResponse)
                     ("Settlement HTTP " +:+ Z_toString (status settleResponse)))
           else
             settleData <- lift (json settleResponse) ;;
             commissionData <- lift (get_prop verifyData "commission") ;;
             lift (settled settleData commissionData)) st2
    with
    | (Normal result, st') => (Normal result, st')
    | (Throw e, st') =>
        (Normal (failed (JStr (getErrorMessage e)) JUndefined JUndefined), st')
    end.
Proof.
  intros (st1 & w2 & Hbuild & Hverify & ->). rewrite pay_unfold. unfold pay_attempt.
  unfold payload_of, network_of in Hbuild.
  rewrite (bind_normal _ _ _ _ _ Hbuild).
  now rewrite (bind_normal _ _ _ _ _ (fetch_sent _ _ _ _ _ Hverify)).
Qed.

(** The verify response is not [ok]: the error body decides the result
    and the attempt ends there. *)
Lemma pay_verify_rejected this request st payloadString response st2 :
  verify_phase this request st payloadString response st2 ->
  ok response = false ->
  pay this request st
  = (Normal
       match rejected (json_or_empty response)
               ("HTTP " +:+ Z_toString (status response)) with
       | Normal result => result
       | Throw e => failed (JStr (getErrorMessage e)) JUndefined JUndefined
       end,
     st2).
Proof.
  intros Hphase Hok. rewrite (pay_after_verify _ _ _ _ _ _ Hphase), Hok.
  cbn [negb]. unfold lift. now destruct (rejected _ _).
Qed.

Lemma pay_verify_undecodable this request st payloadString response st2 e :
  verify_phase this request st payloadString response st2 ->
  ok response = true ->
  json response = Throw e ->
  pay this request st
  = (Normal (failed (JStr (getErrorMessage e)) JUndefined JUndefined), st2).
Proof.
  intros Hphase Hok Hjson. rewrite (pay_after_verify _ _ _ _ _ _ Hphase), Hok.
  cbn [negb]. now rewrite lift_bind, Hjson.
Qed.

Lemma pay_verify_without_token this request st payloadString response st2 verifyData :
  verify_phase this request st payloadString response st2 ->
  ok response = true ->
  json response = Normal verifyData ->
  (forall token, get_prop verifyData "settlementToken" = Normal token ->
                 Js.truthy token = false) ->
  exists message,
    pay this request st
    = (Normal (failed (JStr message) JUndefined JUndefined), st2).
Proof.
  intros Hphase Hok Hjson Htoken.
  rewrite (pay_after_verify _ _ _ _ _ _ Hphase), Hok.
  cbn [negb]. rewrite lift_bind, Hjson, lift_bind.
  destruct (get_prop verifyData "settlementToken") as [token|e] eqn:E.
  - rewrite (Htoken token eq_refl). cbn [negb]. now eexists.
  - now eexists.
Qed.

(** The verify response is ok and decodes, but holds no token: the
    fixed message, whatever else the body says. *)
Lemma pay_verify_missing_token this request st payloadString response st2 verifyData :
  verify_phase this request st payloadString response st2 ->
  ok response = true ->
  json response = Normal verifyData ->
  Js.nullish verifyData = false ->
  Js.truthy (member verifyData "settlementToken") = false ->
  pay this request st
  = (Normal (failed (JStr "Verify response missing settlement token")
               JUndefined JUndefined), st2).
Proof.
  intros Hphase Hok Hjson Hbody Htoken.
  rewrite (pay_after_verify _ _ _ _ _ _ Hphase), Hok.
  cbn [negb]. rewrite lift_bind, Hjson, lift_bind.
  assert (E : get_prop verifyData "settlementToken"
              = Normal (member verifyData "settlementToken"))
    by (now destruct verifyData).
  now rewrite E, Htoken.
Qed.

Lemma pay_verify_null this request st payloadString response st2 verifyData :
  verify_phase this request st payloadString response st2 ->
  ok response = true ->
  json response = Normal verifyData ->
  Js.nullish verifyData = true ->
  pay this request st
  = (Normal (failed (JStr (cannot_read verifyData "settlementToken"))
               JUndefined JUndefined), st2).
Proof.
  intros Hphase Hok Hjson Hbody.
  rewrite (pay_after_verify _ _ _ _ _ _ Hphase), Hok.
  cbn [negb]. rewrite lift_bind, Hjson, lift_bind.
  now destruct verifyData.
Qed.

(** After the settle response, likewise. *)
Lemma pay_after_settle this request st payloadString verified st2 outcome w3 :
  verified_phase this request st payloadString verified st2 ->
  transport (settle_url this) (settle_init this request payloadString verified)
    (world st2) = (outcome, w3) ->
  let st3 :=
    sent st2 w3 (settle_url this) (settle_init this request payloadString verified) in
  pay this request st
  = match outcome with
    | Throw e => (Normal (failed (JStr (getErrorMessage e)) JUndefined JUndefined), st3)
    | Normal settleResponse =>
        if negb (ok settleResponse) then
          (Normal
             match rejected (json_or_empty settleResponse)
                     ("Settlement HTTP " +:+ Z_toString (status settleResponse)) with
             | Normal result => result
             | Throw e => failed (JStr (getErrorMessage e)) JUndefined JUndefined
             end, st3)
        else
          match json settleResponse with
          | Throw e =>
              (Normal (failed (JStr (getErrorMessage e)) JUndefined JUndefined), st3)
          | Normal settleData =>
              match settled settleData (Js.lookup_prop "commission" verified) with
              | Normal result => (Normal result, st3)
              | Throw e =>
                  (Normal (failed (JStr (getErrorMessage e)) JUndefined JUndefined), st3)
              end
          end
    end.
Proof.
  intros (response & Hphase & Hok & Hjson & Htoken) Hsettle st3.
  rewrite (pay_after_verify _ _ _ _ _ _ Hphase), Hok. cbn [negb].
  rewrite lift_bind, Hjson, lift_bind. cbn [get_prop].
  rewrite Htoken. cbn [negb]. rewrite !lift_bind.
  pose proof (fetch_sent _ _ _ _ _ Hsettle) as Hsent. fold st3 in Hsent.
  unfold settle_init in Hsent.
  destruct outcome as [settleResponse|e].
  - rewrite (bind_normal _ _ _ _ _ Hsent).
    destruct (ok settleResponse); cbn [negb].
    + rewrite lift_bind. destruct (json settleResponse) as [settleData|e]; [|reflexivity].
      rewrite lift_bind. cbn [get_prop].
      unfold lift. now destruct (settled _ _).
    + unfold lift. now destruct (rejected _ _).
  - now rewrite (bind_throw _ _ _ _ _ Hsent).
Qed.

Lemma describes_message e message :
  describes e message -> getErrorMessage e = message.
Proof.
  intros [m|s|v Hv]; try reflexivity.
  destruct v; try reflexivity. now destruct (Hv s).
Qed.

Lemma describes_caught e : describes e (getErrorMessage e).
Proof.
  destruct e as [message|v]; [constructor|].
  destruct v; cbn; first [ apply describes_string | now apply describes_other ].
Qed.

Lemma is_failure_failed message code details :
  is_failure (failed message code details) message code details.
Proof. now repeat split. Qed.

(** The literal built from a response that is not ok says what the
    response reports. *)
Lemma rejected_says_report response fallback message code details :
  server_report response fallback message code details ->
  match rejected (json_or_empty response) fallback with
  | Normal result => result
  | Throw e => failed (JStr (getErrorMessage e)) JUndefined JUndefined
  end = failed message code details.
Proof.
  unfold json_or_empty.
  intros [body Hjson Hbody|body Hjson Hbody|e Hjson]; rewrite Hjson.
  - now destruct body.
  - now destruct body.
  - reflexivity.
Qed.

(** Every failure mode ends in the failure it names, in the state it
    names. *)
Lemma failure_mode_described this request st st' message code details :
  failure_mode this request st st' message code details ->
  exists result,
    pay this request st = (Normal result, st')
    /\ is_failure result message code details.
Proof.
  intros [payloadString st1 e w2 m Hbuild Hverify Hm
         |payloadString response st2 m c d Hphase Hok Hreport
         |payloadString response st2 e m Hphase Hok Hjson Hm
         |payloadString response st2 verifyData Hphase Hok Hjson Hbody Htoken
         |payloadString response st2 verifyData Hphase Hok Hjson Hbody
         |payloadString verified st2 e w3 m Hphase Hsettle Hm
         |payloadString verified st2 settleResponse w3 m c d Hphase Hsettle Hok Hreport
         |payloadString verified st2 settleResponse w3 e m Hphase Hsettle Hok Hjson Hm].
  - eexists. split; [exact (pay_verify_unreachable _ _ _ _ _ _ _ Hbuild Hverify)|].
    rewrite (describes_message _ _ Hm). apply is_failure_failed.
  - eexists. split; [exact (pay_verify_rejected _ _ _ _ _ _ Hphase Hok)|].
    rewrite (rejected_says_report _ _ _ _ _ Hreport). apply is_failure_failed.
  - eexists. split; [exact (pay_verify_undecodable _ _ _ _ _ _ _ Hphase Hok Hjson)|].
    rewrite (describes_message _ _ Hm). apply is_failure_failed.
  - eexists.
    split; [exact (pay_verify_missing_token _ _ _ _ _ _ _ Hphase Hok Hjson Hbody Htoken)|].
    apply is_failure_failed.
  - eexists. split; [exact (pay_verify_null _ _ _ _ _ _ _ Hphase Hok Hjson Hbody)|].
    apply is_failure_failed.
  - eexists. split; [exact (pay_after_settle _ _ _ _ _ _ _ _ Hphase Hsettle)|].
    rewrite (describes_message _ _ Hm). apply is_failure_failed.
  - rewrite (pay_after_settle _ _ _ _ _ _ _ _ Hphase Hsettle), Hok. cbn [negb].
    eexists. split; [reflexivity|].
    rewrite (rejected_says_report _ _ _ _ _ Hreport). apply is_failure_failed.
  - rewrite (pay_after_settle _ _ _ _ _ _ _ _ Hphase Hsettle), Hok, Hjson. cbn [negb].
    eexists. split; [reflexivity|].
    rewrite (describes_message _ _ Hm). apply is_failure_failed.
Qed.

End PayPaths.

(** ** The log only grows *)

Section Growth.
Context `{Platform}.
Implicit Types (this : ClientConfig) (request : PaymentRequest) (st : State).

Lemma grows_ret {A} (a : A) : grows (ret a).
Proof. intros st o st' E. inversion E. exists []. now rewrite app_nil_r. Qed.

Lemma grows_lift {A} (c : Completion A) : grows (lift c).
Proof. intros st o st' E. inversion E. exists []. now rewrite app_nil_r. Qed.

Lemma grows_silent {A} (m : M A) : silent m -> grows m.
Proof.
  intros Hm st o st' E. exists []. rewrite app_nil_r. exact (Hm _ _ _ E).
Qed.

Lemma grows_fetch url init : grows (fetch url init).
Proof.
  intros st o st' E. unfold fetch in E.
  destruct (transport url init (world st)). inversion E. now eexists.
Qed.

Lemma grows_bind {A B} (m : M A) (k : A -> M B) :
  grows m -> (forall a, grows (k a)) -> grows (bind m k).
Proof.
  intros Hm Hk st o st' E. unfold bind in E.
  destruct (m st) as [[a|e] st1] eqn:Em.
  - destruct (Hm _ _ _ Em) as [r1 E1]. destruct (Hk a _ _ _ E) as [r2 E2].
    exists (r1 ++ r2)%list. now rewrite E2, E1, app_assoc.
  - inversion E; subst. exact (Hm _ _ _ Em).
Qed.

Lemma pay_attempt_grows this request : grows (pay_attempt this request).
Proof.
  unfold pay_attempt.
  repeat first
    [ apply grows_ret | apply grows_lift | apply grows_fetch
    | apply grows_silent, buildPaymentPayload_silent
    | apply grows_bind; [|intros ?]
    | match goal with |- grows (if ?b then _ else _) => destruct b end ].
Qed.

(** A call of [pay] is logged, whatever follows. *)
Lemma pay_is_logged this request st outcome st' :
  pay this request st = (outcome, st') ->
  exists rest, log st' = (log st ++ PayCalled request :: rest)%list.
Proof.
  rewrite pay_unfold. intros E.
  destruct (pay_attempt this request (entered st request)) as [o st1] eqn:Ea.
  destruct (pay_attempt_grows _ _ _ _ _ Ea) as [rest Hrest].
  exists rest. cbn [entered log] in Hrest. rewrite <- app_assoc in Hrest.
  destruct o; inversion E; subst; exact Hrest.
Qed.

(** After the verify response the log only grows. *)
Lemma pay_grows_after_verify this request st payloadString response st2 :
  verify_phase this request st payloadString response st2 ->
  exists rest, log (snd (pay this request st)) = (log st2 ++ rest)%list.
Proof.
  intros Hphase. rewrite (pay_after_verify _ _ _ _ _ _ Hphase).
  match goal with
  | |- context [match ?m st2 with _ => _ end] =>
      assert (Hgrows : grows m);
        [|destruct (m st2) as [[result|e] st'] eqn:E;
          exact (Hgrows _ _ _ E)]
  end.
  repeat first
    [ apply grows_ret | apply grows_lift | apply grows_fetch
    | apply grows_bind; [|intros ?]
    | match goal with |- grows (if ?b then _ else _) => destruct b end ].
Qed.

(** Once the proof is built the verify request follows the call. *)
Lemma pay_log_after_payload this request st payloadString st1 :
  payload_of this request (entered st request) = (Normal payloadString, st1) ->
  exists rest,
    log (snd (pay this request st))
    = (log st ++ PayCalled request
         :: Fetched (verify_url this) (verify_init this request payloadString)
         :: rest)%list.
Proof.
  intros Hbuild.
  destruct (transport (verify_url this) (verify_init this request payloadString)
              (world st1)) as [[response|e] w2] eqn:Hverify.
  - assert (Hphase : verify_phase this request st payloadString response
                       (sent st1 w2 (verify_url this)
                          (verify_init this request payloadString)))
      by (now exists st1, w2).
    destruct (pay_grows_after_verify _ _ _ _ _ _ Hphase) as [rest Hrest].
    exists rest. rewrite Hrest. cbn [sent log].
    rewrite (payload_keeps_log _ _ _ _ _ Hbuild). cbn [entered log].
    now rewrite <- !app_assoc.
  - exists []. rewrite (pay_verify_unreachable _ _ _ _ _ _ _ Hbuild Hverify).
    cbn [snd sent log]. rewrite (payload_keeps_log _ _ _ _ _ Hbuild).
    cbn [entered log]. now rewrite <- app_assoc.
Qed.

End Growth.

(** ** Properties of the protocol client *)

(** C1, as amended. [pay] never raises: every run returns a result,
    and a result with [success] false has no transaction, zeroed
    amounts and an error that is neither [undefined] nor [null]. Each
    failure mode of the exchange is reported member by member: a
    rejected request or an undecodable body with the message of what
    was thrown and neither code nor details; a response that is not ok
    with the error, code and details of its body, "HTTP <status>" or
    "Settlement HTTP <status>" standing in for a missing error; a verify
    response that is ok but holds no settlement token with the fixed
    message "Verify response missing settlement token" and neither code
    nor details, whatever its body says. *)
Theorem pay_never_raises `{Platform}
    (this : ClientConfig) (request : PaymentRequest) (st : State) :
  (exists result st',
      pay this request st = (Normal result, st')
      /\ (success result = false ->
          is_failure result (error result) (errorCode result) (errorDetails result)
          /\ Js.nullish (error result) = false))
  /\ (forall st' message code details,
        failure_mode this request st st' message code details ->
        exists result,
          pay this request st = (Normal result, st')
          /\ is_failure result message code details).
Proof.
  split.
  - destruct (pay_returns_reported this request st) as (result & st' & E & Hr).
    exists result, st'. split; [exact E|]. intros Hfail.
    destruct Hr as [Hs|(e & c & d & -> & He)]; [congruence|].
    split; [apply is_failure_failed|exact He].
  - intros st' message code details. apply failure_mode_described.
Qed.

(** A verify response with status 403 and a policy violation as body. *)
Lemma pay_never_raises_witness :
  exists result,
    pay (H := Scripted.platform) (PayBotClient Sample.bot) Sample.five_cents
      (Scripted.start [Sample.answer 403 [] (Normal (JObj Sample.trust_violation))])
    = (Normal result,
       Scripted.state []
         [ PayCalled Sample.five_cents;
           Fetched "http://localhost:3000/verify"
             (verify_init (H := Scripted.platform) (PayBotClient Sample.bot)
                Sample.five_cents "payer:my-bot") ])
    /\ is_failure result (JStr "Trust level too low") (JStr "TRUST_VIOLATION")
         (JObj [("required", JNum 3)]).
Proof.
  refine (proj2
            (pay_never_raises (H := Scripted.platform) (PayBotClient Sample.bot)
               Sample.five_cents
               (Scripted.start
                  [Sample.answer 403 [] (Normal (JObj Sample.trust_violation))]))
            _ _ _ _
            (verify_not_ok (H := Scripted.platform) _ _ _ "payer:my-bot"
               {| status := 403; headers := [];
                  json := Normal (JObj Sample.trust_violation) |}
               _ _ _ _ _ eq_refl
               (report_of_body (H := Scripted.platform)
                  {| status := 403; headers := [];
                     json := Normal (JObj Sample.trust_violation) |}
                  "HTTP 403" (JObj Sample.trust_violation) eq_refl eq_refl))).
  exists (entered (H := Scripted.platform) (Scripted.start
                     [Sample.answer 403 [] (Normal (JObj Sample.trust_violation))])
            Sample.five_cents), [].
  repeat split.
Defined.

(** C1, as stated, fails: a verify response that is ok and carries the
    server's error, code and details but no settlement token is
    reported with the fixed message only; the code and the details the
    server sent are not in the result. *)
Lemma missing_token_drops_server_report :
  exists result st',
    pay (H := Scripted.platform) (PayBotClient Sample.bot) Sample.five_cents
      (Scripted.start [Sample.answer 200 [] (Normal (JObj Sample.trust_violation))])
    = (Normal result, st')
    /\ success result = false
    /\ member (JObj Sample.trust_violation) "error" = JStr "Trust level too low"
    /\ member (JObj Sample.trust_violation) "code" = JStr "TRUST_VIOLATION"
    /\ member (JObj Sample.trust_violation) "details" = JObj [("required", JNum 3)]
    /\ error result = JStr "Verify response missing settlement token"
    /\ errorCode result = JUndefined
    /\ errorDetails result = JUndefined.
Proof. eexists _, _. repeat split. Qed.

(** C4. When the verify response is not ok, [pay] returns a failure
    and the verify request is the only request it made: settle is not
    issued. *)
Theorem pay_stops_after_rejected_verify `{Platform}
    (this : ClientConfig) (request : PaymentRequest) (st : State)
    (payloadString : string) (response : Response) (st2 : State) :
  verify_phase this request st payloadString response st2 ->
  ok response = false ->
  exists result,
    pay this request st = (Normal result, st2)
    /\ success result = false
    /\ log st2
       = (log st ++ [ PayCalled request;
                      Fetched (verify_url this)
                        (verify_init this request payloadString) ])%list.
Proof.
  intros Hphase Hok.
  eexists. split; [exact (pay_verify_rejected _ _ _ _ _ _ Hphase Hok)|].
  split; [apply rejected_has_message|].
  destruct Hphase as (st1 & w2 & Hbuild & _ & ->).
  cbn [sent log]. rewrite (payload_keeps_log _ _ _ _ _ Hbuild).
  cbn [entered log]. now rewrite <- app_assoc.
Qed.

Lemma pay_stops_after_rejected_verify_witness :
  exists result,
    pay (H := Scripted.platform) (PayBotClient Sample.bot) Sample.five_cents
      (Scripted.start [Sample.answer 500 [] (Throw (ErrorObject "Unexpected token"));
                       Sample.answer 200 [] (Normal (JObj []))])
    = (Normal result,
       sent (H := Scripted.platform) (entered
               (Scripted.start
                  [Sample.answer 500 [] (Throw (ErrorObject "Unexpected token"));
                   Sample.answer 200 [] (Normal (JObj []))])
               Sample.five_cents)
         [Sample.answer 200 [] (Normal (JObj []))]
         "http://localhost:3000/verify"
         (verify_init (H := Scripted.platform) (PayBotClient Sample.bot) Sample.five_cents "payer:my-bot"))
    /\ success result = false
    /\ log (sent (H := Scripted.platform) (entered
               (Scripted.start
                  [Sample.answer 500 [] (Throw (ErrorObject "Unexpected token"));
                   Sample.answer 200 [] (Normal (JObj []))])
               Sample.five_cents)
         [Sample.answer 200 [] (Normal (JObj []))]
         "http://localhost:3000/verify"
         (verify_init (H := Scripted.platform) (PayBotClient Sample.bot) Sample.five_cents "payer:my-bot"))
       = [ PayCalled Sample.five_cents;
           Fetched "http://localhost:3000/verify"
             (verify_init (H := Scripted.platform) (PayBotClient Sample.bot) Sample.five_cents "payer:my-bot") ].
Proof.
  refine (pay_stops_after_rejected_verify (H := Scripted.platform)
            (PayBotClient Sample.bot) Sample.five_cents _ "payer:my-bot"
            {| status := 500; headers := [];
               json := Throw (ErrorObject "Unexpected token") |} _ _ eq_refl).
  eexists _, _. repeat split.
Defined.

(** C5. Every result of [pay] has its four amount members (the result
    type has them without option), and in every failure they are "0",
    "0", "0" and 0. *)
Theorem pay_failure_is_zeroed `{Platform}
    (this : ClientConfig) (request : PaymentRequest) (st : State) :
  exists result st',
    pay this request st = (Normal result, st')
    /\ (success result = false ->
        grossAmount result = "0" /\ netAmount result = "0"
        /\ commissionAmount result = "0" /\ commissionRate result = 0%float).
Proof.
  destruct (pay_returns_reported this request st) as (result & st' & E & Hr).
  exists result, st'. split; [exact E|]. intros Hfail.
  destruct Hr as [Hs|(e & c & d & -> & _)]; [congruence|now repeat split].
Qed.

(** A settled payment, for contrast: the amounts are those of the
    commission the verify response carried. *)
Example pay_settles :
  pay (H := Scripted.platform) (PayBotClient Sample.bot) Sample.five_cents
    (Scripted.start
       [ Sample.answer 200 [] (Normal (JObj Sample.verified));
         Sample.answer 200 []
           (Normal (JObj [("transaction", JStr "0xabc");
                          ("network", JStr "eip155:84532")])) ])
  = (Normal {| success := true; txHash := JStr "0xabc";
               grossAmount := "50000"; netAmount := "49500";
               commissionAmount := "500"; commissionRate := 0.5;
               res_network := JStr "eip155:84532"; error := JUndefined;
               errorCode := JUndefined; errorDetails := JUndefined |},
     Scripted.state []
       [ PayCalled Sample.five_cents;
         Fetched "http://localhost:3000/verify"
           (verify_init (H := Scripted.platform) (PayBotClient Sample.bot)
              Sample.five_cents "payer:my-bot");
         Fetched "http://localhost:3000/settle"
           (settle_init (H := Scripted.platform) (PayBotClient Sample.bot)
              Sample.five_cents "payer:my-bot" Sample.verified) ]).
Proof. reflexivity. Qed.

(** What the builder does once the registry lookup gave [domain]. *)
Lemma payload_signed `{Platform}
    (this : ClientConfig) (payTo amountBaseUnits network key : string) (st : State)
    (domain : JsObject.Member EIP712Domain) (account : Account)
    (bytes : list Byte.byte) (w : World) (value : Z) (signature : string) :
  walletPrivateKey this = Some key ->
  key <> "" ->
  signing_domain network = Some domain ->
  privateKeyToAccount key = Normal account ->
  randomBytes 32 (world st) = (bytes, w) ->
  BigInt amountBaseUnits = Normal value ->
  signTypedData account
    {| td_domain := domain; td_types := EIP3009_TYPES;
       td_primaryType := "TransferWithAuthorization";
       td_message :=
         {| auth_from := address account; auth_to := payTo;
            auth_value := value; validAfter := 0;
            validBefore := Date_now w / 1000 + 3600;
            auth_nonce := "0x" +:+ toHex bytes |} |} = Normal signature ->
  buildPaymentPayload this payTo amountBaseUnits network st
  = (Normal (JSON_stringify
               (proof_object
                  {| auth_from := address account; auth_to := payTo;
                     auth_value := value; validAfter := 0;
                     validBefore := Date_now w / 1000 + 3600;
                     auth_nonce := "0x" +:+ toHex bytes |} signature)),
     {| world := w; log := log st |}).
Proof.
  intros Hkey Hne Hdomain Haccount Hrandom Hvalue Hsign.
  unfold buildPaymentPayload. rewrite Hkey.
  destruct key as [|c key]; [now destruct Hne|]. rewrite Hdomain.
  rewrite lift_bind, Haccount.
  unfold bind at 1, generateEIP3009Nonce. rewrite Hrandom.
  unfold bind at 1, nowSeconds. cbn [world].
  rewrite lift_bind, Hvalue, lift_bind, Hsign. reflexivity.
Qed.

(** C9. With a wallet key and a chain that has no signing domain of its
    own, the lookup [EIP712_DOMAINS[network]] decides. For a name that
    [Object.prototype] does not define it is [undefined]: building the
    proof throws the unknown-domain error, [pay] returns it as a
    failure, and the only thing that happened is the call of [pay]
    itself. For a name that [Object.prototype] defines ("constructor",
    "toString", "__proto__", ...) the lookup gives the inherited member,
    the guard passes, and when the signer accepts that member as domain
    the proof is signed under it and the verify request is issued. *)
Theorem pay_unknown_signing_domain `{Platform}
    (this : ClientConfig) (request : PaymentRequest) (st : State) (key : string) :
  walletPrivateKey this = Some key ->
  key <> "" ->
  EIP712_DOMAINS !! network_of request = None ->
  (JsObject.inherits (network_of request) = false ->
   payload_of this request (entered st request)
   = (Throw (ErrorObject ("No EIP-712 domain for network: " +:+ network_of request)),
      entered st request)
   /\ (exists result,
         pay this request st = (Normal result, entered st request)
         /\ is_failure result
              (JStr ("No EIP-712 domain for network: " +:+ network_of request))
              JUndefined JUndefined)
   /\ log (entered st request) = (log st ++ [PayCalled request])%list)
  /\ (JsObject.inherits (network_of request) = true ->
      signing_domain (network_of request)
      = Some (JsObject.Inherited (network_of request))
      /\ forall account bytes w value signature,
           privateKeyToAccount key = Normal account ->
           randomBytes 32 (world st) = (bytes, w) ->
           BigInt (usdToBaseUnits (amount request)) = Normal value ->
           signTypedData account
             {| td_domain := JsObject.Inherited (network_of request);
                td_types := EIP3009_TYPES;
                td_primaryType := "TransferWithAuthorization";
                td_message :=
                  {| auth_from := address account; auth_to := payTo request;
                     auth_value := value; validAfter := 0;
                     validBefore := Date_now w / 1000 + 3600;
                     auth_nonce := "0x" +:+ toHex bytes |} |} = Normal signature ->
           exists payloadString outcome st' rest,
             payload_of this request (entered st request)
             = (Normal payloadString,
                {| world := w; log := (log st ++ [PayCalled request])%list |})
             /\ pay this request st = (outcome, st')
             /\ log st'
                = (log st ++ PayCalled request
                     :: Fetched (verify_url this)
                          (verify_init this request payloadString) :: rest)%list).
Proof.
  intros Hkey Hne Hown. split.
  - intros Hproto.
    assert (Hbuild :
      payload_of this request (entered st request)
      = (Throw (ErrorObject ("No EIP-712 domain for network: " +:+ network_of request)),
         entered st request)).
    { unfold payload_of, buildPaymentPayload. rewrite Hkey.
      destruct key as [|c key]; [now destruct Hne|].
      unfold signing_domain, JsObject.index. now rewrite Hown, Hproto. }
    split; [exact Hbuild|]. split; [|reflexivity].
    eexists. split; [exact (pay_without_proof _ _ _ _ _ Hbuild)|].
    apply is_failure_failed.
  - intros Hproto.
    assert (Hdomain : signing_domain (network_of request)
                      = Some (JsObject.Inherited (network_of request))).
    { unfold signing_domain, JsObject.index. now rewrite Hown, Hproto. }
    split; [exact Hdomain|].
    intros account bytes w value signature Haccount Hrandom Hvalue Hsign.
    pose proof (payload_signed this (payTo request) (usdToBaseUnits (amount request))
                  (network_of request) key (entered st request) _ account bytes w
                  value signature Hkey Hne Hdomain Haccount Hrandom Hvalue Hsign)
      as Hbuild.
    fold (network_of request) in Hbuild. fold (payload_of this request) in Hbuild.
    cbn [entered log] in Hbuild.
    destruct (pay_log_after_payload _ _ _ _ _ Hbuild) as [rest Hrest].
    eexists. exists (fst (pay this request st)), (snd (pay this request st)), rest.
    split; [exact Hbuild|]. split; [now destruct (pay this request st)|exact Hrest].
Qed.

Lemma pay_unknown_signing_domain_witness :
  exists result,
    pay (H := Scripted.platform) (PayBotClient Sample.signing_bot)
      Sample.on_unknown_chain (Scripted.start [])
    = (Normal result, Scripted.state [] [PayCalled Sample.on_unknown_chain])
    /\ is_failure result (JStr "No EIP-712 domain for network: eip155:1")
         JUndefined JUndefined.
Proof.
  refine (proj1 (proj2
            (proj1
               (pay_unknown_signing_domain (H := Scripted.platform)
                  (PayBotClient Sample.signing_bot) Sample.on_unknown_chain
                  (Scripted.start []) Sample.wallet_key eq_refl _ _)
               eq_refl))).
  - discriminate.
  - vm_compute. reflexivity.
Defined.

(** C9 fails for the chain identifier "constructor": it has no signing
    domain, yet [pay] signs, sends the verify and the settle request
    and reports a settled payment. *)
Lemma pay_signs_under_inherited_member :
  EIP712_DOMAINS !! "constructor" = None
  /\ exists payloadString,
       pay (H := Scripted.platform) (PayBotClient Sample.signing_bot)
         Sample.on_inherited_name
         (Scripted.start
            [ Sample.answer 200 [] (Normal (JObj Sample.verified));
              Sample.answer 200 [] (Normal (JObj [("transaction", JStr "0xabc")])) ])
       = (Normal {| success := true; txHash := JStr "0xabc";
                    grossAmount := "50000"; netAmount := "49500";
                    commissionAmount := "500"; commissionRate := 0.5;
                    res_network := JUndefined; error := JUndefined;
                    errorCode := JUndefined; errorDetails := JUndefined |},
          Scripted.state []
            [ PayCalled Sample.on_inherited_name;
              Fetched "http://localhost:3000/verify"
                (verify_init (H := Scripted.platform) (PayBotClient Sample.signing_bot)
                   Sample.on_inherited_name payloadString);
              Fetched "http://localhost:3000/settle"
                (settle_init (H := Scripted.platform) (PayBotClient Sample.signing_bot)
                   Sample.on_inherited_name payloadString Sample.verified) ]).
Proof. split; [now vm_compute|]. eexists. reflexivity. Qed.

(** C3, as amended. A signed proof carries [validAfter] 0 and
    [validBefore] one hour after the time of signing: the window ends
    3600 seconds after now, and its width is now + 3600. *)
Theorem signed_window `{Platform}
    (this : ClientConfig) (payTo amountBaseUnits network : string)
    (key : string) (st : State) (payloadString : string) (st' : State) :
  walletPrivateKey this = Some key ->
  key <> "" ->
  buildPaymentPayload this payTo amountBaseUnits network st
    = (Normal payloadString, st') ->
  exists domain account message signature,
    signing_domain network = Some domain
    /\ (JsObject.inherits network = false ->
        exists registered,
          EIP712_DOMAINS !! network = Some registered
          /\ domain = JsObject.Own registered)
    /\ privateKeyToAccount key = Normal account
    /\ signTypedData account
         {| td_domain := domain; td_types := EIP3009_TYPES;
            td_primaryType := "TransferWithAuthorization";
            td_message := message |} = Normal signature
    /\ payloadString = JSON_stringify (proof_object message signature)
    /\ validAfter message = 0%Z
    /\ validBefore message = (Date_now (world st') / 1000 + 3600)%Z
    /\ (validBefore message - validAfter message
        = Date_now (world st') / 1000 + 3600)%Z.
Proof.
  intros Hkey Hne Hrun. unfold buildPaymentPayload in Hrun. rewrite Hkey in Hrun.
  destruct key as [|c key]; [now destruct Hne|].
  destruct (signing_domain network) as [domain|] eqn:Hdomain; [|discriminate Hrun].
  rewrite lift_bind in Hrun.
  destruct (privateKeyToAccount (String c key)) as [account|]; [|discriminate Hrun].
  unfold bind at 1, generateEIP3009Nonce in Hrun.
  destruct (randomBytes 32 (world st)) as [bytes w].
  unfold bind at 1, nowSeconds in Hrun. cbn [world] in Hrun.
  rewrite lift_bind in Hrun.
  destruct (BigInt amountBaseUnits) as [value|]; [|discriminate Hrun].
  rewrite lift_bind in Hrun.
  match type of Hrun with
  | context [signTypedData account ?td] =>
      destruct (signTypedData account td) as [signature|] eqn:Hsign;
        [|discriminate Hrun]
  end.
  inversion Hrun; subst. cbn [world].
  eexists domain, account, _, signature.
  split; [reflexivity|]. split.
  { intros Hproto. unfold signing_domain, JsObject.index in Hdomain.
    rewrite Hproto in Hdomain.
    destruct (EIP712_DOMAINS !! network) as [registered|]; [|discriminate Hdomain].
    exists registered. split; [reflexivity|]. now inversion Hdomain. }
  repeat split; try reflexivity; try exact Hsign. cbn. lia.
Qed.

Lemma signed_window_witness :
  exists message signature,
    buildPaymentPayload (H := Scripted.platform) (PayBotClient Sample.signing_bot)
      Sample.payee "50000" "eip155:84532" (Scripted.start [])
    = (Normal (JSON_stringify (Platform := Scripted.platform)
                 (proof_object message signature)), Scripted.start [])
    /\ validAfter message = 0%Z
    /\ validBefore message = 1700003600%Z.
Proof.
  destruct (signed_window (H := Scripted.platform) (PayBotClient Sample.signing_bot)
              Sample.payee "50000" "eip155:84532" Sample.wallet_key (Scripted.start [])
              _ _ eq_refl ltac:(discriminate) eq_refl)
    as (domain & account & message & signature
        & _ & _ & _ & _ & E & Hafter & Hbefore & _).
  exists message, signature. rewrite <- E. repeat split; assumption.
Defined.

(** C3, as stated, fails: the proof signed at 1 700 000 000 seconds has
    a window of 1 700 003 600 seconds, not 3600. *)
Lemma signed_window_is_not_3600_wide :
  exists message signature,
    buildPaymentPayload (H := Scripted.platform) (PayBotClient Sample.signing_bot)
      Sample.payee "50000" "eip155:84532" (Scripted.start [])
    = (Normal (JSON_stringify (Platform := Scripted.platform)
                 (proof_object message signature)), Scripted.start [])
    /\ validAfter message = 0%Z
    /\ (validBefore message - validAfter message)%Z = 1700003600%Z
    /\ (validBefore message - validAfter message)%Z <> 3600%Z.
Proof.
  exists {| auth_from := address Scripted.account; auth_to := Sample.payee;
            auth_value := 50000; validAfter := 0; validBefore := 1700003600;
            auth_nonce := "0x" +:+ toHex (List.repeat Byte.x00 32) |}, "0x5160".
  repeat split. discriminate.
Qed.

(** ** Headers *)

Section HeadersFacts.
Import HeadersApi.

Lemma same_name_trans a b c :
  same_name a b = true -> same_name b c = same_name a c.
Proof.
  unfold same_name. intros E. apply String.eqb_eq in E. now rewrite E.
Qed.

Lemma same_name_sym a b : same_name a b = same_name b a.
Proof. unfold same_name. apply String.eqb_sym. Qed.

Lemma filter_after_removal name (h : Headers) :
  List.filter (fun kv => same_name (fst kv) name)
    (List.filter (fun kv => negb (same_name (fst kv) name)) h) = [].
Proof.
  induction h as [|[k v] h IH]; [reflexivity|]. cbn [List.filter fst].
  destruct (same_name k name) eqn:E; cbn [negb]; [exact IH|].
  cbn [List.filter fst]. now rewrite E.
Qed.

Lemma filter_other_removal name other (h : Headers) :
  same_name name other = false ->
  List.filter (fun kv => same_name (fst kv) other)
    (List.filter (fun kv => negb (same_name (fst kv) name)) h)
  = List.filter (fun kv => same_name (fst kv) other) h.
Proof.
  intros Hne. induction h as [|[k v] h IH]; [reflexivity|]. cbn [List.filter fst].
  destruct (same_name k name) eqn:E; cbn [negb].
  - rewrite IH. rewrite (same_name_trans _ _ other E) in Hne. now rewrite Hne.
  - cbn [List.filter fst]. now rewrite IH.
Qed.

Lemma get_put_same name value (h : Headers) :
  get name (put name value h) = Some value.
Proof.
  unfold get, put.
  destruct (List.existsb _ h) eqn:Ex.
  - induction h as [|[k v] h IH]; [discriminate Ex|].
    cbn [List.existsb fst] in Ex. cbn [replace_first].
    destruct (same_name k name) eqn:E.
    + cbn [List.filter fst]. now rewrite E, filter_after_removal.
    + cbn [List.filter fst]. rewrite E. apply IH. exact Ex.
  - rewrite List.filter_app. cbn [List.filter fst].
    assert (Hnone : List.filter (fun kv => same_name (fst kv) name) h = []).
    { induction h as [|[k v] h IH]; [reflexivity|].
      cbn [List.existsb fst] in Ex. apply orb_false_elim in Ex as [E Ex].
      cbn [List.filter fst]. rewrite E. now apply IH. }
    rewrite Hnone. unfold same_name. now rewrite String.eqb_refl.
Qed.

Lemma get_put_other name other value (h : Headers) :
  same_name name other = false ->
  get other (put name value h) = get other h.
Proof.
  intros Hne. unfold get, put.
  destruct (List.existsb _ h).
  - assert (E : List.filter (fun kv => same_name (fst kv) other)
                  (replace_first name value h)
                = List.filter (fun kv => same_name (fst kv) other) h);
      [|now rewrite E].
    induction h as [|[k v] h IH]; [reflexivity|]. cbn [replace_first].
    destruct (same_name k name) eqn:E.
    + cbn [List.filter fst]. rewrite (filter_other_removal _ _ _ Hne).
      rewrite (same_name_trans _ _ other E) in Hne. now rewrite Hne.
    + cbn [List.filter fst]. now rewrite IH.
  - rewrite List.filter_app. cbn [List.filter fst].
    now rewrite Hne, app_nil_r.
Qed.

(** What [set] stores is the normalised value, and it stores it
    exactly when the name is a token and that value has no forbidden
    character. *)
Lemma HeadersApi_set_stores name value (h : Headers) :
  set name value h
  = if is_name name && is_value (normalize value)
    then Some (put name (normalize value) h) else None.
Proof. reflexivity. Qed.

Lemma get_set_same name value (h h' : Headers) :
  set name value h = Some h' -> get name h' = Some (normalize value).
Proof.
  rewrite HeadersApi_set_stores. destruct (_ && _); [|discriminate].
  intros [= <-]. apply get_put_same.
Qed.

Lemma get_set_other name other value (h h' : Headers) :
  set name value h = Some h' ->
  same_name name other = false ->
  get other h' = get other h.
Proof.
  rewrite HeadersApi_set_stores. destruct (_ && _); [|discriminate].
  intros [= <-]. apply get_put_other.
Qed.

(** The proof header is set with its value trimmed; a value with a
    line feed inside is refused. *)
Example set_trims_the_value :
  set "X-Payment-Proof" " 0xabc " [("x-payment-proof", "old"); ("Accept", "*/*")]
  = Some [("x-payment-proof", "0xabc"); ("Accept", "*/*")]
  /\ set "X-Payment-Proof" ("0xab" +:+ String (ascii_of_nat 10) "cd") [] = None
  /\ set "X Payment Proof" "0xabc" [] = None.
Proof. repeat split. Qed.

End HeadersFacts.

(** ** Extraction of the payment terms *)

Section Parsing.
Context `{Platform}.

Lemma get_prop_member v name :
  Js.nullish v = false -> get_prop v name = Normal (member v name).
Proof. now destruct v. Qed.

Lemma truthy_not_nullish v : Js.truthy v = true -> Js.nullish v = false.
Proof. now destruct v. Qed.

Lemma parse_undecodable response url e :
  json response = Throw e -> parse402Response response url = None.
Proof. intros E. unfold parse402Response. now rewrite E. Qed.

Lemma parse_nested response url body :
  json response = Normal body ->
  Js.truthy (member body "paymentRequirements") = true ->
  parse402Response response url
  = match nested_terms (member body "paymentRequirements") with
    | Normal terms => Some terms
    | Throw _ => None
    end.
Proof.
  intros Hjson Hreq. unfold parse402Response. rewrite Hjson. cbn [cbind].
  assert (Hbody : Js.nullish body = false) by (now destruct body).
  rewrite (get_prop_member _ _ Hbody). cbn [cbind]. rewrite Hreq.
  rewrite !(get_prop_member _ _ (truthy_not_nullish _ Hreq)).
  unfold nested_terms, cbind.
  destruct (JS_String (Js.coalesce (member _ "amount") _)); [|reflexivity].
  now destruct (JS_String (Js.coalesce (member _ "payTo") _)).
Qed.

Lemma parse_headers response url body a p :
  json response = Normal body ->
  Js.nullish body = false ->
  Js.truthy (member body "paymentRequirements") = false ->
  Js.truthy (member body "amount") && Js.truthy (member body "payTo") = false ->
  HeadersApi.get "X-Payment-Amount" (headers response) = Some a ->
  HeadersApi.get "X-Payment-Address" (headers response) = Some p ->
  a <> "" -> p <> "" ->
  parse402Response response url = Some {| terms_amount := a; terms_payTo := p |}.
Proof.
  intros Hjson Hbody Hreq Hflat Ha Hp Hane Hpne.
  unfold parse402Response. rewrite Hjson. cbn [cbind].
  rewrite !(get_prop_member _ _ Hbody). cbn [cbind]. rewrite Hreq.
  assert (Hboth :
    Js.truthy match (if Js.truthy (member body "amount")
                     then Normal (member body "payTo")
                     else Normal (member body "amount")) with
              | Normal both => both
              | Throw _ => JUndefined
              end = false).
  { destruct (Js.truthy (member body "amount")) eqn:E; [exact Hflat|exact E]. }
  destruct (Js.truthy (member body "amount")); cbn [cbind] in *;
    rewrite Hboth, Ha, Hp;
    apply String.eqb_neq in Hane; apply String.eqb_neq in Hpne;
    now rewrite Hane, Hpne.
Qed.

End Parsing.

(** ** The interceptor after the challenge *)

Section Challenge.
Context `{Platform}.

(** A response that is no challenge is returned as it came. *)
Lemma handler_passes_other_status config url init st response w1 :
  transport url init (world st) = (Normal response, w1) ->
  status response <> 402%Z ->
  handler_fetch (createX402Handler config) url init st
  = (Normal response, sent st w1 url init).
Proof.
  intros Hfetch Hstatus. cbn [createX402Handler handler_fetch].
  rewrite (bind_normal _ _ _ _ _ (fetch_sent _ _ _ _ _ Hfetch)).
  apply Z.eqb_neq in Hstatus. now rewrite Hstatus.
Qed.

Lemma handler_passes_on config url init st response w1 :
  transport url init (world st) = (Normal response, w1) ->
  status response = 402%Z ->
  parse402Response response url = None ->
  handler_fetch (createX402Handler config) url init st
  = (Normal response, sent st w1 url init).
Proof.
  intros Hfetch Hstatus Hparse. cbn [createX402Handler handler_fetch].
  rewrite (bind_normal _ _ _ _ _ (fetch_sent _ _ _ _ _ Hfetch)).
  now rewrite Hstatus, Hparse.
Qed.

Lemma handler_on_challenge config url init st response w1 terms :
  transport url init (world st) = (Normal response, w1) ->
  status response = 402%Z ->
  parse402Response response url = Some terms ->
  handler_fetch (createX402Handler config) url init st
  = if exceeds config terms then (Throw (over_limit config terms), sent st w1 url init)
    else
      match pay (PayBotClient (base config)) (payment_for config url terms)
              (sent st w1 url init) with
      | (Normal result, st2) =>
          if negb (success result)
          then (match JS_String (error result) with
                | Normal reason =>
                    Throw (ErrorObject ("x402: Payment failed: " +:+ reason))
                | Throw e => Throw e
                end, st2)
          else match retryHeaders init result with
               | Normal retryHeaders => fetch url (retry_init init retryHeaders) st2
               | Throw e => (Throw e, st2)
               end
      | (Throw e, st2) => (Throw e, st2)
      end.
Proof.
  intros Hfetch Hstatus Hparse. cbn [createX402Handler handler_fetch].
  rewrite (bind_normal _ _ _ _ _ (fetch_sent _ _ _ _ _ Hfetch)).
  rewrite Hstatus, Hparse. cbn [Z.eqb Pos.eqb negb].
  unfold exceeds, amountUsd_of, ceiling_of.
  destruct (PrimFloat.ltb _ _); [reflexivity|].
  unfold bind at 1. unfold payment_for, amountUsd_of.
  destruct (pay _ _ _) as [[result|e] st2]; [|reflexivity].
  destruct (success result); cbn [negb]; rewrite lift_bind.
  - now destruct (retryHeaders init result).
  - now destruct (JS_String (error result)).
Qed.

(** Below the ceiling the payment protocol is called with the terms. *)
Lemma handler_attempts_payment config url init st response w1 terms :
  transport url init (world st) = (Normal response, w1) ->
  status response = 402%Z ->
  parse402Response response url = Some terms ->
  exceeds config terms = false ->
  exists outcome st' rest,
    handler_fetch (createX402Handler config) url init st = (outcome, st')
    /\ log st' = (log st ++ Fetched url init
                    :: PayCalled (payment_for config url terms) :: rest)%list.
Proof.
  intros Hfetch Hstatus Hparse Hbelow.
  rewrite (handler_on_challenge _ _ _ _ _ _ _ Hfetch Hstatus Hparse), Hbelow.
  destruct (pay _ _ _) as [[result|e] st2] eqn:Hpay;
    destruct (pay_is_logged _ _ _ _ _ Hpay) as [rest Hrest];
    cbn [sent log] in Hrest; rewrite <- app_assoc in Hrest; cbn [app] in Hrest.
  - destruct (success result); cbn [negb].
    + destruct (retryHeaders init result) as [hs|e]; [|now eexists _, st2, rest].
      destruct (fetch url (retry_init init hs) st2) as [o st3] eqn:Hretry.
      destruct (grows_fetch _ _ _ _ _ Hretry) as [more Hmore].
      exists o, st3, (rest ++ more)%list. split; [reflexivity|].
      rewrite Hmore, Hrest, <- app_assoc. reflexivity.
    + now eexists _, st2, rest.
  - now eexists _, st2, rest.
Qed.

(** The entries of a [Headers] object built from pairs: the pairs, in
    order, with their values normalised. *)
Lemma Headers_fill_entries init h h' :
  Headers_fill init h = Normal h' ->
  h' = (h ++ List.map (fun kv => (fst kv, HeadersApi.normalize (snd kv))) init)%list.
Proof.
  revert h. induction init as [|[name value] init IH]; intros h E.
  - cbn in E. inversion E. now rewrite app_nil_r.
  - cbn [Headers_fill] in E. unfold HeadersApi.append in E.
    destruct (_ && _); [|discriminate E].
    rewrite (IH _ E), <- app_assoc. reflexivity.
Qed.

Lemma Headers_new_entries init h :
  Headers_new init = Normal h ->
  h = List.map (fun kv => (fst kv, HeadersApi.normalize (snd kv))) init.
Proof. intros E. exact (Headers_fill_entries _ _ _ E). Qed.

(** The headers of the retry, when they can be built. *)
Lemma retryHeaders_built init result callers reference :
  Headers_new (default [] (init ≫= init_headers)) = Normal callers ->
  JS_String (Js.coalesce (txHash result) (JStr "")) = Normal reference ->
  HeadersApi.is_value (HeadersApi.normalize reference) = true ->
  retryHeaders init result
  = Normal (HeadersApi.put "X-Payment-Facilitator" "paybot"
              (HeadersApi.put "X-Payment-Proof" (HeadersApi.normalize reference)
                 callers)).
Proof.
  intros Hnew Hstring Hvalue. unfold retryHeaders. rewrite Hnew, Hstring.
  cbn [cbind]. unfold Headers_set, HeadersApi.set. cbv zeta. rewrite Hvalue.
  reflexivity.
Qed.

Lemma retryHeaders_refused init result callers reference :
  Headers_new (default [] (init ≫= init_headers)) = Normal callers ->
  JS_String (Js.coalesce (txHash result) (JStr "")) = Normal reference ->
  HeadersApi.is_value (HeadersApi.normalize reference) = false ->
  retryHeaders init result
  = Throw (ErrorObject (invalid_header "X-Payment-Proof" reference)).
Proof.
  intros Hnew Hstring Hvalue. unfold retryHeaders. rewrite Hnew, Hstring.
  cbn [cbind]. unfold Headers_set, HeadersApi.set. cbv zeta. rewrite Hvalue.
  reflexivity.
Qed.

End Challenge.

(** ** Properties of the interceptor *)

(** C7. When the extracted amount, divided by 1,000,000, exceeds the
    ceiling, the interceptor throws the error naming the amount and the
    ceiling; the original request is the only event: the payment
    protocol is not called and nothing is retried. *)
Theorem handler_refuses_above_ceiling `{Platform}
    (config : X402HandlerConfig) (url : string) (init : option RequestInit)
    (st : State) (response : Response) (w1 : World) (terms : PaymentTerms) :
  transport url init (world st) = (Normal response, w1) ->
  status response = 402%Z ->
  parse402Response response url = Some terms ->
  exceeds config terms = true ->
  handler_fetch (createX402Handler config) url init st
  = (Throw (ErrorObject
              ("x402: Payment of $" +:+ Number_toFixed (amountUsd_of terms) 2
               +:+ " exceeds auto-pay limit of $" +:+ default "1.00" (cfg_maxAutoPay config))),
     {| world := w1; log := (log st ++ [Fetched url init])%list |}).
Proof.
  intros Hfetch Hstatus Hparse Hover.
  now rewrite (handler_on_challenge _ _ _ _ _ _ _ Hfetch Hstatus Hparse), Hover.
Qed.

(** Five dollars asked, one dollar allowed. *)
Lemma handler_refuses_above_ceiling_witness :
  handler_fetch (createX402Handler (H := Scripted.platform) Sample.handler_config)
    Sample.url None
    (Scripted.start
       [Sample.answer 402 []
          (Normal (JObj [("amount", JStr "5000000"); ("payTo", JStr Sample.payee)]))])
  = (Throw (ErrorObject "x402: Payment of $5.00 exceeds auto-pay limit of $1.00"),
     Scripted.state [] [Fetched Sample.url None]).
Proof.
  exact (handler_refuses_above_ceiling (H := Scripted.platform) Sample.handler_config
           Sample.url None
           (Scripted.start
              [Sample.answer 402 []
                 (Normal (JObj [("amount", JStr "5000000");
                                ("payTo", JStr Sample.payee)]))])
           {| status := 402; headers := [];
              json := Normal (JObj [("amount", JStr "5000000");
                                    ("payTo", JStr Sample.payee)]) |}
           []
           {| terms_amount := "5000000"; terms_payTo := Sample.payee |}
           eq_refl eq_refl eq_refl eq_refl).
Defined.

(** C8, as amended. After a successful payment the interceptor builds
    the headers of the retry: the caller's, checked and normalised by
    the [Headers] constructor, then the proof header set to the
    transaction reference converted to a string ([""] without one), then
    the facilitator header. When the caller's headers pass, the
    reference has a string form and that string, trimmed of the
    whitespace at its ends, holds no NUL, line feed or carriage return,
    the interceptor makes one more request, to the same URL, with those
    headers and the caller's other options, and what the transport
    answers (a response of any status, or a rejection) is what the
    caller gets; the proof header holds the trimmed reference. In every
    other case building the headers throws a TypeError, which the caller
    gets, and nothing is retried. *)
Theorem handler_retries_once `{Platform}
    (config : X402HandlerConfig) (url : string) (init : option RequestInit)
    (st : State) (response : Response) (w1 : World) (terms : PaymentTerms)
    (result : PaymentResult) (st2 : State) :
  transport url init (world st) = (Normal response, w1) ->
  status response = 402%Z ->
  parse402Response response url = Some terms ->
  exceeds config terms = false ->
  pay (PayBotClient (base config)) (payment_for config url terms)
    {| world := w1; log := (log st ++ [Fetched url init])%list |}
    = (Normal result, st2) ->
  success result = true ->
  (forall callers reference,
      Headers_new (default [] (init ≫= init_headers)) = Normal callers ->
      JS_String (Js.coalesce (txHash result) (JStr "")) = Normal reference ->
      HeadersApi.is_value (HeadersApi.normalize reference) = true ->
      exists headers,
        retryHeaders init result = Normal headers
        /\ (forall outcome w3,
              transport url (retry_init init headers) (world st2) = (outcome, w3) ->
              handler_fetch (createX402Handler config) url init st
              = (outcome,
                 {| world := w3;
                    log := (log st2 ++ [Fetched url (retry_init init headers)])%list |}))
        /\ HeadersApi.get "X-Payment-Proof" headers
           = Some (HeadersApi.normalize reference)
        /\ (Js.nullish (txHash result) = true ->
            HeadersApi.get "X-Payment-Proof" headers = Some "")
        /\ HeadersApi.get "X-Payment-Facilitator" headers = Some "paybot"
        /\ callers
           = List.map (fun kv => (fst kv, HeadersApi.normalize (snd kv)))
               (default [] (init ≫= init_headers))
        /\ (forall name,
              HeadersApi.same_name "X-Payment-Proof" name = false ->
              HeadersApi.same_name "X-Payment-Facilitator" name = false ->
              HeadersApi.get name headers = HeadersApi.get name callers)
        /\ retry_init init headers
           = Some {| init_headers := Some headers;
                     init_rest := default [] (init_rest <$> init) |})
  /\ (forall e,
        Headers_new (default [] (init ≫= init_headers)) = Throw e ->
        handler_fetch (createX402Handler config) url init st = (Throw e, st2))
  /\ (forall callers e,
        Headers_new (default [] (init ≫= init_headers)) = Normal callers ->
        JS_String (Js.coalesce (txHash result) (JStr "")) = Throw e ->
        handler_fetch (createX402Handler config) url init st = (Throw e, st2))
  /\ (forall callers reference,
        Headers_new (default [] (init ≫= init_headers)) = Normal callers ->
        JS_String (Js.coalesce (txHash result) (JStr "")) = Normal reference ->
        HeadersApi.is_value (HeadersApi.normalize reference) = false ->
        handler_fetch (createX402Handler config) url init st
        = (Throw (ErrorObject (invalid_header "X-Payment-Proof" reference)), st2)).
Proof.
  intros Hfetch Hstatus Hparse Hbelow Hpay Hsuccess.
  assert (Hrun :
    handler_fetch (createX402Handler config) url init st
    = match retryHeaders init result with
      | Normal retryHeaders => fetch url (retry_init init retryHeaders) st2
      | Throw e => (Throw e, st2)
      end).
  { rewrite (handler_on_challenge _ _ _ _ _ _ _ Hfetch Hstatus Hparse), Hbelow.
    unfold sent at 1. now rewrite Hpay, Hsuccess. }
  split; [|split; [|split]].
  - intros callers reference Hnew Hstring Hvalue.
    pose proof (retryHeaders_built _ _ _ _ Hnew Hstring Hvalue) as Hbuilt.
    eexists. split; [exact Hbuilt|].
    split; [|split; [|split; [|split; [|split; [|split]]]]].
    + intros outcome w3 Hretry. rewrite Hrun, Hbuilt.
      exact (fetch_sent _ _ _ _ _ Hretry).
    + rewrite get_put_other by reflexivity. apply get_put_same.
    + intros Hnone. rewrite get_put_other by reflexivity. rewrite get_put_same.
      unfold Js.coalesce in Hstring. rewrite Hnone in Hstring.
      now inversion Hstring.
    + apply get_put_same.
    + exact (Headers_new_entries _ _ Hnew).
    + intros name Hp Hf. now rewrite !get_put_other.
    + reflexivity.
  - intros e Hnew. rewrite Hrun. unfold retryHeaders. now rewrite Hnew.
  - intros callers e Hnew Hstring. rewrite Hrun. unfold retryHeaders.
    now rewrite Hnew, Hstring.
  - intros callers reference Hnew Hstring Hvalue.
    now rewrite Hrun, (retryHeaders_refused _ _ _ _ Hnew Hstring Hvalue).
Qed.

(** A challenge for five cents, paid and settled, and the retry. *)
Lemma handler_retries_once_witness :
  handler_fetch (createX402Handler (H := Scripted.platform) Sample.handler_config)
    Sample.url None
    (Scripted.start
       [ Sample.answer 402 Sample.payment_headers (Normal (JObj []));
         Sample.answer 200 [] (Normal (JObj Sample.verified));
         Sample.answer 200 [] (Normal (JObj [("transaction", JStr "0xabc")]));
         Sample.answer 402 [] (Normal (JObj [])) ])
  = (Sample.answer 402 [] (Normal (JObj [])),
     Scripted.state []
       [ Fetched Sample.url None;
         PayCalled {| resource := Sample.url; amount := "0.050000";
                      payTo := Sample.payee; tokenContract := None;
                      network := None |};
         Fetched "http://localhost:3000/verify"
           (verify_init (H := Scripted.platform) (PayBotClient Sample.bot)
              {| resource := Sample.url; amount := "0.050000";
                 payTo := Sample.payee; tokenContract := None; network := None |}
              "payer:my-bot");
         Fetched "http://localhost:3000/settle"
           (settle_init (H := Scripted.platform) (PayBotClient Sample.bot)
              {| resource := Sample.url; amount := "0.050000";
                 payTo := Sample.payee; tokenContract := None; network := None |}
              "payer:my-bot" Sample.verified);
         Fetched Sample.url
           (Some {| init_headers :=
                      Some [ ("X-Payment-Proof", "0xabc");
                             ("X-Payment-Facilitator", "paybot") ];
                    init_rest := [] |}) ]).
Proof.
  destruct (proj1
              (handler_retries_once (H := Scripted.platform) Sample.handler_config
                 Sample.url None
                 (Scripted.start
                    [ Sample.answer 402 Sample.payment_headers (Normal (JObj []));
                      Sample.answer 200 [] (Normal (JObj Sample.verified));
                      Sample.answer 200 [] (Normal (JObj [("transaction", JStr "0xabc")]));
                      Sample.answer 402 [] (Normal (JObj [])) ])
                 {| status := 402; headers := Sample.payment_headers;
                    json := Normal (JObj []) |}
                 [ Sample.answer 200 [] (Normal (JObj Sample.verified));
                   Sample.answer 200 [] (Normal (JObj [("transaction", JStr "0xabc")]));
                   Sample.answer 402 [] (Normal (JObj [])) ]
                 {| terms_amount := "50000"; terms_payTo := Sample.payee |}
                 {| success := true; txHash := JStr "0xabc";
                    grossAmount := "50000"; netAmount := "49500";
                    commissionAmount := "500"; commissionRate := 0.5;
                    res_network := JUndefined; error := JUndefined;
                    errorCode := JUndefined; errorDetails := JUndefined |}
                 (Scripted.state [Sample.answer 402 [] (Normal (JObj []))]
                    [ Fetched Sample.url None;
                      PayCalled {| resource := Sample.url; amount := "0.050000";
                                   payTo := Sample.payee; tokenContract := None;
                                   network := None |};
                      Fetched "http://localhost:3000/verify"
                        (verify_init (H := Scripted.platform) (PayBotClient Sample.bot)
                           {| resource := Sample.url; amount := "0.050000";
                              payTo := Sample.payee; tokenContract := None;
                              network := None |}
                           "payer:my-bot");
                      Fetched "http://localhost:3000/settle"
                        (settle_init (H := Scripted.platform) (PayBotClient Sample.bot)
                           {| resource := Sample.url; amount := "0.050000";
                              payTo := Sample.payee; tokenContract := None;
                              network := None |}
                           "payer:my-bot" Sample.verified) ])
                 eq_refl eq_refl eq_refl eq_refl eq_refl eq_refl)
              [] "0xabc" eq_refl eq_refl eq_refl)
    as (headers & [= <-] & Hretry & _).
  exact (Hretry (Sample.answer 402 [] (Normal (JObj []))) [] eq_refl).
Defined.

(** C8, as stated, fails: the payment is settled with a transaction
    reference that holds a line feed; setting the proof header throws,
    the caller gets the TypeError, and the log ends with the settle
    request: nothing is retried. *)
Lemma settled_payment_without_retry :
  handler_fetch (createX402Handler (H := Scripted.platform) Sample.handler_config)
    Sample.url None
    (Scripted.start
       [ Sample.answer 402 Sample.payment_headers (Normal (JObj []));
         Sample.answer 200 [] (Normal (JObj Sample.verified));
         Sample.answer 200 []
           (Normal (JObj [("transaction", JStr Sample.two_line_reference)]));
         Sample.answer 200 [] (Normal (JObj [])) ])
  = (Throw (ErrorObject "Invalid value for header X-Payment-Proof"),
     Scripted.state [Sample.answer 200 [] (Normal (JObj []))]
       [ Fetched Sample.url None;
         PayCalled {| resource := Sample.url; amount := "0.050000";
                      payTo := Sample.payee; tokenContract := None;
                      network := None |};
         Fetched "http://localhost:3000/verify"
           (verify_init (H := Scripted.platform) (PayBotClient Sample.bot)
              {| resource := Sample.url; amount := "0.050000";
                 payTo := Sample.payee; tokenContract := None; network := None |}
              "payer:my-bot");
         Fetched "http://localhost:3000/settle"
           (settle_init (H := Scripted.platform) (PayBotClient Sample.bot)
              {| resource := Sample.url; amount := "0.050000";
                 payTo := Sample.payee; tokenContract := None; network := None |}
              "payer:my-bot" Sample.verified) ]).
Proof. reflexivity. Qed.

(** C6, as amended. With both payment headers present and not empty,
    and a body that decodes to a value other than [null] matching
    neither body format, the terms are those of the headers and, below
    the ceiling, the payment protocol is called with them. With an
    undecodable body nothing is extracted and the original response is
    returned. *)
Theorem handler_reads_headers `{Platform}
    (config : X402HandlerConfig) (url : string) (init : option RequestInit)
    (st : State) (response : Response) (w1 : World) (a p : string) :
  transport url init (world st) = (Normal response, w1) ->
  status response = 402%Z ->
  HeadersApi.get "X-Payment-Amount" (headers response) = Some a ->
  HeadersApi.get "X-Payment-Address" (headers response) = Some p ->
  a <> "" -> p <> "" ->
  (forall body,
      json response = Normal body ->
      Js.nullish body = false ->
      Js.truthy (member body "paymentRequirements") = false ->
      Js.truthy (member body "amount") && Js.truthy (member body "payTo") = false ->
      parse402Response response url = Some {| terms_amount := a; terms_payTo := p |}
      /\ (exceeds config {| terms_amount := a; terms_payTo := p |} = false ->
          exists outcome st' rest,
            handler_fetch (createX402Handler config) url init st = (outcome, st')
            /\ log st'
               = (log st ++ Fetched url init
                    :: PayCalled (payment_for config url
                                    {| terms_amount := a; terms_payTo := p |})
                    :: rest)%list))
  /\ (forall e,
        json response = Throw e ->
        parse402Response response url = None
        /\ handler_fetch (createX402Handler config) url init st
           = (Normal response,
              {| world := w1; log := (log st ++ [Fetched url init])%list |})).
Proof.
  intros Hfetch Hstatus Ha Hp Hane Hpne. split.
  - intros body Hjson Hbody Hreq Hflat.
    pose proof (parse_headers _ url _ _ _ Hjson Hbody Hreq Hflat Ha Hp Hane Hpne)
      as Hparse.
    split; [exact Hparse|]. intros Hbelow.
    exact (handler_attempts_payment _ _ _ _ _ _ _ Hfetch Hstatus Hparse Hbelow).
  - intros e Hjson. pose proof (parse_undecodable _ url _ Hjson) as Hparse.
    split; [exact Hparse|].
    exact (handler_passes_on _ _ _ _ _ _ Hfetch Hstatus Hparse).
Qed.

Lemma handler_reads_headers_witness :
  parse402Response (H := Scripted.platform)
    {| status := 402; headers := Sample.payment_headers; json := Normal (JObj []) |}
    Sample.url
  = Some {| terms_amount := "50000"; terms_payTo := Sample.payee |}.
Proof.
  refine (proj1 (proj1
            (handler_reads_headers (H := Scripted.platform) Sample.handler_config
               Sample.url None
               (Scripted.start
                  [Sample.answer 402 Sample.payment_headers (Normal (JObj []))])
               {| status := 402; headers := Sample.payment_headers;
                  json := Normal (JObj []) |}
               [] "50000" Sample.payee eq_refl eq_refl eq_refl eq_refl _ _)
            (JObj []) eq_refl eq_refl eq_refl eq_refl)); discriminate.
Defined.

(** C6, as stated, fails: a challenge with both headers and a body that
    is not JSON comes back as it is, and no payment is attempted. *)
Lemma headers_ignored_when_body_undecodable :
  HeadersApi.get "X-Payment-Amount" Sample.payment_headers = Some "50000"
  /\ HeadersApi.get "X-Payment-Address" Sample.payment_headers = Some Sample.payee
  /\ handler_fetch (createX402Handler (H := Scripted.platform) Sample.handler_config)
       Sample.url None
       (Scripted.start
          [Sample.answer 402 Sample.payment_headers
             (Throw (ErrorObject "Unexpected end of JSON input"))])
     = (Sample.answer 402 Sample.payment_headers
          (Throw (ErrorObject "Unexpected end of JSON input")),
        Scripted.state [] [Fetched Sample.url None]).
Proof. repeat split. Qed.

(** C10, as amended. When the body's [paymentRequirements] member is
    truthy, its amount and payee are converted to strings, "0" and the
    empty string standing in for members it lacks. When both have a
    string form, extraction succeeds with them; when the member lacks
    both and the zero amount is within the ceiling, the payment protocol
    is called for a zero amount and an empty payee. When one of the two
    conversions throws (an object with a member named [toString]),
    nothing is extracted and the original response is returned. *)
Theorem handler_defaults_nested_terms `{Platform}
    (config : X402HandlerConfig) (url : string) (init : option RequestInit)
    (st : State) (response : Response) (w1 : World) (body : JsValue) :
  transport url init (world st) = (Normal response, w1) ->
  status response = 402%Z ->
  json response = Normal body ->
  Js.truthy (member body "paymentRequirements") = true ->
  (forall amount payTo,
      JS_String (Js.coalesce (member (member body "paymentRequirements") "amount")
                   (JStr "0")) = Normal amount ->
      JS_String (Js.coalesce (member (member body "paymentRequirements") "payTo")
                   (JStr "")) = Normal payTo ->
      parse402Response response url
      = Some {| terms_amount := amount; terms_payTo := payTo |})
  /\ (Js.nullish (member (member body "paymentRequirements") "amount") = true ->
      Js.nullish (member (member body "paymentRequirements") "payTo") = true ->
      parse402Response response url = Some {| terms_amount := "0"; terms_payTo := "" |}
      /\ (exceeds config {| terms_amount := "0"; terms_payTo := "" |} = false ->
          exists outcome st' rest,
            handler_fetch (createX402Handler config) url init st = (outcome, st')
            /\ log st'
               = (log st ++ Fetched url init
                    :: PayCalled
                         {| resource := url;
                            amount := Number_toFixed
                                        (PrimFloat.div (Number_of_string "0") 1e6) 6;
                            payTo := "";
                            tokenContract := None;
                            network := cfg_network config |}
                    :: rest)%list))
  /\ ((exists e,
         JS_String (Js.coalesce (member (member body "paymentRequirements") "amount")
                      (JStr "0")) = Throw e)
      \/ (exists e,
            JS_String (Js.coalesce (member (member body "paymentRequirements") "payTo")
                         (JStr "")) = Throw e) ->
      parse402Response response url = None
      /\ handler_fetch (createX402Handler config) url init st
         = (Normal response,
            {| world := w1; log := (log st ++ [Fetched url init])%list |})).
Proof.
  intros Hfetch Hstatus Hjson Hreq.
  pose proof (parse_nested _ url _ Hjson Hreq) as Hparse.
  unfold nested_terms, cbind in Hparse.
  split; [|split].
  - intros amount payTo Ha Hp. now rewrite Hparse, Ha, Hp.
  - intros Hna Hnp.
    assert (Hzero : parse402Response response url
                    = Some {| terms_amount := "0"; terms_payTo := "" |}).
    { rewrite Hparse. unfold Js.coalesce. now rewrite Hna, Hnp. }
    split; [exact Hzero|]. intros Hbelow.
    exact (handler_attempts_payment _ _ _ _ _ _ _ Hfetch Hstatus Hzero Hbelow).
  - intros Hthrow.
    assert (Hnone : parse402Response response url = None).
    { rewrite Hparse. destruct Hthrow as [[e He]|[e He]]; rewrite He; [reflexivity|].
      now destruct (JS_String _). }
    split; [exact Hnone|].
    exact (handler_passes_on _ _ _ _ _ _ Hfetch Hstatus Hnone).
Qed.

Lemma handler_defaults_nested_terms_witness :
  parse402Response (H := Scripted.platform)
    {| status := 402; headers := [];
       json := Normal (JObj [("paymentRequirements", JObj [])]) |}
    Sample.url
  = Some {| terms_amount := "0"; terms_payTo := "" |}.
Proof.
  exact (proj1 (proj1 (proj2
           (handler_defaults_nested_terms (H := Scripted.platform)
              Sample.handler_config Sample.url None
              (Scripted.start
                 [Sample.answer 402 []
                    (Normal (JObj [("paymentRequirements", JObj [])]))])
              {| status := 402; headers := [];
                 json := Normal (JObj [("paymentRequirements", JObj [])]) |}
              [] (JObj [("paymentRequirements", JObj [])])
              eq_refl eq_refl eq_refl eq_refl))
           eq_refl eq_refl)).
Defined.

(** C10, as stated, fails: a body whose [paymentRequirements] key holds
    [null] is not taken for payment terms; with no other terms the
    original response is returned and no payment is attempted. *)
Lemma null_payment_requirements_not_extracted :
  Js.lookup_prop "paymentRequirements" [("paymentRequirements", JNull)] = JNull
  /\ handler_fetch (createX402Handler (H := Scripted.platform) Sample.handler_config)
       Sample.url None
       (Scripted.start
          [Sample.answer 402 [] (Normal (JObj [("paymentRequirements", JNull)]))])
     = (Sample.answer 402 [] (Normal (JObj [("paymentRequirements", JNull)])),
        Scripted.state [] [Fetched Sample.url None]).
Proof. repeat split. Qed.

(** * Further properties *)

(** ** Further properties of the amount conversion *)

Section UsdToBaseUnitsEdges.

Lemma all_digits_no_point (s : string) : all_digits s = true -> no_point s = true.
Proof.
  induction s as [|c s IH]; [reflexivity|]. cbn [all_digits no_point].
  intros H. apply andb_prop in H as [Hc Hs]. rewrite (IH Hs), andb_true_r.
  destruct (Ascii.eqb_spec c ".") as [->|_]; [discriminate Hc|reflexivity].
Qed.

Lemma split_whole (p : string) :
  no_point p = true -> JsString.split "." p = [p].
Proof.
  induction p as [|c p IH]; [reflexivity|]. cbn [no_point JsString.split].
  intros H. apply andb_prop in H as [Hc Hp].
  apply negb_true_iff in Hc. now rewrite Hc, (IH Hp).
Qed.

Lemma split_at_point (p t : string) :
  no_point p = true ->
  JsString.split "." (p +:+ String "." t) = p :: JsString.split "." t.
Proof.
  intros Hp. induction p as [|c p IH]; [reflexivity|].
  cbn [no_point] in Hp. apply andb_prop in Hp as [Hc Hp].
  apply negb_true_iff in Hc. simpl. now rewrite Hc, (IH Hp).
Qed.

Lemma split_nonempty (s : string) : JsString.split "." s <> [].
Proof.
  destruct s as [|c s]; [discriminate|]. cbn [JsString.split].
  destruct (Ascii.eqb c "."); [discriminate|].
  now destruct (JsString.split "." s).
Qed.

Lemma strip_canonical (s : string) :
  JsString.strip_leading_zeros s = ""
  \/ exists c rest, JsString.strip_leading_zeros s = String c rest /\ c <> "0"%char.
Proof.
  induction s as [|c s IH]; [now left|].
  destruct (Ascii.eqb_spec c "0") as [->|Hc]; [exact IH|].
  right. exists c, s. split; [|exact Hc].
  destruct c as [[] [] [] [] [] [] [] []]; try reflexivity. now destruct Hc.
Qed.

Lemma substring_prefix (f extra : string) :
  String.substring 0 (String.length f) (f +:+ extra) = f.
Proof.
  induction f as [|a f IH]; simpl; [now destruct extra|]. now rewrite IH.
Qed.

Lemma append_assoc (a b c : string) : (a +:+ b) +:+ c = a +:+ (b +:+ c).
Proof.
  induction a as [|x a IH]; [reflexivity|].
  change (String x ((a +:+ b) +:+ c) = String x (a +:+ (b +:+ c))). now rewrite IH.
Qed.

Lemma strip_keeps (c : ascii) (s : string) :
  c <> "0"%char -> JsString.strip_leading_zeros (String c s) = String c s.
Proof.
  intros Hc. destruct c as [[] [] [] [] [] [] [] []]; try reflexivity.
  now destruct Hc.
Qed.

End UsdToBaseUnitsEdges.

(** X1. Whatever the input, the result of [usdToBaseUnits] is not empty
    and has no leading zero, unless it is "0" itself. *)
Theorem usdToBaseUnits_canonical (usdAmount : string) :
  usdToBaseUnits usdAmount = "0"
  \/ exists c rest,
       usdToBaseUnits usdAmount = String c rest /\ c <> "0"%char.
Proof.
  unfold usdToBaseUnits.
  destruct (strip_canonical
              (default "0" (JsString.split "." usdAmount !! 0%nat)
               +:+ JsString.slice 0 6
                     (JsString.padEnd 6 "0"
                        (default "" (JsString.split "." usdAmount !! 1%nat)))))
    as [->|(c & rest & -> & Hc)].
  - now left.
  - right. now exists c, rest.
Qed.

(** X2. Fractional digits past the sixth are cut off, not rounded: with
    six digits [frac] and any further digits, the result is that of the
    first six. *)
Theorem usdToBaseUnits_truncates (whole frac more : string) :
  all_digits whole = true ->
  all_digits frac = true ->
  all_digits more = true ->
  String.length frac = 6%nat ->
  usdToBaseUnits (whole +:+ "." +:+ frac +:+ more)
  = decimal_of_N (digits_value whole * 10 ^ 6 + digits_value frac).
Proof.
  intros Hw Hf Hm Hlen. unfold usdToBaseUnits.
  change ("." +:+ frac +:+ more) with (String "." (frac +:+ more)).
  rewrite (split_one_sep whole (frac +:+ more) Hw (all_digits_app _ _ Hf Hm)).
  change (default "" ([whole; frac +:+ more] !! 1%nat)) with (frac +:+ more).
  change (default "0" ([whole; frac +:+ more] !! 0%nat)) with whole.
  assert (Hcut : JsString.slice 0 6 (JsString.padEnd 6 "0" (frac +:+ more)) = frac).
  { unfold JsString.slice, JsString.padEnd.
    rewrite append_assoc.
    replace (6 - 0)%nat with (String.length frac) by (now rewrite Hlen).
    apply substring_prefix. }
  rewrite Hcut, strip_prints_value by (now apply all_digits_app).
  f_equal. unfold digits_value at 1.
  rewrite digits_value_from_app, (digits_value_from_acc _ frac), Hlen.
  fold (digits_value whole). reflexivity.
Qed.

Lemma usdToBaseUnits_truncates_witness :
  usdToBaseUnits "0.0000019" = "1".
Proof.
  exact (usdToBaseUnits_truncates "0" "000001" "9" eq_refl eq_refl eq_refl eq_refl).
Defined.

(** X3. Only the text before a second radix point is read: what
    follows it does not change the result. *)
Theorem usdToBaseUnits_ignores_second_point (whole frac rest : string) :
  no_point whole = true ->
  no_point frac = true ->
  usdToBaseUnits (whole +:+ "." +:+ frac +:+ "." +:+ rest)
  = usdToBaseUnits (whole +:+ "." +:+ frac).
Proof.
  intros Hw Hf. unfold usdToBaseUnits.
  change ("." +:+ frac +:+ "." +:+ rest) with (String "." (frac +:+ String "." rest)).
  change ("." +:+ frac) with (String "." frac).
  rewrite !(split_at_point whole _ Hw), (split_at_point frac _ Hf),
    (split_whole frac Hf).
  reflexivity.
Qed.

Lemma usdToBaseUnits_ignores_second_point_witness :
  usdToBaseUnits "1.5.25" = usdToBaseUnits "1.5".
Proof.
  exact (usdToBaseUnits_ignores_second_point "1" "5" "25" eq_refl eq_refl).
Defined.

(** X4. The conversion does not validate: a whole part that starts
    with a sign or any character other than a zero is kept as it is,
    followed by the padded fraction; a negative amount gives a negative
    number of base units, with the zeros after the sign left in. *)
Theorem usdToBaseUnits_keeps_unvalidated_text (c : ascii) (whole frac : string) :
  c <> "0"%char ->
  c <> "."%char ->
  no_point whole = true ->
  no_point frac = true ->
  (String.length frac <= 6)%nat ->
  usdToBaseUnits (String c whole +:+ "." +:+ frac)
  = String c whole +:+ frac +:+ JsString.repeat_char "0" (6 - String.length frac).
Proof.
  intros Hzero Hpoint Hw Hf Hlen. unfold usdToBaseUnits.
  change ("." +:+ frac) with (String "." frac).
  assert (Hcw : no_point (String c whole) = true).
  { cbn [no_point]. rewrite Hw, andb_true_r. apply negb_true_iff.
    now apply Ascii.eqb_neq. }
  rewrite (split_at_point _ _ Hcw), (split_whole frac Hf).
  change (default "" ([String c whole; frac] !! 1%nat)) with frac.
  change (default "0" ([String c whole; frac] !! 0%nat)) with (String c whole).
  rewrite (pad_then_slice frac Hlen).
  change (String c whole +:+ ?t) with (String c (whole +:+ t)).
  now rewrite (strip_keeps c _ Hzero).
Qed.

Lemma usdToBaseUnits_keeps_unvalidated_text_witness :
  usdToBaseUnits "-0.5" = "-0500000".
Proof.
  refine (usdToBaseUnits_keeps_unvalidated_text "-" "0" "5" _ _ eq_refl eq_refl _);
    [discriminate|discriminate|].
  exact (le_S _ _ (le_S _ _ (le_S _ _ (le_S _ _ (le_S _ _ (le_n 1)))))).
Defined.

(** ** The nonce and the registry *)

Section NonceFacts.

Lemma hex_pair_decodes (b : Byte.byte) (rest : string) :
  fromHex (String (hex_digit (Byte.to_N b / 16))
             (String (hex_digit (Byte.to_N b mod 16)) rest))
  = match fromHex rest with
    | Some bytes => Some (b :: bytes)
    | None => None
    end.
Proof. destruct b; cbn; now destruct (fromHex rest). Qed.

Lemma fromHex_toHex (bytes : list Byte.byte) : fromHex (toHex bytes) = Some bytes.
Proof.
  induction bytes as [|b bytes IH]; [reflexivity|].
  cbn [toHex]. now rewrite hex_pair_decodes, IH.
Qed.

Lemma toHex_length (bytes : list Byte.byte) :
  String.length (toHex bytes) = (2 * List.length bytes)%nat.
Proof. induction bytes as [|b bytes IH]; simpl; [reflexivity|]. rewrite IH. lia. Qed.

Lemma hex_digit_is_hex (b : Byte.byte) :
  is_Some (hex_value (hex_digit (Byte.to_N b / 16)))
  /\ is_Some (hex_value (hex_digit (Byte.to_N b mod 16))).
Proof. destruct b; split; cbn; eauto. Qed.

Lemma toHex_all_hex (bytes : list Byte.byte) : all_hex (toHex bytes) = true.
Proof.
  induction bytes as [|b bytes IH]; [reflexivity|]. cbn [toHex all_hex].
  destruct (hex_digit_is_hex b) as [Hh Hl].
  now rewrite !bool_decide_eq_true_2, IH.
Qed.

End NonceFacts.

(** X5. When the random source gives the 32 bytes asked for, the nonce
    is "0x" followed by 64 lower-case hexadecimal digits that spell
    those bytes, so that two nonces are equal only if the random bytes
    were; generating it leaves the log untouched. *)
Theorem generateEIP3009Nonce_is_bytes32 `{Platform}
    (st : State) (bytes : list Byte.byte) (w : World) :
  randomBytes 32 (world st) = (bytes, w) ->
  List.length bytes = 32%nat ->
  exists hex,
    generateEIP3009Nonce st = (Normal ("0x" +:+ hex), {| world := w; log := log st |})
    /\ String.length hex = 64%nat
    /\ all_hex hex = true
    /\ fromHex hex = Some bytes.
Proof.
  intros Hrandom Hlen. exists (toHex bytes). unfold generateEIP3009Nonce.
  rewrite Hrandom. repeat split.
  - rewrite toHex_length, Hlen. reflexivity.
  - apply toHex_all_hex.
  - apply fromHex_toHex.
Qed.

Lemma generateEIP3009Nonce_is_bytes32_witness :
  exists hex,
    generateEIP3009Nonce (H := Scripted.platform) (Scripted.start [])
    = (Normal ("0x" +:+ hex), Scripted.state [] [])
    /\ String.length hex = 64%nat
    /\ all_hex hex = true
    /\ fromHex hex = Some (List.repeat Byte.x00 32).
Proof.
  exact (generateEIP3009Nonce_is_bytes32 (H := Scripted.platform) (Scripted.start [])
           (List.repeat Byte.x00 32) [] eq_refl eq_refl).
Defined.

(** X6. The registry agrees with itself: the identifiers
    [getSupportedNetworks] lists are those with an entry of their own,
    in [NETWORKS] and among the signing domains alike; an entry is filed
    under its own CAIP-2 identifier, which is "eip155:" and its chain
    id, and its signing domain has the network's chain id and its USDC
    contract as verifying contract. For any other identifier
    [getNetwork] and the lookup of the signing domain give [undefined],
    unless the identifier is the name of a member of
    [Object.prototype]: then both give that inherited member. *)
Theorem registry_is_consistent (id : string) :
  (In id getSupportedNetworks <-> exists net, getNetwork id = Some (JsObject.Own net))
  /\ (In id getSupportedNetworks <-> is_Some (EIP712_DOMAINS !! id))
  /\ (getNetwork id = None
      <-> ~ In id getSupportedNetworks /\ JsObject.inherits id = false)
  /\ (signing_domain id = None <-> getNetwork id = None)
  /\ (~ In id getSupportedNetworks ->
      JsObject.inherits id = true ->
      getNetwork id = Some (JsObject.Inherited id)
      /\ signing_domain id = Some (JsObject.Inherited id))
  /\ (forall net,
        getNetwork id = Some (JsObject.Own net) ->
        caip2 net = id
        /\ id = "eip155:" +:+ Z_toString (net_chainId net)
        /\ exists domain,
             EIP712_DOMAINS !! id = Some domain
             /\ signing_domain id = Some (JsObject.Own domain)
             /\ domain_chainId domain = net_chainId net
             /\ verifyingContract domain = usdcAddress net).
Proof.
  destruct (String.eqb_spec "eip155:8453" id) as [<-|Hmain];
    [|destruct (String.eqb_spec "eip155:84532" id) as [<-|Htest]].
  - split; [split; [intros _; now eexists|intros _; cbn; tauto]|].
    split; [split; [intros _; now vm_compute; eauto|intros _; cbn; tauto]|].
    split; [split; [discriminate|intros [Hno _]; destruct Hno; cbn; tauto]|].
    split; [split; discriminate|].
    split; [intros Hno; destruct Hno; cbn; tauto|].
    intros net [= <-]. repeat split. eexists. now vm_compute.
  - split; [split; [intros _; now eexists|intros _; cbn; tauto]|].
    split; [split; [intros _; now vm_compute; eauto|intros _; cbn; tauto]|].
    split; [split; [discriminate|intros [Hno _]; destruct Hno; cbn; tauto]|].
    split; [split; discriminate|].
    split; [intros Hno; destruct Hno; cbn; tauto|].
    intros net [= <-]. repeat split. eexists. now vm_compute.
  - assert (Hnet : registry_lookup id NETWORKS = None).
    { unfold NETWORKS. cbn [registry_lookup].
      destruct (String.eqb_spec "eip155:8453" id); [congruence|].
      now destruct (String.eqb_spec "eip155:84532" id). }
    assert (Hdomain : EIP712_DOMAINS !! id = None).
    { unfold EIP712_DOMAINS. rewrite lookup_insert_ne by congruence.
      rewrite lookup_insert_ne by congruence. apply lookup_empty. }
    assert (Hlisted : ~ In id getSupportedNetworks).
    { cbn. intros [|[|[]]]; congruence. }
    unfold getNetwork, signing_domain, JsObject.index. rewrite Hnet, Hdomain.
    split; [split; [tauto|now intros [net Hn]; destruct (JsObject.inherits id)]|].
    split; [split; [tauto|intros [? [=]]]|].
    destruct (JsObject.inherits id).
    + split; [split; [discriminate|now intros [_ ?]]|].
      split; [split; discriminate|]. split; [now split|]. discriminate.
    + split; [now split|]. split; [now split|].
      split; [discriminate|]. discriminate.
Qed.

(** The lookups at "toString": no network is registered under it, yet
    neither lookup is [undefined]. *)
Example registry_at_inherited_name :
  getNetwork "toString" = Some (JsObject.Inherited "toString")
  /\ signing_domain "toString" = Some (JsObject.Inherited "toString")
  /\ ~ In "toString" getSupportedNetworks.
Proof.
  split; [reflexivity|]. split; [now vm_compute|].
  cbn. intros [|[|[]]]; discriminate.
Qed.

(** ** What a call of [pay] does, case by case *)

Section PayCases.
Context `{Platform}.
Implicit Types (this : ClientConfig) (request : PaymentRequest) (st : State).

Lemma verify_phase_log this request st payloadString response st2 :
  verify_phase this request st payloadString response st2 ->
  log st2 = (log st ++ [ PayCalled request;
                         Fetched (verify_url this)
                           (verify_init this request payloadString) ])%list.
Proof.
  intros (st1 & w2 & Hbuild & _ & ->). cbn [sent log].
  rewrite (payload_keeps_log _ _ _ _ _ Hbuild). cbn [entered log].
  now rewrite <- app_assoc.
Qed.

Lemma verified_phase_log this request st payloadString verified st2 :
  verified_phase this request st payloadString verified st2 ->
  log st2 = (log st ++ [ PayCalled request;
                         Fetched (verify_url this)
                           (verify_init this request payloadString) ])%list.
Proof. intros (response & Hphase & _). exact (verify_phase_log _ _ _ _ _ _ Hphase). Qed.

(** A call of [pay] ends before any request, or after the verify
    request with a failure, or goes on to the settle request. *)
Lemma pay_cases this request st :
  (exists e st1,
      payload_of this request (entered st request) = (Throw e, st1))
  \/ (exists payloadString result st2,
        pay this request st = (Normal result, st2)
        /\ failure_with_message result
        /\ log st2 = (log st ++ [ PayCalled request;
                                  Fetched (verify_url this)
                                    (verify_init this request payloadString) ])%list)
  \/ (exists payloadString verified st2 outcome w3,
        verified_phase this request st payloadString verified st2
        /\ transport (settle_url this) (settle_init this request payloadString verified)
             (world st2) = (outcome, w3)).
Proof.
  destruct (payload_of this request (entered st request))
    as [[payloadString|e] st1] eqn:Hbuild; [|left; now exists e, st1].
  right.
  destruct (transport (verify_url this) (verify_init this request payloadString)
              (world st1)) as [[response|e] w2] eqn:Hverify.
  2:{ left. exists payloadString. eexists _, _.
      split; [exact (pay_verify_unreachable _ _ _ _ _ _ _ Hbuild Hverify)|].
      split; [apply failed_has_message|].
      cbn [sent log]. rewrite (payload_keeps_log _ _ _ _ _ Hbuild).
      cbn [entered log]. now rewrite <- app_assoc. }
  assert (Hphase : verify_phase this request st payloadString response
                     (sent st1 w2 (verify_url this)
                        (verify_init this request payloadString)))
    by (now exists st1, w2).
  pose proof (verify_phase_log _ _ _ _ _ _ Hphase) as Hlog.
  destruct (ok response) eqn:Hok.
  2:{ left. exists payloadString. eexists _, _.
      split; [exact (pay_verify_rejected _ _ _ _ _ _ Hphase Hok)|].
      split; [apply rejected_has_message|exact Hlog]. }
  destruct (json response) as [verifyData|e] eqn:Hjson.
  2:{ left. exists payloadString. eexists _, _.
      split; [exact (pay_verify_undecodable _ _ _ _ _ _ _ Hphase Hok Hjson)|].
      split; [apply failed_has_message|exact Hlog]. }
  assert (Hnone :
    (forall token, get_prop verifyData "settlementToken" = Normal token ->
                   Js.truthy token = false) ->
    exists payloadString result st2,
      pay this request st = (Normal result, st2)
      /\ failure_with_message result
      /\ log st2 = (log st ++ [ PayCalled request;
                                Fetched (verify_url this)
                                  (verify_init this request payloadString) ])%list).
  { intros Htoken.
    destruct (pay_verify_without_token _ _ _ _ _ _ _ Hphase Hok Hjson Htoken)
      as [message E].
    exists payloadString. eexists _, _.
    split; [exact E|]. split; [apply failed_has_message|exact Hlog]. }
  destruct verifyData as [| | | | | |verified];
    try (left; apply Hnone; intros token [=]; now subst).
  destruct (Js.truthy (Js.lookup_prop "settlementToken" verified)) eqn:Htoken.
  - right.
    destruct (transport (settle_url this)
                (settle_init this request payloadString verified) w2)
      as [outcome w3] eqn:Hsettle.
    exists payloadString, verified,
      (sent st1 w2 (verify_url this) (verify_init this request payloadString)),
      outcome, w3.
    split; [|exact Hsettle]. now exists response.
  - left. apply Hnone. intros token [= <-]. exact Htoken.
Qed.

(** What the end of the [try] block makes of the settle body. *)
Lemma settle_chain verified settleData :
  settled settleData (Js.lookup_prop "commission" verified)
  = if Js.nullish settleData
    then Throw (ErrorObject (cannot_read settleData "transaction"))
    else settled_result verified settleData.
Proof.
  assert (Hopt : forall v name, get_prop_opt v name = Normal (member v name)).
  { intros v name. unfold get_prop_opt. now destruct v. }
  unfold settled, settled_result. rewrite !Hopt.
  destruct settleData; reflexivity.
Qed.

(** The settle response is ok: the result is decided by its body. *)
Lemma pay_settle_ok this request st payloadString verified st2 settleResponse w3 :
  verified_phase this request st payloadString verified st2 ->
  transport (settle_url this) (settle_init this request payloadString verified)
    (world st2) = (Normal settleResponse, w3) ->
  ok settleResponse = true ->
  pay this request st
  = (Normal
       match json settleResponse with
       | Throw e => failed (JStr (getErrorMessage e)) JUndefined JUndefined
       | Normal settleData =>
           if Js.nullish settleData
           then failed (JStr (cannot_read settleData "transaction"))
                  JUndefined JUndefined
           else match settled_result verified settleData with
                | Normal result => result
                | Throw e => failed (JStr (getErrorMessage e)) JUndefined JUndefined
                end
       end,
     sent st2 w3 (settle_url this) (settle_init this request payloadString verified)).
Proof.
  intros Hphase Hsettle Hok.
  rewrite (pay_after_settle _ _ _ _ _ _ _ _ Hphase Hsettle), Hok. cbn [negb].
  destruct (json settleResponse) as [settleData|e]; [|reflexivity].
  rewrite settle_chain. destruct (Js.nullish settleData); [reflexivity|].
  now destruct (settled_result verified settleData).
Qed.

(** A settled result is a success built from the two bodies. *)
Lemma settled_result_members verified settleData result :
  settled_result verified settleData = Normal result ->
  success result = true
  /\ txHash result = member settleData "transaction"
  /\ res_network result = member settleData "network"
  /\ JS_String (Js.coalesce (member (Js.lookup_prop "commission" verified) "grossAmount")
                  (JStr "0")) = Normal (grossAmount result)
  /\ JS_String (Js.coalesce (member (Js.lookup_prop "commission" verified) "netAmount")
                  (JStr "0")) = Normal (netAmount result)
  /\ JS_String (Js.coalesce
                  (member (Js.lookup_prop "commission" verified) "commissionAmount")
                  (JStr "0")) = Normal (commissionAmount result)
  /\ JS_Number (Js.coalesce
                  (member (Js.lookup_prop "commission" verified) "commissionRate")
                  (JNum 0)) = Normal (commissionRate result).
Proof.
  unfold settled_result, cbind. intros E.
  destruct (JS_String (Js.coalesce (member _ "grossAmount") _)); [|discriminate E].
  destruct (JS_String (Js.coalesce (member _ "netAmount") _)); [|discriminate E].
  destruct (JS_String (Js.coalesce (member _ "commissionAmount") _)); [|discriminate E].
  destruct (JS_Number _); [|discriminate E].
  inversion E; subst. now repeat split.
Qed.

End PayCases.

(** ** Further properties of [pay] *)

(** What a call of [pay] adds to the log. *)
Lemma pay_adds_trace `{Platform}
    (this : ClientConfig) (request : PaymentRequest) (st : State) :
  exists added,
    log (snd (pay this request st)) = (log st ++ added)%list
    /\ pay_trace this request added.
Proof.
  destruct (pay_cases this request st)
    as [(e & st1 & Hbuild)
       |[(p & result & st2 & Hpay & _ & Hlog)
        |(p & verified & st2 & outcome & w3 & Hphase & Hsettle)]].
  - exists [PayCalled request]. split; [|now left].
    rewrite (pay_without_proof _ _ _ _ _ Hbuild). cbn [snd].
    exact (payload_keeps_log _ _ _ _ _ Hbuild).
  - eexists. split; [rewrite Hpay; exact Hlog|]. right. left. now exists p.
  - eexists. split; [|right; right; now exists p, verified].
    assert (Hend : snd (pay this request st)
                   = sent st2 w3 (settle_url this)
                       (settle_init this request p verified)).
    { rewrite (pay_after_settle _ _ _ _ _ _ _ _ Hphase Hsettle).
      destruct outcome as [settleResponse|e]; [|reflexivity].
      destruct (negb (ok settleResponse)); [reflexivity|].
      destruct (json settleResponse) as [settleData|e]; [|reflexivity].
      now destruct (settled _ _). }
    rewrite Hend. cbn [sent log].
    rewrite (verified_phase_log _ _ _ _ _ _ Hphase), <- app_assoc. reflexivity.
Qed.

Lemma pay_trace_counts `{Platform}
    (this : ClientConfig) (request : PaymentRequest) (added : list Event) :
  pay_trace this request added ->
  pay_calls added = 1%nat /\ (requests added <= 2)%nat.
Proof.
  intros [->|[(p & ->)|(p & verified & ->)]]; cbn; split; lia.
Qed.

(** X7. A call of [pay] adds to the log its own call and then nothing,
    or the verify request, or the verify request followed by the settle
    request: never more than two requests, never settle without verify,
    and no request is repeated. *)
Theorem pay_requests_verify_then_settle `{Platform}
    (this : ClientConfig) (request : PaymentRequest) (st : State) :
  exists added,
    log (snd (pay this request st)) = (log st ++ added)%list
    /\ pay_trace this request added
    /\ pay_calls added = 1%nat
    /\ (requests added <= 2)%nat.
Proof.
  destruct (pay_adds_trace this request st) as (added & Hlog & Htrace).
  exists added. split; [exact Hlog|]. split; [exact Htrace|].
  exact (pay_trace_counts _ _ _ Htrace).
Qed.

(** X8. [pay] reports success only after both phases: the verify
    response was ok and carried a settlement token, the settle response
    was ok and its body decoded to a value other than [null]; the
    result is then built from those two bodies. *)
Theorem pay_success_means_settled `{Platform}
    (this : ClientConfig) (request : PaymentRequest) (st : State)
    (result : PaymentResult) (st' : State) :
  pay this request st = (Normal result, st') ->
  success result = true ->
  exists payloadString verified st2 settleResponse w3 settleData,
    verified_phase this request st payloadString verified st2
    /\ transport (settle_url this) (settle_init this request payloadString verified)
         (world st2) = (Normal settleResponse, w3)
    /\ ok settleResponse = true
    /\ json settleResponse = Normal settleData
    /\ Js.nullish settleData = false
    /\ settled_result verified settleData = Normal result
    /\ st' = sent st2 w3 (settle_url this)
               (settle_init this request payloadString verified).
Proof.
  intros Hpay Hsuccess.
  destruct (pay_cases this request st)
    as [(e & st1 & Hbuild)
       |[(p & failure & st2 & Hfail & [Hno _] & _)
        |(p & verified & st2 & outcome & w3 & Hphase & Hsettle)]].
  - rewrite (pay_without_proof _ _ _ _ _ Hbuild) in Hpay.
    inversion Hpay; subst. discriminate Hsuccess.
  - rewrite Hfail in Hpay. inversion Hpay; subst. congruence.
  - destruct outcome as [settleResponse|e].
    2:{ rewrite (pay_after_settle _ _ _ _ _ _ _ _ Hphase Hsettle) in Hpay.
        inversion Hpay; subst. discriminate Hsuccess. }
    destruct (ok settleResponse) eqn:Hok.
    2:{ rewrite (pay_after_settle _ _ _ _ _ _ _ _ Hphase Hsettle), Hok in Hpay.
        cbn [negb] in Hpay. inversion Hpay; subst.
        destruct (rejected_has_message (json_or_empty settleResponse)
                    ("Settlement HTTP " +:+ Z_toString (status settleResponse)))
          as [Hno _]. congruence. }
    rewrite (pay_settle_ok _ _ _ _ _ _ _ _ Hphase Hsettle Hok) in Hpay.
    destruct (json settleResponse) as [settleData|e] eqn:Hjson.
    2:{ inversion Hpay; subst. discriminate Hsuccess. }
    destruct (Js.nullish settleData) eqn:Hnull.
    { inversion Hpay; subst. discriminate Hsuccess. }
    destruct (settled_result verified settleData) as [settled|e] eqn:Hresult.
    2:{ inversion Hpay; subst. discriminate Hsuccess. }
    inversion Hpay; subst.
    exists p, verified, st2, settleResponse, w3, settleData. now repeat split.
Qed.

(** Primitive values always have a string form and a number. *)
Lemma JS_String_primitive `{Platform} (v : JsValue) :
  primitive v = true -> exists s, JS_String v = Normal s.
Proof. destruct v as [| |[|]| | | |]; try discriminate; intros _; now eexists. Qed.

Lemma JS_Number_primitive `{Platform} (v : JsValue) :
  primitive v = true -> exists x, JS_Number v = Normal x.
Proof. destruct v as [| |[|]| | | |]; try discriminate; intros _; now eexists. Qed.

Lemma primitive_coalesce (v d : JsValue) :
  primitive v = true -> primitive d = true -> primitive (Js.coalesce v d) = true.
Proof. intros Hv Hd. unfold Js.coalesce. now destruct (Js.nullish v). Qed.

(** X9. After a verified payment, a settle response that is ok with a
    body other than [null] is turned into the result by converting the
    commission of the verify response: its amounts to strings and its
    rate to a number, "0" and 0 where it has none. When the conversions
    succeed (they do for every member that is neither an array nor an
    object) the result is a success whose transaction reference and
    network are the members of the settle body, absent ones staying
    [undefined]. When a conversion throws, as for an amount that is an
    object with a member named [toString], [pay] reports a failure with
    the TypeError's message although the facilitator settled. *)
Theorem pay_settles_from_both_bodies `{Platform}
    (this : ClientConfig) (request : PaymentRequest) (st : State)
    (payloadString : string) (verified : list (string * JsValue)) (st2 : State)
    (settleResponse : Response) (w3 : World) (settleData : JsValue) :
  verified_phase this request st payloadString verified st2 ->
  transport (settle_url this) (settle_init this request payloadString verified)
    (world st2) = (Normal settleResponse, w3) ->
  ok settleResponse = true ->
  json settleResponse = Normal settleData ->
  Js.nullish settleData = false ->
  (forall result,
      settled_result verified settleData = Normal result ->
      pay this request st
      = (Normal result,
         sent st2 w3 (settle_url this) (settle_init this request payloadString verified))
      /\ success result = true
      /\ txHash result = member settleData "transaction"
      /\ res_network result = member settleData "network")
  /\ (primitive (member (Js.lookup_prop "commission" verified) "grossAmount") = true ->
      primitive (member (Js.lookup_prop "commission" verified) "netAmount") = true ->
      primitive (member (Js.lookup_prop "commission" verified) "commissionAmount") = true ->
      primitive (member (Js.lookup_prop "commission" verified) "commissionRate") = true ->
      exists result, settled_result verified settleData = Normal result)
  /\ (Js.nullish (Js.lookup_prop "commission" verified) = true ->
      pay this request st
      = (Normal {| success := true;
                   txHash := member settleData "transaction";
                   grossAmount := "0"; netAmount := "0"; commissionAmount := "0";
                   commissionRate := 0;
                   res_network := member settleData "network";
                   error := JUndefined; errorCode := JUndefined;
                   errorDetails := JUndefined |},
         sent st2 w3 (settle_url this) (settle_init this request payloadString verified)))
  /\ (forall e,
        settled_result verified settleData = Throw e ->
        exists result message,
          pay this request st
          = (Normal result,
             sent st2 w3 (settle_url this)
               (settle_init this request payloadString verified))
          /\ describes e message
          /\ is_failure result (JStr message) JUndefined JUndefined)
  /\ (forall props,
        member (Js.lookup_prop "commission" verified) "grossAmount" = JObj props ->
        Js.has_own "toString" props = true ->
        settled_result verified settleData
        = Throw (ErrorObject (cannot_convert (JObj props)))).
Proof.
  intros Hphase Hsettle Hok Hjson Hnull.
  pose proof (pay_settle_ok _ _ _ _ _ _ _ _ Hphase Hsettle Hok) as Hpay.
  rewrite Hjson, Hnull in Hpay.
  split; [|split; [|split; [|split]]].
  - intros result Hresult. rewrite Hresult in Hpay. split; [exact Hpay|].
    destruct (settled_result_members _ _ _ Hresult) as (Hs & Ht & Hn & _).
    now repeat split.
  - intros Hg Hn Hf Hr. unfold settled_result, cbind.
    destruct (JS_String_primitive _ (primitive_coalesce _ (JStr "0") Hg eq_refl))
      as [g ->].
    destruct (JS_String_primitive _ (primitive_coalesce _ (JStr "0") Hn eq_refl))
      as [n ->].
    destruct (JS_String_primitive _ (primitive_coalesce _ (JStr "0") Hf eq_refl))
      as [f ->].
    destruct (JS_Number_primitive _ (primitive_coalesce _ (JNum 0) Hr eq_refl))
      as [r ->].
    now eexists.
  - intros Hnone. rewrite Hpay. unfold settled_result.
    now destruct (Js.lookup_prop "commission" verified).
  - intros e Hresult. rewrite Hresult in Hpay.
    eexists _, (getErrorMessage e). split; [exact Hpay|].
    split; [apply describes_caught|apply is_failure_failed].
  - intros props Hgross Hown. unfold settled_result. rewrite Hgross.
    cbn [Js.coalesce Js.nullish JS_String]. now rewrite Hown.
Qed.

(** X10. A settle response that is ok but whose body is JSON [null]
    ends in a failure, after both requests were made: the result says
    nothing of the settlement the facilitator accepted. *)
Theorem pay_fails_on_null_settle_body `{Platform}
    (this : ClientConfig) (request : PaymentRequest) (st : State)
    (payloadString : string) (verified : list (string * JsValue)) (st2 : State)
    (settleResponse : Response) (w3 : World) :
  verified_phase this request st payloadString verified st2 ->
  transport (settle_url this) (settle_init this request payloadString verified)
    (world st2) = (Normal settleResponse, w3) ->
  ok settleResponse = true ->
  json settleResponse = Normal JNull ->
  pay this request st
  = (Normal (failed (JStr (cannot_read JNull "transaction")) JUndefined JUndefined),
     sent st2 w3 (settle_url this) (settle_init this request payloadString verified))
  /\ log (sent st2 w3 (settle_url this)
            (settle_init this request payloadString verified))
     = (log st ++ [ PayCalled request;
                    Fetched (verify_url this) (verify_init this request payloadString);
                    Fetched (settle_url this)
                      (settle_init this request payloadString verified) ])%list.
Proof.
  intros Hphase Hsettle Hok Hjson. split.
  - now rewrite (pay_settle_ok _ _ _ _ _ _ _ _ Hphase Hsettle Hok), Hjson.
  - cbn [sent log]. rewrite (verified_phase_log _ _ _ _ _ _ Hphase), <- app_assoc.
    reflexivity.
Qed.

(** Runs of [pay] on the scripted platform. *)

Section PayRuns.
#[local] Existing Instance Scripted.platform.

Lemma pay_success_means_settled_witness :
  exists payloadString verified st2 settleResponse w3 settleData,
    verified_phase (PayBotClient Sample.bot) Sample.five_cents
      (Scripted.start
         [ Sample.answer 200 [] (Normal (JObj Sample.verified));
           Sample.answer 200 [] (Normal (JObj [("transaction", JStr "0xabc")])) ])
      payloadString verified st2
    /\ transport (settle_url (PayBotClient Sample.bot))
         (settle_init (PayBotClient Sample.bot) Sample.five_cents payloadString verified)
         (world st2) = (Normal settleResponse, w3)
    /\ ok settleResponse = true
    /\ json settleResponse = Normal settleData
    /\ Js.nullish settleData = false
    /\ settled_result verified settleData
       = Normal {| success := true; txHash := JStr "0xabc";
                   grossAmount := "50000"; netAmount := "49500";
                   commissionAmount := "500"; commissionRate := 0.5;
                   res_network := JUndefined; error := JUndefined;
                   errorCode := JUndefined; errorDetails := JUndefined |}
    /\ Scripted.state []
         [ PayCalled Sample.five_cents;
           Fetched "http://localhost:3000/verify"
             (verify_init (PayBotClient Sample.bot) Sample.five_cents "payer:my-bot");
           Fetched "http://localhost:3000/settle"
             (settle_init (PayBotClient Sample.bot) Sample.five_cents "payer:my-bot"
                Sample.verified) ]
       = sent st2 w3 (settle_url (PayBotClient Sample.bot))
           (settle_init (PayBotClient Sample.bot) Sample.five_cents payloadString
              verified).
Proof.
  exact (pay_success_means_settled (PayBotClient Sample.bot)
           Sample.five_cents
           (Scripted.start
              [ Sample.answer 200 [] (Normal (JObj Sample.verified));
                Sample.answer 200 [] (Normal (JObj [("transaction", JStr "0xabc")])) ])
           {| success := true; txHash := JStr "0xabc";
              grossAmount := "50000"; netAmount := "49500";
              commissionAmount := "500"; commissionRate := 0.5;
              res_network := JUndefined; error := JUndefined;
              errorCode := JUndefined; errorDetails := JUndefined |}
           _ eq_refl eq_refl).
Defined.

(** A settlement without commission and without transaction reference. *)
Lemma pay_settles_from_both_bodies_witness :
  pay (PayBotClient Sample.bot) Sample.five_cents
    (Scripted.start
       [ Sample.answer 200 [] (Normal (JObj [("settlementToken", JStr "st_1")]));
         Sample.answer 200 [] (Normal (JObj [])) ])
  = (Normal {| success := true; txHash := JUndefined;
               grossAmount := "0"; netAmount := "0"; commissionAmount := "0";
               commissionRate := 0; res_network := JUndefined;
               error := JUndefined; errorCode := JUndefined;
               errorDetails := JUndefined |},
     Scripted.state []
       [ PayCalled Sample.five_cents;
         Fetched "http://localhost:3000/verify"
           (verify_init (PayBotClient Sample.bot)
              Sample.five_cents "payer:my-bot");
         Fetched "http://localhost:3000/settle"
           (settle_init (PayBotClient Sample.bot)
              Sample.five_cents "payer:my-bot" [("settlementToken", JStr "st_1")]) ]).
Proof.
  refine (proj1 (proj2 (proj2
            (pay_settles_from_both_bodies
               (PayBotClient Sample.bot) Sample.five_cents
               (Scripted.start
                  [ Sample.answer 200 []
                      (Normal (JObj [("settlementToken", JStr "st_1")]));
                    Sample.answer 200 [] (Normal (JObj [])) ])
               "payer:my-bot" [("settlementToken", JStr "st_1")]
               (Scripted.state [Sample.answer 200 [] (Normal (JObj []))]
                  [ PayCalled Sample.five_cents;
                    Fetched "http://localhost:3000/verify"
                      (verify_init (PayBotClient Sample.bot)
                         Sample.five_cents "payer:my-bot") ])
               {| status := 200; headers := []; json := Normal (JObj []) |}
               [] (JObj []) _ eq_refl eq_refl eq_refl eq_refl))) eq_refl).
  exists {| status := 200; headers := [];
            json := Normal (JObj [("settlementToken", JStr "st_1")]) |}.
  split; [|now repeat split].
  exists (entered
            (Scripted.start
               [ Sample.answer 200 []
                   (Normal (JObj [("settlementToken", JStr "st_1")]));
                 Sample.answer 200 [] (Normal (JObj [])) ])
            Sample.five_cents),
    [Sample.answer 200 [] (Normal (JObj []))].
  now repeat split.
Defined.

(** The conversions on the scripted platform. *)
Example conversions_of_decoded_values :
  JS_String (JObj [("amount", JNum 5)]) = Normal "[object Object]"
  /\ JS_String Case.unprintable
     = Throw (ErrorObject "Cannot convert object to primitive value")
  /\ JS_Number Case.unprintable
     = Throw (ErrorObject "Cannot convert object to primitive value")
  /\ JS_String (JArr [JNum 1; JNull; JStr "a"; JArr [JBool true; JUndefined]])
     = Normal "1,,a,true,"
  /\ JS_String (JArr [JStr "a"; Case.unprintable])
     = Throw (ErrorObject "Cannot convert object to primitive value").
Proof. repeat split. Qed.

(** A settlement whose commission has an amount without string form:
    both requests are made, the facilitator settles, and [pay] reports
    a failure. *)
Example pay_fails_on_unprintable_commission :
  pay (PayBotClient Sample.bot) Sample.five_cents
    (Scripted.start
       [ Sample.answer 200 []
           (Normal (JObj [ ("settlementToken", JStr "st_1");
                           ("commission", JObj [("grossAmount", Case.unprintable)]) ]));
         Sample.answer 200 [] (Normal (JObj [("transaction", JStr "0xabc")])) ])
  = (Normal (failed (JStr "Cannot convert object to primitive value")
               JUndefined JUndefined),
     Scripted.state []
       [ PayCalled Sample.five_cents;
         Fetched "http://localhost:3000/verify"
           (verify_init (PayBotClient Sample.bot) Sample.five_cents "payer:my-bot");
         Fetched "http://localhost:3000/settle"
           (settle_init (PayBotClient Sample.bot) Sample.five_cents "payer:my-bot"
              [ ("settlementToken", JStr "st_1");
                ("commission", JObj [("grossAmount", Case.unprintable)]) ]) ]).
Proof. reflexivity. Qed.

Lemma pay_fails_on_null_settle_body_witness :
  pay (PayBotClient Sample.bot) Sample.five_cents
    (Scripted.start
       [ Sample.answer 200 [] (Normal (JObj Sample.verified));
         Sample.answer 200 [] (Normal JNull) ])
  = (Normal (failed (JStr "Cannot read properties of null (reading 'transaction')")
               JUndefined JUndefined),
     Scripted.state []
       [ PayCalled Sample.five_cents;
         Fetched "http://localhost:3000/verify"
           (verify_init (PayBotClient Sample.bot)
              Sample.five_cents "payer:my-bot");
         Fetched "http://localhost:3000/settle"
           (settle_init (PayBotClient Sample.bot)
              Sample.five_cents "payer:my-bot" Sample.verified) ]).
Proof.
  refine (proj1
            (pay_fails_on_null_settle_body
               (PayBotClient Sample.bot) Sample.five_cents
               (Scripted.start
                  [ Sample.answer 200 [] (Normal (JObj Sample.verified));
                    Sample.answer 200 [] (Normal JNull) ])
               "payer:my-bot" Sample.verified
               (Scripted.state [Sample.answer 200 [] (Normal JNull)]
                  [ PayCalled Sample.five_cents;
                    Fetched "http://localhost:3000/verify"
                      (verify_init (PayBotClient Sample.bot)
                         Sample.five_cents "payer:my-bot") ])
               {| status := 200; headers := []; json := Normal JNull |}
               [] _ eq_refl eq_refl eq_refl)).
  exists {| status := 200; headers := []; json := Normal (JObj Sample.verified) |}.
  split; [|now repeat split].
  exists (entered
            (Scripted.start
               [ Sample.answer 200 [] (Normal (JObj Sample.verified));
                 Sample.answer 200 [] (Normal JNull) ])
            Sample.five_cents),
    [Sample.answer 200 [] (Normal JNull)].
  now repeat split.
Defined.

End PayRuns.

(** ** Further properties of the proof builder *)

(** X11. A signed proof is bound to the request: the message that is
    signed, and whose members are serialised beside the signature, has
    the account of the wallet key as sender, the payee as recipient,
    the base units as value and a nonce spelling fresh random bytes,
    and it is signed under what the registry lookup gave for the
    network: the registered domain, unless the network is the name of a
    member of [Object.prototype], for which the lookup gives that
    member. Building the proof makes no request. *)
Theorem signed_proof_binds_request `{Platform}
    (this : ClientConfig) (payTo amountBaseUnits network : string)
    (key : string) (st : State) (payloadString : string) (st' : State) :
  walletPrivateKey this = Some key ->
  key <> "" ->
  buildPaymentPayload this payTo amountBaseUnits network st
    = (Normal payloadString, st') ->
  exists domain account bytes value signature,
    signing_domain network = Some domain
    /\ (JsObject.inherits network = false ->
        exists registered,
          EIP712_DOMAINS !! network = Some registered
          /\ domain = JsObject.Own registered)
    /\ (EIP712_DOMAINS !! network = None -> domain = JsObject.Inherited network)
    /\ privateKeyToAccount key = Normal account
    /\ randomBytes 32 (world st) = (bytes, world st')
    /\ BigInt amountBaseUnits = Normal value
    /\ signTypedData account
         {| td_domain := domain; td_types := EIP3009_TYPES;
            td_primaryType := "TransferWithAuthorization";
            td_message :=
              {| auth_from := address account; auth_to := payTo;
                 auth_value := value; validAfter := 0;
                 validBefore := Date_now (world st') / 1000 + 3600;
                 auth_nonce := "0x" +:+ toHex bytes |} |} = Normal signature
    /\ payloadString
       = JSON_stringify
           (JObj [ ("from", JStr (address account));
                   ("to", JStr payTo);
                   ("value", JStr (Z_toString value));
                   ("validAfter", JStr "0");
                   ("validBefore",
                    JStr (Z_toString (Date_now (world st') / 1000 + 3600)));
                   ("nonce", JStr ("0x" +:+ toHex bytes));
                   ("signature", JStr signature) ])
    /\ log st' = log st.
Proof.
  intros Hkey Hne Hrun.
  pose proof (buildPaymentPayload_silent _ _ _ _ _ _ _ Hrun) as Hlog.
  unfold buildPaymentPayload in Hrun. rewrite Hkey in Hrun.
  destruct key as [|c key]; [now destruct Hne|].
  destruct (signing_domain network) as [domain|] eqn:Hdomain; [|discriminate Hrun].
  rewrite lift_bind in Hrun.
  destruct (privateKeyToAccount (String c key)) as [account|]; [|discriminate Hrun].
  unfold bind at 1, generateEIP3009Nonce in Hrun.
  destruct (randomBytes 32 (world st)) as [bytes w].
  unfold bind at 1, nowSeconds in Hrun. cbn [world] in Hrun.
  rewrite lift_bind in Hrun.
  destruct (BigInt amountBaseUnits) as [value|]; [|discriminate Hrun].
  rewrite lift_bind in Hrun.
  match type of Hrun with
  | context [signTypedData account ?td] =>
      destruct (signTypedData account td) as [signature|] eqn:Hsign;
        [|discriminate Hrun]
  end.
  inversion Hrun; subst. cbn [world] in *.
  exists domain, account, bytes, value, signature.
  split; [reflexivity|].
  unfold signing_domain, JsObject.index in Hdomain.
  split.
  { intros Hproto. rewrite Hproto in Hdomain.
    destruct (EIP712_DOMAINS !! network) as [registered|]; [|discriminate Hdomain].
    exists registered. split; [reflexivity|]. now inversion Hdomain. }
  split.
  { intros Hown. rewrite Hown in Hdomain.
    destruct (JsObject.inherits network); now inversion Hdomain. }
  repeat split; try reflexivity; try exact Hsign; exact Hlog.
Qed.

(** X12. With a wallet key and a registered network, an amount whose
    base units are no integer for [BigInt] fails on the spot: [pay]
    returns the failure with the message of that error, and no request
    reaches the facilitator. *)
Theorem pay_rejects_non_integer_amount_locally `{Platform}
    (this : ClientConfig) (request : PaymentRequest) (st : State)
    (key : string) (domain : EIP712Domain) (account : Account) (e : Thrown) :
  walletPrivateKey this = Some key ->
  key <> "" ->
  EIP712_DOMAINS !! network_of request = Some domain ->
  privateKeyToAccount key = Normal account ->
  BigInt (usdToBaseUnits (amount request)) = Throw e ->
  exists st',
    pay this request st
    = (Normal (failed (JStr (getErrorMessage e)) JUndefined JUndefined), st')
    /\ log st' = (log st ++ [PayCalled request])%list.
Proof.
  intros Hkey Hne Hdomain Haccount Hbig.
  destruct (payload_of this request (entered st request)) as [outcome st1] eqn:Hbuild.
  pose proof (payload_keeps_log _ _ _ _ _ Hbuild) as Hlog.
  assert (Houtcome : outcome = Throw e).
  { unfold payload_of, buildPaymentPayload in Hbuild. rewrite Hkey in Hbuild.
    destruct key as [|c key]; [now destruct Hne|].
    unfold signing_domain, JsObject.index in Hbuild.
    rewrite Hdomain, lift_bind, Haccount in Hbuild.
    unfold bind at 1, generateEIP3009Nonce in Hbuild.
    destruct (randomBytes 32 (world (entered st request))) as [bytes w].
    unfold bind at 1, nowSeconds in Hbuild.
    rewrite lift_bind, Hbig in Hbuild. now inversion Hbuild. }
  subst outcome. exists st1.
  split; [exact (pay_without_proof _ _ _ _ _ Hbuild)|exact Hlog].
Qed.

(** X13. Without a wallet key (or with an empty one) the proof is the
    tag "payer:" and the bot id, for any payee, amount and network, and
    [pay] always hands the verify request with that proof to the
    transport, also for a network the registry does not know. *)
Theorem pay_in_mock_mode_always_verifies `{Platform}
    (this : ClientConfig) (request : PaymentRequest) (st : State) :
  walletPrivateKey this = None \/ walletPrivateKey this = Some "" ->
  payload_of this request (entered st request)
  = (Normal ("payer:" +:+ botId this), entered st request)
  /\ exists rest,
       log (snd (pay this request st))
       = (log st ++ PayCalled request
            :: Fetched (verify_url this)
                 (verify_init this request ("payer:" +:+ botId this))
            :: rest)%list.
Proof.
  intros Hmock.
  assert (Hbuild : payload_of this request (entered st request)
                   = (Normal ("payer:" +:+ botId this), entered st request)).
  { unfold payload_of, buildPaymentPayload. now destruct Hmock as [-> | ->]. }
  split; [exact Hbuild|].
  destruct (transport (verify_url this)
              (verify_init this request ("payer:" +:+ botId this))
              (world (entered st request))) as [[response|e] w2] eqn:Hverify.
  - assert (Hphase : verify_phase this request st ("payer:" +:+ botId this) response
                       (sent (entered st request) w2 (verify_url this)
                          (verify_init this request ("payer:" +:+ botId this))))
      by (exists (entered st request), w2; repeat split; assumption).
    destruct (pay_grows_after_verify _ _ _ _ _ _ Hphase) as [rest Hrest].
    exists rest. rewrite Hrest, (verify_phase_log _ _ _ _ _ _ Hphase), <- app_assoc.
    reflexivity.
  - exists []. rewrite (pay_verify_unreachable _ _ _ _ _ _ _ Hbuild Hverify).
    cbn [snd sent entered log]. now rewrite <- app_assoc.
Qed.

Section BuilderRuns.
#[local] Existing Instance Scripted.platform.

Lemma signed_proof_binds_request_witness :
  exists signature,
    buildPaymentPayload (PayBotClient Sample.signing_bot)
      Sample.payee "50000" "eip155:84532" (Scripted.start [])
    = (Normal
         (JSON_stringify
            (JObj [ ("from", JStr (address Scripted.account));
                    ("to", JStr Sample.payee);
                    ("value", JStr "50000");
                    ("validAfter", JStr "0");
                    ("validBefore", JStr "1700003600");
                    ("nonce", JStr ("0x" +:+ toHex (List.repeat Byte.x00 32)));
                    ("signature", JStr signature) ])),
       Scripted.start []).
Proof.
  destruct (signed_proof_binds_request (PayBotClient Sample.signing_bot)
              Sample.payee "50000" "eip155:84532" Sample.wallet_key (Scripted.start [])
              _ _ eq_refl ltac:(discriminate) eq_refl)
    as (domain & account & bytes & value & signature
        & _ & _ & _ & Ha & Hb & Hv & _ & E & _).
  exists signature.
  injection Ha as <-. injection Hb as <-. injection Hv as <-.
  exact (f_equal (fun p => (Normal p, Scripted.start [])) E).
Defined.

(** The amount "abc" has the base units "abc000000". *)
Lemma pay_rejects_non_integer_amount_locally_witness :
  exists st',
    pay (PayBotClient Sample.signing_bot)
      {| resource := Sample.url; amount := "abc"; payTo := Sample.payee;
         tokenContract := None; network := None |} (Scripted.start [])
    = (Normal (failed (JStr "Cannot convert abc000000 to a BigInt")
                 JUndefined JUndefined), st')
    /\ log st'
       = [PayCalled {| resource := Sample.url; amount := "abc"; payTo := Sample.payee;
                       tokenContract := None; network := None |}].
Proof.
  refine (pay_rejects_non_integer_amount_locally (PayBotClient Sample.signing_bot)
            {| resource := Sample.url; amount := "abc"; payTo := Sample.payee;
               tokenContract := None; network := None |} (Scripted.start [])
            Sample.wallet_key
            {| domain_name := "USDC"; domain_version := "2"; domain_chainId := 84532;
               verifyingContract := "0x036CbD53842c5426634e7929541eC2318f3dCF7e" |}
            Scripted.account
            (ErrorObject "Cannot convert abc000000 to a BigInt")
            eq_refl _ _ eq_refl eq_refl).
  - discriminate.
  - vm_compute. reflexivity.
Defined.

Lemma pay_in_mock_mode_always_verifies_witness :
  exists rest,
    log (snd (pay (PayBotClient Sample.bot) Sample.on_unknown_chain (Scripted.start [])))
    = PayCalled Sample.on_unknown_chain
        :: Fetched "http://localhost:3000/verify"
             (verify_init (PayBotClient Sample.bot) Sample.on_unknown_chain
                "payer:my-bot")
        :: rest.
Proof.
  exact (proj2 (pay_in_mock_mode_always_verifies (PayBotClient Sample.bot)
                  Sample.on_unknown_chain (Scripted.start []) (or_introl eq_refl))).
Defined.

End BuilderRuns.

(** ** The request helper and the account operations *)

Section RequestFacts.
Context `{Platform} `{UrlApi}.

(** [_request] once the URL is built. *)
Lemma request_unfold this path options st url0 :
  URL_new path (facilitatorUrl this) = Normal url0 ->
  _request this path options st
  = match transport (request_address url0 options) (request_init this options)
            (world st) with
    | (Throw e, w) =>
        (Raise (ApiError (network_error e)),
         sent st w (request_address url0 options) (request_init this options))
    | (Normal response, w) =>
        (if negb (ok response) then
           match api_error_of (json_or_empty response) response with
           | Normal err => Raise (ApiError err)
           | Throw e => Raise (OtherThrown e)
           end
         else
           match json response with
           | Normal data => Returned data
           | Throw e => Raise (OtherThrown e)
           end,
         sent st w (request_address url0 options) (request_init this options))
    end.
Proof.
  intros Hurl. unfold _request. rewrite Hurl. cbn zeta.
  fold (request_address url0 options). unfold fetch.
  destruct (transport _ _ _) as [[response|e] w]; [|reflexivity].
  destruct (negb (ok response)).
  - now destruct (api_error_of _ _).
  - now destruct (json response).
Qed.

Lemma api_error_status errorData response err :
  api_error_of errorData response = Normal err ->
  api_statusCode err = status response
  /\ api_code err = Js.coalesce (member errorData "code") (JStr "HTTP_ERROR")
  /\ JS_String (Js.coalesce (member errorData "error")
                  (JStr ("HTTP " +:+ Z_toString (status response))))
     = Normal (api_message err)
  /\ api_details err = member errorData "details".
Proof.
  unfold api_error_of. intros E.
  assert (Hbody : Js.nullish errorData = false) by (now destruct errorData).
  rewrite !(get_prop_member _ _ Hbody) in E. cbn [cbind] in E.
  destruct (JS_String _) as [message|]; [|discriminate E].
  cbn [cbind] in E. inversion E; subst. now repeat split.
Qed.

End RequestFacts.

(** X14. [_request] returns only the decoded body of a response that
    is ok: whenever it returns, the URL was valid, one request was
    made, the response had a status in 200-299 and its body decoded to
    the value returned. *)
Theorem request_returns_only_ok_bodies `{Platform} `{UrlApi}
    (this : ClientConfig) (path : string) (options : RequestOptions)
    (st : State) (data : JsValue) (st' : State) :
  _request this path options st = (Returned data, st') ->
  exists url0 response w,
    URL_new path (facilitatorUrl this) = Normal url0
    /\ transport (request_address url0 options) (request_init this options) (world st)
       = (Normal response, w)
    /\ (200 <= status response <= 299)%Z
    /\ json response = Normal data
    /\ st' = {| world := w;
                log := (log st ++ [Fetched (request_address url0 options)
                                     (request_init this options)])%list |}.
Proof.
  intros Hrun.
  destruct (URL_new path (facilitatorUrl this)) as [url0|e] eqn:Hurl.
  2:{ unfold _request in Hrun. rewrite Hurl in Hrun. discriminate Hrun. }
  rewrite (request_unfold _ _ _ _ _ Hurl) in Hrun.
  destruct (transport _ _ _) as [[response|e] w] eqn:Hfetch; [|discriminate Hrun].
  destruct (ok response) eqn:Hok; cbn [negb] in Hrun.
  - destruct (json response) as [body|e] eqn:Hjson; [|discriminate Hrun].
    inversion Hrun; subst. exists url0, response, w.
    repeat split; try assumption; unfold ok in Hok;
      apply andb_prop in Hok as [Hlo Hhi]; lia.
  - destruct (api_error_of _ _); discriminate Hrun.
Qed.

(** X15. A [PayBotApiError] thrown by [_request] tells the two kinds of
    failure apart: either the transport rejected, and the error is the
    network error with status 0 and code NETWORK_ERROR, or a response
    came that was not ok, and the error carries its status, with the
    code, message and details of its body, HTTP_ERROR and "HTTP" with
    the status standing in for a missing code and message. *)
Theorem request_api_error_origin `{Platform} `{UrlApi}
    (this : ClientConfig) (path : string) (options : RequestOptions)
    (st : State) (err : PayBotApiError) (st' : State) :
  _request this path options st = (Raise (ApiError err), st') ->
  (exists url0 e w,
      transport (request_address url0 options) (request_init this options) (world st)
        = (Throw e, w)
      /\ err = network_error e
      /\ api_statusCode err = 0%Z
      /\ api_code err = JStr "NETWORK_ERROR")
  \/ (exists url0 response w,
        transport (request_address url0 options) (request_init this options) (world st)
          = (Normal response, w)
        /\ ok response = false
        /\ api_statusCode err = status response
        /\ api_code err
           = Js.coalesce (member (json_or_empty response) "code") (JStr "HTTP_ERROR")
        /\ JS_String (Js.coalesce (member (json_or_empty response) "error")
                        (JStr ("HTTP " +:+ Z_toString (status response))))
           = Normal (api_message err)
        /\ api_details err = member (json_or_empty response) "details").
Proof.
  intros Hrun.
  destruct (URL_new path (facilitatorUrl this)) as [url0|e] eqn:Hurl.
  2:{ unfold _request in Hrun. rewrite Hurl in Hrun. discriminate Hrun. }
  rewrite (request_unfold _ _ _ _ _ Hurl) in Hrun.
  destruct (transport _ _ _) as [[response|e] w] eqn:Hfetch.
  - right. destruct (ok response) eqn:Hok; cbn [negb] in Hrun.
    + destruct (json response); discriminate Hrun.
    + destruct (api_error_of (json_or_empty response) response) as [err'|e] eqn:Herr;
        [|discriminate Hrun].
      inversion Hrun; subst.
      destruct (api_error_status _ _ _ Herr) as (Hs & Hc & Hm & Hd).
      exists url0, response, w. now repeat split.
  - left. inversion Hrun; subst. exists url0, e, w. now repeat split.
Qed.

(** X16. The error is not always a [PayBotApiError]: when a response
    that is not ok has the JSON value [null] as body, reading the
    error from it throws, and [_request] lets that TypeError through;
    and an invalid facilitator URL throws before any request. *)
Theorem request_other_errors `{Platform} `{UrlApi}
    (this : ClientConfig) (path : string) (options : RequestOptions) (st : State) :
  (forall url0 response w,
      URL_new path (facilitatorUrl this) = Normal url0 ->
      transport (request_address url0 options) (request_init this options) (world st)
        = (Normal response, w) ->
      ok response = false ->
      json response = Normal JNull ->
      _request this path options st
      = (Raise (OtherThrown (ErrorObject (cannot_read JNull "error"))),
         sent st w (request_address url0 options) (request_init this options)))
  /\ (forall e,
        URL_new path (facilitatorUrl this) = Throw e ->
        _request this path options st = (Raise (OtherThrown e), st)).
Proof.
  split.
  - intros url0 response w Hurl Hfetch Hok Hjson.
    rewrite (request_unfold _ _ _ _ _ Hurl), Hfetch, Hok. cbn [negb].
    unfold json_or_empty. now rewrite Hjson.
  - intros e Hurl. unfold _request. now rewrite Hurl.
Qed.

(** X17. [setLimits] does not look at the body it awaits: it returns
    whenever the response to its PUT is ok and decodable, whatever the
    body says, and otherwise throws what [_request] throws. *)
Theorem setLimits_ignores_the_body `{Platform} `{UrlApi}
    (this : ClientConfig) (limits : LimitsConfig) (st : State)
    (url0 : Url) (response : Response) (w : World) (body : JsValue) :
  URL_new "/limits" (facilitatorUrl this) = Normal url0 ->
  transport (request_address url0 (limits_options this limits))
    (request_init this (limits_options this limits)) (world st)
    = (Normal response, w) ->
  ok response = true ->
  json response = Normal body ->
  setLimits this limits st
  = (Returned tt,
     sent st w (request_address url0 (limits_options this limits))
       (request_init this (limits_options this limits))).
Proof.
  intros Hurl Hfetch Hok Hjson. unfold setLimits.
  fold (limits_options this limits).
  now rewrite (request_unfold _ _ _ _ _ Hurl), Hfetch, Hok, Hjson.
Qed.

(** Runs of the account operations on the scripted platform. *)

Section AccountRuns.
#[local] Existing Instance Scripted.platform.
#[local] Existing Instance ScriptedUrl.api.

Example balance_asks_for_the_bot :
  balance (PayBotClient Sample.bot)
    (Scripted.start [Sample.answer 200 [] (Normal (JObj [("trustLevel", JNum 2)]))])
  = (Returned (JObj [("trustLevel", JNum 2)]),
     Scripted.state []
       [ Fetched "http://localhost:3000/balance?botId=my-bot"
           (Some {| init_headers := Some [("X-API-Key", "pb_test_key")];
                    init_rest := [("method", JStr "GET"); ("body", JUndefined)] |}) ]).
Proof. reflexivity. Qed.

Lemma request_returns_only_ok_bodies_witness :
  exists url0 response w,
    URL_new "/balance" "http://localhost:3000" = Normal url0
    /\ transport
         (request_address url0
            {| opt_method := None; opt_body := None;
               opt_query := Some [("botId", "my-bot")] |})
         (request_init (PayBotClient Sample.bot)
            {| opt_method := None; opt_body := None;
               opt_query := Some [("botId", "my-bot")] |})
         (world (Scripted.start
                   [Sample.answer 200 [] (Normal (JObj [("trustLevel", JNum 2)]))]))
       = (Normal response, w)
    /\ (200 <= status response <= 299)%Z
    /\ json response = Normal (JObj [("trustLevel", JNum 2)])
    /\ Scripted.state []
         [ Fetched "http://localhost:3000/balance?botId=my-bot"
             (Some {| init_headers := Some [("X-API-Key", "pb_test_key")];
                      init_rest := [("method", JStr "GET"); ("body", JUndefined)] |}) ]
       = {| world := w;
            log := (log (Scripted.start
                           [Sample.answer 200 []
                              (Normal (JObj [("trustLevel", JNum 2)]))])
                    ++ [Fetched
                          (request_address url0
                             {| opt_method := None; opt_body := None;
                                opt_query := Some [("botId", "my-bot")] |})
                          (request_init (PayBotClient Sample.bot)
                             {| opt_method := None; opt_body := None;
                                opt_query := Some [("botId", "my-bot")] |})])%list |}.
Proof.
  exact (request_returns_only_ok_bodies (PayBotClient Sample.bot) "/balance"
           {| opt_method := None; opt_body := None;
              opt_query := Some [("botId", "my-bot")] |}
           (Scripted.start
              [Sample.answer 200 [] (Normal (JObj [("trustLevel", JNum 2)]))])
           (JObj [("trustLevel", JNum 2)])
           (Scripted.state []
              [ Fetched "http://localhost:3000/balance?botId=my-bot"
                  (Some {| init_headers := Some [("X-API-Key", "pb_test_key")];
                           init_rest := [("method", JStr "GET");
                                         ("body", JUndefined)] |}) ])
           eq_refl).
Defined.

(** A registration that is refused with status 409 and no JSON body. *)
Lemma request_api_error_origin_witness :
  register (PayBotClient Sample.bot) None
    (Scripted.start [Sample.answer 409 [] (Throw (ErrorObject "Unexpected token"))])
  = (Raise (ApiError {| api_message := "HTTP 409"; api_code := JStr "HTTP_ERROR";
                        api_statusCode := 409; api_details := JUndefined |}),
     Scripted.state []
       [ Fetched "http://localhost:3000/bots"
           (request_init (PayBotClient Sample.bot)
              {| opt_method := Some "POST";
                 opt_body := Some (JObj [ ("botId", JStr "my-bot");
                                          ("trustLevel", JNum 1) ]);
                 opt_query := None |}) ])
  /\ ((exists url0 e w,
         transport
           (request_address url0
              {| opt_method := Some "POST";
                 opt_body := Some (JObj [ ("botId", JStr "my-bot");
                                          ("trustLevel", JNum 1) ]);
                 opt_query := None |})
           (request_init (PayBotClient Sample.bot)
              {| opt_method := Some "POST";
                 opt_body := Some (JObj [ ("botId", JStr "my-bot");
                                          ("trustLevel", JNum 1) ]);
                 opt_query := None |})
           [Sample.answer 409 [] (Throw (ErrorObject "Unexpected token"))]
         = (Throw e, w)
         /\ {| api_message := "HTTP 409"; api_code := JStr "HTTP_ERROR";
               api_statusCode := 409; api_details := JUndefined |} = network_error e
         /\ 409%Z = 0%Z
         /\ JStr "HTTP_ERROR" = JStr "NETWORK_ERROR")
      \/ (exists url0 response w,
            transport
              (request_address url0
                 {| opt_method := Some "POST";
                    opt_body := Some (JObj [ ("botId", JStr "my-bot");
                                             ("trustLevel", JNum 1) ]);
                    opt_query := None |})
              (request_init (PayBotClient Sample.bot)
                 {| opt_method := Some "POST";
                    opt_body := Some (JObj [ ("botId", JStr "my-bot");
                                             ("trustLevel", JNum 1) ]);
                    opt_query := None |})
              [Sample.answer 409 [] (Throw (ErrorObject "Unexpected token"))]
            = (Normal response, w)
            /\ ok response = false
            /\ 409%Z = status response
            /\ JStr "HTTP_ERROR"
               = Js.coalesce (member (json_or_empty response) "code") (JStr "HTTP_ERROR")
            /\ JS_String (Js.coalesce (member (json_or_empty response) "error")
                            (JStr ("HTTP " +:+ Z_toString (status response))))
               = Normal "HTTP 409"
            /\ JUndefined = member (json_or_empty response) "details")).
Proof.
  split; [reflexivity|].
  exact (request_api_error_origin (PayBotClient Sample.bot) "/bots"
           {| opt_method := Some "POST";
              opt_body := Some (JObj [ ("botId", JStr "my-bot");
                                       ("trustLevel", JNum 1) ]);
              opt_query := None |}
           (Scripted.start
              [Sample.answer 409 [] (Throw (ErrorObject "Unexpected token"))])
           {| api_message := "HTTP 409"; api_code := JStr "HTTP_ERROR";
              api_statusCode := 409; api_details := JUndefined |}
           (Scripted.state []
              [ Fetched "http://localhost:3000/bots"
                  (request_init (PayBotClient Sample.bot)
                     {| opt_method := Some "POST";
                        opt_body := Some (JObj [ ("botId", JStr "my-bot");
                                                 ("trustLevel", JNum 1) ]);
                        opt_query := None |}) ])
           eq_refl).
Defined.

(** A health check answered 503 with the body [null]. *)
Example health_null_error_body :
  health (PayBotClient Sample.bot) (Scripted.start [Sample.answer 503 [] (Normal JNull)])
  = (Raise (OtherThrown
              (ErrorObject "Cannot read properties of null (reading 'error')")),
     Scripted.state []
       [ Fetched "http://localhost:3000/health"
           (Some {| init_headers := Some [("X-API-Key", "pb_test_key")];
                    init_rest := [("method", JStr "GET"); ("body", JUndefined)] |}) ]).
Proof. reflexivity. Qed.

(** A health check answered 500 with an error that has no string
    form: the [Error] constructor throws before the [PayBotApiError]
    exists. *)
Example health_unprintable_error :
  fst (health (PayBotClient Sample.bot)
         (Scripted.start
            [Sample.answer 500 [] (Normal (JObj [("error", Case.unprintable)]))]))
  = Raise (OtherThrown (ErrorObject "Cannot convert object to primitive value")).
Proof. reflexivity. Qed.

(** Limits that the facilitator answers with [success: false]. *)
Lemma setLimits_ignores_the_body_witness :
  setLimits (PayBotClient Sample.bot)
    {| maxTransactionUsd := Some 5%float; maxDailySpendUsd := None;
       maxTransactionsPerHour := None; allowedRecipients := Some [Sample.payee] |}
    (Scripted.start [Sample.answer 200 [] (Normal (JObj [("success", JBool false)]))])
  = (Returned tt,
     Scripted.state []
       [ Fetched "http://localhost:3000/limits"
           (request_init (PayBotClient Sample.bot)
              (limits_options (PayBotClient Sample.bot)
                 {| maxTransactionUsd := Some 5%float; maxDailySpendUsd := None;
                    maxTransactionsPerHour := None;
                    allowedRecipients := Some [Sample.payee] |})) ]).
Proof.
  exact (setLimits_ignores_the_body (PayBotClient Sample.bot)
           {| maxTransactionUsd := Some 5%float; maxDailySpendUsd := None;
              maxTransactionsPerHour := None; allowedRecipients := Some [Sample.payee] |}
           (Scripted.start
              [Sample.answer 200 [] (Normal (JObj [("success", JBool false)]))])
           ("http://localhost:3000/limits", [])
           {| status := 200; headers := [];
              json := Normal (JObj [("success", JBool false)]) |}
           [] (JObj [("success", JBool false)]) eq_refl eq_refl eq_refl eq_refl).
Defined.

End AccountRuns.

(** ** Comparisons of binary64 numbers *)

Section FloatFacts.

Lemma SFcompare_nan_r (x : SpecFloat.spec_float) :
  SpecFloat.SFcompare x SpecFloat.S754_nan = None.
Proof. now destruct x. Qed.

Lemma SFcompare_refl (x : SpecFloat.spec_float) :
  x <> SpecFloat.S754_nan -> SpecFloat.SFcompare x x = Some Eq.
Proof.
  destruct x as [s|s| |s m e]; intros Hx; try reflexivity.
  - now destruct s.
  - now destruct Hx.
  - cbn. rewrite Z.compare_refl.
    change (PosDef.Pos.compare_cont Eq m m) with (Pos.compare m m).
    rewrite Pos.compare_refl. now destruct s.
Qed.

(** [is_nan] holds of NaN only. *)
Lemma is_nan_Prim2SF (x : float) :
  PrimFloat.is_nan x = true -> Prim2SF x = SpecFloat.S754_nan.
Proof.
  unfold PrimFloat.is_nan. rewrite FloatAxioms.eqb_spec. unfold SpecFloat.SFeqb.
  intros Hx. destruct (Prim2SF x) eqn:E; try reflexivity;
    rewrite SFcompare_refl in Hx by discriminate; discriminate Hx.
Qed.

Lemma ltb_nan_l (x y : float) : PrimFloat.is_nan x = true -> PrimFloat.ltb x y = false.
Proof.
  intros Hx. rewrite FloatAxioms.ltb_spec, (is_nan_Prim2SF x Hx). reflexivity.
Qed.

Lemma ltb_nan_r (x y : float) : PrimFloat.is_nan y = true -> PrimFloat.ltb x y = false.
Proof.
  intros Hy. rewrite FloatAxioms.ltb_spec, (is_nan_Prim2SF y Hy).
  unfold SpecFloat.SFltb. now rewrite SFcompare_nan_r.
Qed.

Lemma is_nan_of_Prim2SF (x : float) :
  Prim2SF x = SpecFloat.S754_nan -> PrimFloat.is_nan x = true.
Proof.
  intros Hx. unfold PrimFloat.is_nan. rewrite FloatAxioms.eqb_spec, Hx. reflexivity.
Qed.

(** NaN divided by anything is NaN. *)
Lemma div_nan_l (x y : float) :
  PrimFloat.is_nan x = true -> PrimFloat.is_nan (PrimFloat.div x y) = true.
Proof.
  intros Hx. apply is_nan_of_Prim2SF.
  rewrite FloatAxioms.div_spec, (is_nan_Prim2SF x Hx). reflexivity.
Qed.

Lemma SFcompare_antisym (x y : SpecFloat.spec_float) :
  SpecFloat.SFcompare y x = option_map CompOpp (SpecFloat.SFcompare x y).
Proof.
  destruct x as [sx|sx| |sx mx ex], y as [sy|sy| |sy my ey]; cbn;
    try reflexivity; try (now destruct sx); try (now destruct sy);
    try (now destruct sx, sy).
  rewrite (Z.compare_antisym ex ey).
  destruct sx, sy; try reflexivity; destruct (ex ?= ey)%Z; cbn; try reflexivity;
    change (PosDef.Pos.compare_cont Eq my mx) with (Pos.compare my mx);
    change (PosDef.Pos.compare_cont Eq mx my) with (Pos.compare mx my);
    rewrite (Pos.compare_antisym mx my); now destruct (Pos.compare mx my).
Qed.

(** What is less than or equal is not greater. *)
Lemma leb_not_gt (x y : float) :
  PrimFloat.leb x y = true -> PrimFloat.ltb y x = false.
Proof.
  rewrite FloatAxioms.leb_spec, FloatAxioms.ltb_spec.
  unfold SpecFloat.SFleb, SpecFloat.SFltb. rewrite (SFcompare_antisym (Prim2SF x) (Prim2SF y)).
  now destruct (SpecFloat.SFcompare (Prim2SF x) (Prim2SF y)) as [[]|].
Qed.

End FloatFacts.

(** ** Further properties of the interceptor *)

Section ChallengeCases.
Context `{Platform}.

Lemma handler_first_outcome config url init st outcome w1 :
  transport url init (world st) = (outcome, w1) ->
  (forall response, outcome = Normal response -> status response <> 402%Z) ->
  handler_fetch (createX402Handler config) url init st
  = (outcome, sent st w1 url init).
Proof.
  intros Hfetch Hother. destruct outcome as [response|e].
  - exact (handler_passes_other_status _ _ _ _ _ _ Hfetch (Hother response eq_refl)).
  - cbn [createX402Handler handler_fetch].
    now rewrite (bind_throw _ _ _ _ _ (fetch_sent _ _ _ _ _ Hfetch)).
Qed.

Lemma parse_flat response url body :
  json response = Normal body ->
  Js.truthy (member body "paymentRequirements") = false ->
  Js.truthy (member body "amount") && Js.truthy (member body "payTo") = true ->
  parse402Response response url
  = match JS_String (member body "amount"), JS_String (member body "payTo") with
    | Normal amount, Normal payTo =>
        Some {| terms_amount := amount; terms_payTo := payTo |}
    | _, _ => None
    end.
Proof.
  intros Hjson Hreq Hflat. apply andb_prop in Hflat as [Ha Hp].
  assert (Hbody : Js.nullish body = false) by (now destruct body).
  unfold parse402Response. rewrite Hjson. cbn [cbind].
  rewrite !(get_prop_member _ _ Hbody). cbn [cbind].
  rewrite Hreq, Ha. cbn [cbind]. rewrite Hp.
  destruct (JS_String (member body "amount")); [|reflexivity]. cbn [cbind].
  now destruct (JS_String (member body "payTo")).
Qed.

Lemma parse_nothing response url body :
  json response = Normal body ->
  Js.truthy (member body "paymentRequirements") = false ->
  Js.truthy (member body "amount") && Js.truthy (member body "payTo") = false ->
  Js.nullish body = true
  \/ HeadersApi.get "X-Payment-Amount" (headers response) = None
  \/ HeadersApi.get "X-Payment-Amount" (headers response) = Some ""
  \/ HeadersApi.get "X-Payment-Address" (headers response) = None
  \/ HeadersApi.get "X-Payment-Address" (headers response) = Some "" ->
  parse402Response response url = None.
Proof.
  intros Hjson Hreq Hflat Hnone.
  unfold parse402Response. rewrite Hjson. cbn [cbind].
  destruct (Js.nullish body) eqn:Hbody; [now destruct body|].
  rewrite !(get_prop_member _ _ Hbody). cbn [cbind]. rewrite Hreq.
  assert (Hboth :
    Js.truthy match (if Js.truthy (member body "amount")
                     then Normal (member body "payTo")
                     else Normal (member body "amount")) with
              | Normal both => both
              | Throw _ => JUndefined
              end = false).
  { destruct (Js.truthy (member body "amount")) eqn:E; [exact Hflat|exact E]. }
  assert (Hheaders :
    match HeadersApi.get "X-Payment-Amount" (headers response),
          HeadersApi.get "X-Payment-Address" (headers response) with
    | Some a, Some p =>
        if negb (a =? "")%string && negb (p =? "")%string
        then Normal (Some {| terms_amount := a; terms_payTo := p |})
        else Normal None
    | _, _ => Normal None
    end = Normal None).
  { destruct (HeadersApi.get "X-Payment-Amount" (headers response)) as [a|];
      destruct (HeadersApi.get "X-Payment-Address" (headers response)) as [p|];
      try reflexivity.
    destruct Hnone as [Hn|[Hn|[Hn|[Hn|Hn]]]]; try discriminate Hn;
      injection Hn as ->; cbn; now rewrite ?andb_false_r. }
  destruct (Js.truthy (member body "amount")); cbn [cbind] in *;
    now rewrite Hboth, Hheaders.
Qed.

(** What a call of the interceptor adds after its first request. *)
Lemma handler_adds config url init st :
  exists added,
    log (snd (handler_fetch (createX402Handler config) url init st))
    = (log st ++ Fetched url init :: added)%list
    /\ (pay_calls added <= 1)%nat
    /\ (requests added <= 3)%nat.
Proof.
  destruct (transport url init (world st)) as [outcome w1] eqn:Hfetch.
  assert (Hnone : exists added,
    log (sent st w1 url init) = (log st ++ Fetched url init :: added)%list
    /\ (pay_calls added <= 1)%nat /\ (requests added <= 3)%nat).
  { exists []. cbn. repeat split; lia. }
  destruct outcome as [response|e].
  2:{ rewrite (handler_first_outcome _ _ _ _ _ _ Hfetch) by discriminate.
      exact Hnone. }
  destruct (Z.eq_dec (status response) 402%Z) as [Hstatus|Hstatus].
  2:{ rewrite (handler_first_outcome _ _ _ _ _ _ Hfetch)
        by (now intros ? [= <-]).
      exact Hnone. }
  destruct (parse402Response response url) as [terms|] eqn:Hparse.
  2:{ rewrite (handler_passes_on _ _ _ _ _ _ Hfetch Hstatus Hparse). exact Hnone. }
  rewrite (handler_on_challenge _ _ _ _ _ _ _ Hfetch Hstatus Hparse).
  destruct (exceeds config terms); [exact Hnone|].
  destruct (pay_adds_trace (PayBotClient (base config)) (payment_for config url terms)
              (sent st w1 url init)) as (padded & Hlog & Htrace).
  destruct (pay_trace_counts _ _ _ Htrace) as [Hcalls Hreqs].
  destruct (pay _ _ _) as [[result|e] st2]; cbn [snd] in Hlog.
  - destruct (success result); cbn [negb].
    + destruct (retryHeaders init result) as [hs|e].
      * unfold fetch. destruct (transport url (retry_init init hs) (world st2)).
        cbn [snd log]. rewrite Hlog. cbn [sent log].
        exists (padded ++ [Fetched url (retry_init init hs)])%list.
        split; [now rewrite <- !app_assoc|].
        unfold pay_calls, requests in *. rewrite !List.filter_app, !length_app.
        cbn. lia.
      * cbn [snd]. rewrite Hlog. cbn [sent log]. exists padded.
        split; [now rewrite <- app_assoc|]. lia.
    + cbn [snd]. rewrite Hlog. cbn [sent log]. exists padded.
      split; [now rewrite <- app_assoc|]. lia.
  - cbn [snd]. rewrite Hlog. cbn [sent log]. exists padded.
    split; [now rewrite <- app_assoc|]. lia.
Qed.

End ChallengeCases.

(** X18. When the first request does not end in a 402 response (the
    transport rejects, or the response has another status) the
    interceptor gives that outcome back as it is: one request, no
    payment. *)
Theorem handler_leaves_other_outcomes `{Platform}
    (config : X402HandlerConfig) (url : string) (init : option RequestInit)
    (st : State) (outcome : Completion Response) (w1 : World) :
  transport url init (world st) = (outcome, w1) ->
  (forall response, outcome = Normal response -> status response <> 402%Z) ->
  handler_fetch (createX402Handler config) url init st
  = (outcome, {| world := w1; log := (log st ++ [Fetched url init])%list |}).
Proof. apply handler_first_outcome. Qed.

(** X19. After a challenge within the ceiling, [pay] always returns,
    and its result alone decides what follows. A failure makes the
    interceptor throw in the state [pay] left, so that nothing is
    retried: "x402: Payment failed:" with the error of the result when
    that error has a string form, the TypeError of the conversion when
    it has none. A success is followed by the one retry when the
    headers of the retry can be built, and by the TypeError of building
    them otherwise, again in the state [pay] left. *)
Theorem handler_follows_payment_result `{Platform}
    (config : X402HandlerConfig) (url : string) (init : option RequestInit)
    (st : State) (response : Response) (w1 : World) (terms : PaymentTerms) :
  transport url init (world st) = (Normal response, w1) ->
  status response = 402%Z ->
  parse402Response response url = Some terms ->
  exceeds config terms = false ->
  exists result st2,
    pay (PayBotClient (base config)) (payment_for config url terms)
      {| world := w1; log := (log st ++ [Fetched url init])%list |}
    = (Normal result, st2)
    /\ handler_fetch (createX402Handler config) url init st
       = (if success result
          then match retryHeaders init result with
               | Normal headers => fetch url (retry_init init headers) st2
               | Throw e => (Throw e, st2)
               end
          else (match JS_String (error result) with
                | Normal reason =>
                    Throw (ErrorObject ("x402: Payment failed: " +:+ reason))
                | Throw e => Throw e
                end, st2))
    /\ (success result = false ->
        exists e, handler_fetch (createX402Handler config) url init st = (Throw e, st2))
    /\ (success result = false ->
        primitive (error result) = true ->
        exists reason,
          JS_String (error result) = Normal reason
          /\ handler_fetch (createX402Handler config) url init st
             = (Throw (ErrorObject ("x402: Payment failed: " +:+ reason)), st2)).
Proof.
  intros Hfetch Hstatus Hparse Hbelow.
  destruct (pay_returns_reported (PayBotClient (base config))
              (payment_for config url terms) (sent st w1 url init))
    as (result & st2 & Hpay & _).
  exists result, st2. split; [exact Hpay|].
  rewrite (handler_on_challenge _ _ _ _ _ _ _ Hfetch Hstatus Hparse), Hbelow, Hpay.
  split; [now destruct (success result)|]. split.
  - intros ->. cbn [negb]. destruct (JS_String (error result)); now eexists.
  - intros -> Hprim. cbn [negb].
    destruct (JS_String_primitive _ Hprim) as [reason Hreason].
    exists reason. now rewrite Hreason.
Qed.

(** X20. An amount or a ceiling that is not a number switches the
    ceiling off: the comparison is false, and the payment protocol is
    called with the terms, whatever the amount. *)
Theorem handler_nan_bypasses_ceiling `{Platform}
    (config : X402HandlerConfig) (url : string) (init : option RequestInit)
    (st : State) (response : Response) (w1 : World) (terms : PaymentTerms) :
  transport url init (world st) = (Normal response, w1) ->
  status response = 402%Z ->
  parse402Response response url = Some terms ->
  PrimFloat.is_nan (Number_of_string (terms_amount terms)) = true
  \/ PrimFloat.is_nan (Number_of_string (default "1.00" (cfg_maxAutoPay config))) = true ->
  exceeds config terms = false
  /\ exists outcome st' rest,
       handler_fetch (createX402Handler config) url init st = (outcome, st')
       /\ log st' = (log st ++ Fetched url init
                       :: PayCalled (payment_for config url terms) :: rest)%list.
Proof.
  intros Hfetch Hstatus Hparse Hnan.
  assert (Hbelow : exceeds config terms = false).
  { unfold exceeds, amountUsd_of, ceiling_of. destruct Hnan as [Ha|Hc].
    - apply ltb_nan_r, div_nan_l, Ha.
    - apply ltb_nan_l, Hc. }
  split; [exact Hbelow|].
  exact (handler_attempts_payment _ _ _ _ _ _ _ Hfetch Hstatus Hparse Hbelow).
Qed.

(** X21. The ceiling is inclusive: an amount that, divided by
    1,000,000, is less than or equal to the ceiling is never refused,
    and the payment protocol is called for it. *)
Theorem handler_pays_up_to_ceiling `{Platform}
    (config : X402HandlerConfig) (url : string) (init : option RequestInit)
    (st : State) (response : Response) (w1 : World) (terms : PaymentTerms) :
  transport url init (world st) = (Normal response, w1) ->
  status response = 402%Z ->
  parse402Response response url = Some terms ->
  PrimFloat.leb (PrimFloat.div (Number_of_string (terms_amount terms)) 1e6)
    (Number_of_string (default "1.00" (cfg_maxAutoPay config))) = true ->
  exceeds config terms = false
  /\ exists outcome st' rest,
       handler_fetch (createX402Handler config) url init st = (outcome, st')
       /\ log st' = (log st ++ Fetched url init
                       :: PayCalled (payment_for config url terms) :: rest)%list.
Proof.
  intros Hfetch Hstatus Hparse Hle.
  assert (Hbelow : exceeds config terms = false) by (now apply leb_not_gt).
  split; [exact Hbelow|].
  exact (handler_attempts_payment _ _ _ _ _ _ _ Hfetch Hstatus Hparse Hbelow).
Qed.

(** X22. The simplified format: a body without truthy
    [paymentRequirements] whose top-level [amount] and [payTo] are both
    truthy gives the terms [String(amount)] and [String(payTo)] when
    both conversions succeed, as they do for members that are neither
    arrays nor objects; when one of them throws, nothing is extracted.
    Either way the payment headers are not read. *)
Theorem parse402Response_reads_top_level `{Platform}
    (response : Response) (url : string) (body : JsValue) :
  json response = Normal body ->
  Js.truthy (member body "paymentRequirements") = false ->
  Js.truthy (member body "amount") && Js.truthy (member body "payTo") = true ->
  (forall amount payTo,
      JS_String (member body "amount") = Normal amount ->
      JS_String (member body "payTo") = Normal payTo ->
      parse402Response response url
      = Some {| terms_amount := amount; terms_payTo := payTo |})
  /\ (primitive (member body "amount") = true ->
      primitive (member body "payTo") = true ->
      exists amount payTo,
        JS_String (member body "amount") = Normal amount
        /\ JS_String (member body "payTo") = Normal payTo
        /\ parse402Response response url
           = Some {| terms_amount := amount; terms_payTo := payTo |})
  /\ ((exists e, JS_String (member body "amount") = Throw e)
      \/ (exists e, JS_String (member body "payTo") = Throw e) ->
      parse402Response response url = None)
  /\ forall others,
       parse402Response
         {| status := status response; headers := others; json := json response |} url
       = parse402Response response url.
Proof.
  intros Hjson Hreq Hflat.
  pose proof (parse_flat _ url _ Hjson Hreq Hflat) as Hparse.
  split; [|split; [|split]].
  - intros amount payTo Ha Hp. now rewrite Hparse, Ha, Hp.
  - intros Ha Hp.
    destruct (JS_String_primitive _ Ha) as [amount Hamount].
    destruct (JS_String_primitive _ Hp) as [payTo HpayTo].
    exists amount, payTo. now rewrite Hparse, Hamount, HpayTo.
  - intros [[e He]|[e He]]; rewrite Hparse, He; [reflexivity|].
    now destruct (JS_String (member body "amount")).
  - intros others. rewrite Hparse.
    exact (parse_flat
             {| status := status response; headers := others; json := json response |}
             url body Hjson Hreq Hflat).
Qed.

(** X23. The interceptor fails open: when the body decodes but holds
    neither format, and the body is [null] or a payment header is
    missing or empty, nothing is extracted and the caller gets the 402
    response itself, after one request and no payment. *)
Theorem handler_fails_open `{Platform}
    (config : X402HandlerConfig) (url : string) (init : option RequestInit)
    (st : State) (response : Response) (w1 : World) (body : JsValue) :
  transport url init (world st) = (Normal response, w1) ->
  status response = 402%Z ->
  json response = Normal body ->
  Js.truthy (member body "paymentRequirements") = false ->
  Js.truthy (member body "amount") && Js.truthy (member body "payTo") = false ->
  Js.nullish body = true
  \/ HeadersApi.get "X-Payment-Amount" (headers response) = None
  \/ HeadersApi.get "X-Payment-Amount" (headers response) = Some ""
  \/ HeadersApi.get "X-Payment-Address" (headers response) = None
  \/ HeadersApi.get "X-Payment-Address" (headers response) = Some "" ->
  parse402Response response url = None
  /\ handler_fetch (createX402Handler config) url init st
     = (Normal response,
        {| world := w1; log := (log st ++ [Fetched url init])%list |}).
Proof.
  intros Hfetch Hstatus Hjson Hreq Hflat Hnone.
  pose proof (parse_nothing _ url _ Hjson Hreq Hflat Hnone) as Hparse.
  split; [exact Hparse|].
  exact (handler_passes_on _ _ _ _ _ _ Hfetch Hstatus Hparse).
Qed.

(** X24. One call of the interceptor makes its first request and then
    at most one call of [pay] and at most three more requests (verify,
    settle and the retry): it never pays twice and never loops. *)
Theorem handler_pays_at_most_once `{Platform}
    (config : X402HandlerConfig) (url : string) (init : option RequestInit)
    (st : State) :
  exists added,
    log (snd (handler_fetch (createX402Handler config) url init st))
    = (log st ++ Fetched url init :: added)%list
    /\ (pay_calls added <= 1)%nat
    /\ (requests added <= 3)%nat.
Proof. apply handler_adds. Qed.

(** Runs of the interceptor on the scripted platform. *)

Section InterceptorRuns.
#[local] Existing Instance Scripted.platform.

Lemma handler_leaves_other_outcomes_witness :
  handler_fetch (createX402Handler Sample.handler_config) Sample.url None
    (Scripted.start [Sample.answer 200 [] (Normal (JStr "content"))])
  = (Sample.answer 200 [] (Normal (JStr "content")),
     Scripted.state [] [Fetched Sample.url None]).
Proof.
  refine (handler_leaves_other_outcomes Sample.handler_config Sample.url None
            (Scripted.start [Sample.answer 200 [] (Normal (JStr "content"))])
            (Sample.answer 200 [] (Normal (JStr "content"))) [] eq_refl _).
  intros response [= <-]. discriminate.
Defined.

(** A challenge that is paid for, and a facilitator that refuses. *)
Lemma handler_follows_payment_result_witness :
  exists result st2,
    pay (PayBotClient Sample.bot)
      (payment_for Sample.handler_config Sample.url
         {| terms_amount := "50000"; terms_payTo := Sample.payee |})
      (Scripted.state [Case.refusal] [Fetched Sample.url None])
    = (Normal result, st2)
    /\ handler_fetch (createX402Handler Sample.handler_config) Sample.url None
         (Scripted.start
            [Normal (Case.challenge Sample.payment_headers (JObj [])); Case.refusal])
       = (if success result
          then match retryHeaders None result with
               | Normal headers => fetch Sample.url (retry_init None headers) st2
               | Throw e => (Throw e, st2)
               end
          else (match JS_String (error result) with
                | Normal reason =>
                    Throw (ErrorObject ("x402: Payment failed: " +:+ reason))
                | Throw e => Throw e
                end, st2))
    /\ (success result = false ->
        exists e,
          handler_fetch (createX402Handler Sample.handler_config) Sample.url None
            (Scripted.start
               [Normal (Case.challenge Sample.payment_headers (JObj [])); Case.refusal])
          = (Throw e, st2))
    /\ (success result = false ->
        primitive (error result) = true ->
        exists reason,
          JS_String (error result) = Normal reason
          /\ handler_fetch (createX402Handler Sample.handler_config) Sample.url None
               (Scripted.start
                  [Normal (Case.challenge Sample.payment_headers (JObj []));
                   Case.refusal])
             = (Throw (ErrorObject ("x402: Payment failed: " +:+ reason)), st2)).
Proof.
  exact (handler_follows_payment_result Sample.handler_config Sample.url None
           (Scripted.start
              [Normal (Case.challenge Sample.payment_headers (JObj [])); Case.refusal])
           (Case.challenge Sample.payment_headers (JObj []))
           [Case.refusal]
           {| terms_amount := "50000"; terms_payTo := Sample.payee |}
           eq_refl eq_refl eq_refl eq_refl).
Defined.

Example handler_throws_on_refusal :
  fst (handler_fetch (createX402Handler Sample.handler_config) Sample.url None
         (Scripted.start
            [Normal (Case.challenge Sample.payment_headers (JObj [])); Case.refusal]))
  = Throw (ErrorObject "x402: Payment failed: Trust level too low")
  /\ requests
       (log (snd (handler_fetch (createX402Handler Sample.handler_config)
                    Sample.url None
                    (Scripted.start
                       [Normal (Case.challenge Sample.payment_headers (JObj []));
                        Case.refusal]))))
     = 2%nat.
Proof. split; reflexivity. Qed.

(** A refusal whose error has no string form: the interceptor throws
    the TypeError of the conversion, not its own message. *)
Example handler_throws_type_error_on_unprintable_error :
  fst (handler_fetch (createX402Handler Sample.handler_config) Sample.url None
         (Scripted.start
            [ Normal (Case.challenge Sample.payment_headers (JObj []));
              Sample.answer 403 [] (Normal (JObj [("error", Case.unprintable)])) ]))
  = Throw (ErrorObject "Cannot convert object to primitive value").
Proof. reflexivity. Qed.

(** Terms without string form are not extracted, in either format. *)
Example parse_skips_unprintable_terms :
  parse402Response
    (Case.challenge Sample.payment_headers
       (JObj [("paymentRequirements", JObj [("amount", Case.unprintable)])]))
    Sample.url = None
  /\ parse402Response
       (Case.challenge Sample.payment_headers
          (JObj [("amount", JStr "50000"); ("payTo", Case.unprintable)]))
       Sample.url = None.
Proof. split; reflexivity. Qed.

Lemma handler_nan_bypasses_ceiling_witness :
  exceeds Sample.handler_config
    {| terms_amount := "abc"; terms_payTo := Sample.payee |} = false
  /\ exists outcome st' rest,
       handler_fetch (createX402Handler Sample.handler_config) Sample.url None
         (Scripted.start [Normal (Case.challenge [] Case.not_a_number)])
       = (outcome, st')
       /\ log st'
          = (log (Scripted.start [Normal (Case.challenge [] Case.not_a_number)])
             ++ Fetched Sample.url None
                  :: PayCalled
                       (payment_for Sample.handler_config Sample.url
                          {| terms_amount := "abc"; terms_payTo := Sample.payee |})
                  :: rest)%list.
Proof.
  exact (handler_nan_bypasses_ceiling Sample.handler_config Sample.url None
           (Scripted.start [Normal (Case.challenge [] Case.not_a_number)])
           (Case.challenge [] Case.not_a_number) []
           {| terms_amount := "abc"; terms_payTo := Sample.payee |}
           eq_refl eq_refl eq_refl (or_introl eq_refl)).
Defined.

Lemma handler_pays_up_to_ceiling_witness :
  exceeds Sample.handler_config
    {| terms_amount := "1000000"; terms_payTo := Sample.payee |} = false
  /\ exists outcome st' rest,
       handler_fetch (createX402Handler Sample.handler_config) Sample.url None
         (Scripted.start [Normal (Case.challenge [] Case.one_dollar)])
       = (outcome, st')
       /\ log st'
          = (log (Scripted.start [Normal (Case.challenge [] Case.one_dollar)])
             ++ Fetched Sample.url None
                  :: PayCalled
                       (payment_for Sample.handler_config Sample.url
                          {| terms_amount := "1000000"; terms_payTo := Sample.payee |})
                  :: rest)%list.
Proof.
  exact (handler_pays_up_to_ceiling Sample.handler_config Sample.url None
           (Scripted.start [Normal (Case.challenge [] Case.one_dollar)])
           (Case.challenge [] Case.one_dollar) []
           {| terms_amount := "1000000"; terms_payTo := Sample.payee |}
           eq_refl eq_refl eq_refl eq_refl).
Defined.

Lemma parse402Response_reads_top_level_witness :
  parse402Response (Case.challenge Sample.payment_headers Case.numeric) Sample.url
  = Some {| terms_amount := "50000"; terms_payTo := Sample.payee |}.
Proof.
  exact (proj1 (parse402Response_reads_top_level
                  (Case.challenge Sample.payment_headers Case.numeric) Sample.url
                  Case.numeric eq_refl eq_refl eq_refl)
           "50000" Sample.payee eq_refl eq_refl).
Defined.

Lemma handler_fails_open_witness :
  parse402Response (Case.challenge [("X-Payment-Amount", "50000")] (JObj [])) Sample.url
  = None
  /\ handler_fetch (createX402Handler Sample.handler_config) Sample.url None
       (Scripted.start
          [Normal (Case.challenge [("X-Payment-Amount", "50000")] (JObj []))])
     = (Normal (Case.challenge [("X-Payment-Amount", "50000")] (JObj [])),
        Scripted.state [] [Fetched Sample.url None]).
Proof.
  exact (handler_fails_open Sample.handler_config Sample.url None
           (Scripted.start
              [Normal (Case.challenge [("X-Payment-Amount", "50000")] (JObj []))])
           (Case.challenge [("X-Payment-Amount", "50000")] (JObj [])) [] (JObj [])
           eq_refl eq_refl eq_refl eq_refl eq_refl
           (or_intror (or_intror (or_intror (or_introl eq_refl))))).
Defined.

End InterceptorRuns.

(** ** The base URL of the bearer-token client *)

Section TrailingSlashes.
Import BearerClient.

Lemma strip_all_slashes (n : nat) :
  strip_trailing_slashes (JsString.repeat_char "/" n) = "".
Proof. induction n as [|n IH]; [reflexivity|]. cbn. now rewrite IH. Qed.

Lemma strip_appended_slashes (s : string) (n : nat) :
  strip_trailing_slashes (s +:+ JsString.repeat_char "/" n) = strip_trailing_slashes s.
Proof.
  induction s as [|c s IH]; [apply strip_all_slashes|].
  change (String c s +:+ ?t) with (String c (s +:+ t)).
  cbn [strip_trailing_slashes]. now rewrite IH.
Qed.

Lemma strip_no_trailing_slash (s : string) :
  last_char (strip_trailing_slashes s) <> Some "/"%char.
Proof.
  induction s as [|c s IH]; [discriminate|]. cbn [strip_trailing_slashes].
  destruct (strip_trailing_slashes s) as [|k kept] eqn:E.
  - destruct (Ascii.eqb_spec c "/") as [->|Hc]; [discriminate|].
    cbn. congruence.
  - exact IH.
Qed.

Lemma strip_splits (s : string) :
  exists n, s = strip_trailing_slashes s +:+ JsString.repeat_char "/" n.
Proof.
  induction s as [|c s [n IH]]; [now exists 0%nat|]. cbn [strip_trailing_slashes].
  destruct (strip_trailing_slashes s) as [|k kept] eqn:E.
  - change (s = JsString.repeat_char "/" n) in IH.
    destruct (Ascii.eqb_spec c "/") as [->|Hc].
    + exists (S n). change (String "/" s = String "/" (JsString.repeat_char "/" n)).
      now rewrite <- IH.
    + exists n. change (String c s = String c (JsString.repeat_char "/" n)).
      now rewrite <- IH.
  - exists n. change (String c (String k kept) +:+ ?t)
      with (String c (String k kept +:+ t)). now rewrite <- IH.
Qed.

End TrailingSlashes.

(** X25. The constructor of the bearer-token client removes every
    trailing slash of the base URL and nothing else: the stored URL
    does not end in a slash, the configured URL is the stored one
    followed by slashes only, and a base URL written with more or
    fewer trailing slashes gives the same request URLs. *)
Theorem bearer_client_base_url (config : BearerClient.Config) (n : nat) (path : string) :
  last_char (BearerClient.baseUrl (BearerClient.PayBotClient config)) <> Some "/"%char
  /\ (exists k,
        BearerClient.cfg_baseUrl config
        = BearerClient.baseUrl (BearerClient.PayBotClient config)
          +:+ JsString.repeat_char "/" k)
  /\ BearerClient.request_url
       (BearerClient.PayBotClient
          {| BearerClient.cfg_baseUrl :=
               BearerClient.cfg_baseUrl config +:+ JsString.repeat_char "/" n;
             BearerClient.cfg_key := BearerClient.cfg_key config;
             BearerClient.cfg_timeout := BearerClient.cfg_timeout config |})
       path
     = BearerClient.request_url (BearerClient.PayBotClient config) path.
Proof.
  split; [apply strip_no_trailing_slash|]. split; [apply strip_splits|].
  unfold BearerClient.request_url, BearerClient.PayBotClient.
  cbn [BearerClient.baseUrl BearerClient.cfg_baseUrl].
  now rewrite strip_appended_slashes.
Qed.

Example bearer_client_joins_with_one_slash :
  BearerClient.request_url
    (BearerClient.PayBotClient
       {| BearerClient.cfg_baseUrl := "https://api.paybot.dev//";
          BearerClient.cfg_key := "key"; BearerClient.cfg_timeout := None |})
    "/v1/payments"
  = "https://api.paybot.dev/v1/payments".
Proof. reflexivity. Qed.
